(** * Video recording controls of playwright-mcp: session record, state machine,
      capture lifecycle and watchdog.

    Shallow embedding of [src/tools/video.ts] (the module-level
    [videoRecordingState], [validateStateTransition], [stopRecordingInternal],
    [startRecordingTimeout] and the three tool handlers) and of the capture
    part of the [Context] class ([closeBrowserContext], [startVideoRecording],
    [stopVideoRecording], [ensureTab], [injectRecordingOverlay]), together
    with its tab management ([newTab], [selectTab], [_onPageClosed],
    [close]) and the handler of the save tool ([videoSave]).

    JavaScript mutates the global record and the context object in place and
    may throw half-way through a handler; the embedding therefore threads an
    explicit [World] through a state-and-exception monad in which the state
    survives a throw.  Everything the platform decides (clock readings, the
    browser factory, navigation, the file system, random ids) is an explicit
    oracle record [Env] handed to each step. *)

From Stdlib Require Import ZArith QArith List String Bool Lia DecimalString.
Import ListNotations.
Local Open Scope Z_scope.
Local Open Scope string_scope.

(* ===================================================================== *)
(** ** Data model *)
(* ===================================================================== *)

(** [RecordingState] of overlay-template.ts. *)
Inductive RecordingState : Type := idle | recording | stopped.

(** The [action] enum of [videoOverlayControlSchema]. *)
Inductive Action : Type := record | pause | resume | stop.

(** [OverlayPosition] of config.ts. *)
Inductive OverlayPosition : Type :=
  top_left | top_right | bottom_left | bottom_right.

Definition RecordingState_eqb (a b : RecordingState) : bool :=
  match a, b with
  | idle, idle | recording, recording | stopped, stopped => true
  | _, _ => false
  end.

(** [recordVideo] option of a browser context: [{dir, size}]. *)
Record RecordVideo : Type := mkRecordVideo {
  rv_dir : string;
  rv_width : Z;
  rv_height : Z
}.

(** [DEFAULT_VIDEO_SIZE = { width: 800, height: 600 }]. *)
Definition DEFAULT_VIDEO_WIDTH : Z := 800.
Definition DEFAULT_VIDEO_HEIGHT : Z := 600.

(** [MAX_RECORDING_DURATION_MS = 7 * 60 * 1000]. *)
Definition MAX_RECORDING_DURATION_MS : Z := 7 * 60 * 1000.

(** The module-level [videoRecordingState].  Optional fields are [option];
    [Date]s are milliseconds since the epoch; the timer handle is the id
    [setTimeout] returned; [browserContext] is the id of the live playwright
    context; [contextRef] records whether the reference to the (single)
    [Context] object has been stored.  The never-written [config] field is
    left out. *)
Record VideoRecordingState : Type := mkVRS {
  isRecording : bool;
  startTime : option Z;
  filename : option string;
  videoPath : option string;
  browserContext : option nat;
  overlayEnabled : bool;
  overlayPosition : OverlayPosition;
  overlayState : RecordingState;
  sessionId : option string;
  stopTime : option Z;
  recordingTimeout : option nat;
  contextRef : bool
}.

(** The initial value of the global. *)
Definition initialVideoRecordingState : VideoRecordingState :=
  {| isRecording := false; startTime := None; filename := None;
     videoPath := None; browserContext := None;
     overlayEnabled := false; overlayPosition := top_right;
     overlayState := idle; sessionId := None; stopTime := None;
     recordingTimeout := None; contextRef := false |}.

(** A page of the live browser context.  [Tab] objects wrap pages one to one
    ([_onPageCreated] pushes a tab per page), so a tab is modelled by its
    page and [browserContext.pages()] is read off [_tabs]. *)
Record Page : Type := mkPage {
  page_id : nat;
  page_url : string
}.

(** The result of [_browserContextFactory.createContext()]: the playwright
    context, identified by [bc_id], with the [recordVideo] option it was
    created with and the overlay hooks registered on its 'page' event. *)
Record BrowserCtx : Type := mkBrowserCtx {
  bc_id : nat;
  bc_recordVideo : option RecordVideo;
  bc_pageHooks : list (OverlayPosition * string)
}.

(** The fields of class [Context] that the capture code reads or writes. *)
Record Context : Type := mkContext {
  _browserContextPromise : option BrowserCtx;
  _tabs : list Page;
  _currentTab : option nat;
  _videoRecordingEnabled : bool;
  _videoRecordingOptions : option RecordVideo
}.

Definition initialContext : Context :=
  {| _browserContextPromise := None; _tabs := []; _currentTab := None;
     _videoRecordingEnabled := false; _videoRecordingOptions := None |}.

(** Errors thrown by the modelled code, one constructor per [throw] site;
    [PlatformError] is an exception raised by a platform call that the code
    does not catch. *)
Inductive Error : Type :=
| OverlayMustBeEnabled
| InvalidStateTransition (current target : RecordingState)
| NoActiveRecording
| CanOnlyResume
| OVERLAY_ALREADY_ENABLED
| OVERLAY_NOT_ENABLED
| CONTEXT_CLOSED
| NoCurrentSnapshot
| VideoRecordingAlreadyEnabled
| VideoRecordingNotEnabled
| FailedToStopDuringPause
| PlatformError (what : string).

Definition stateName (s : RecordingState) : string :=
  match s with idle => "idle" | recording => "recording" | stopped => "stopped" end.

(** The text of each error, as in the source. *)
Definition errorMessage (e : Error) : string :=
  match e with
  | OverlayMustBeEnabled => "Overlay must be enabled before recording"
  | InvalidStateTransition c t =>
      "Invalid state transition: " ++ stateName c ++ " → " ++ stateName t
  | NoActiveRecording => "No active recording to stop/pause"
  | CanOnlyResume => "Can only resume from stopped state"
  | OVERLAY_ALREADY_ENABLED => "OVERLAY_ALREADY_ENABLED"
  | OVERLAY_NOT_ENABLED => "OVERLAY_NOT_ENABLED"
  | CONTEXT_CLOSED => "CONTEXT_CLOSED"
  | NoCurrentSnapshot =>
      "No current snapshot available. Capture a snapshot or navigate to a new location first."
  | VideoRecordingAlreadyEnabled => "Video recording is already enabled."
  | VideoRecordingNotEnabled => "Video recording is not enabled."
  | FailedToStopDuringPause => "Failed to stop recording during pause action"
  | PlatformError w => w
  end.

(** Outcome of a call that may throw. *)
Inductive Result (A : Type) : Type :=
| Ok (a : A)
| Throw (e : Error).
Arguments Ok {A} a.
Arguments Throw {A} e.

Definition isOk {A} (r : Result A) : bool :=
  match r with Ok _ => true | Throw _ => false end.

(* ===================================================================== *)
(** ** StateMachine: [validateStateTransition] *)
(* ===================================================================== *)

(** [validTransitions[currentState].includes(targetState)]. *)
Definition validTransitions (currentState : RecordingState) : list RecordingState :=
  match currentState with
  | idle => [recording]
  | recording => [stopped; recording]
  | stopped => [recording]
  end.

Definition includes (l : list RecordingState) (x : RecordingState) : bool :=
  existsb (RecordingState_eqb x) l.

Definition isStop (a : Action) : bool := match a with stop => true | _ => false end.
Definition isPause (a : Action) : bool := match a with pause => true | _ => false end.
Definition isResume (a : Action) : bool := match a with resume => true | _ => false end.
Definition isRecord (a : Action) : bool := match a with record => true | _ => false end.

(** [validateStateTransition(currentState, targetState, action)]; it reads
    [videoRecordingState.overlayEnabled] from the global [s]. *)
Definition validateStateTransition (s : VideoRecordingState)
    (currentState targetState : RecordingState) (action : Action) : Result unit :=
  if negb (overlayEnabled s) then Throw OverlayMustBeEnabled
  else if isRecord action then Ok tt
  else if isStop action && RecordingState_eqb currentState stopped then Ok tt
  else if negb (includes (validTransitions currentState) targetState)
       then Throw (InvalidStateTransition currentState targetState)
  else if (isStop action || isPause action)
          && negb (RecordingState_eqb currentState recording)
       then Throw NoActiveRecording
  else if isResume action && negb (RecordingState_eqb currentState stopped)
       then Throw CanOnlyResume
  else Ok tt.

(** The [switch (action)] of the control handler that picks [targetState]. *)
Definition targetStateOf (action : Action) : RecordingState :=
  match action with
  | record => recording
  | pause | stop => stopped
  | resume => recording
  end.

(** The rejection reasons the specification names. *)
Inductive Reason : Type := OverlayNotEnabled | NoActiveCapture | InvalidTransition.

(** Decision of the state machine: accept, or reject with a reason. *)
Inductive Decision : Type := Accept | Rejected (r : Reason).

(** Which named reason an error of [validateStateTransition] carries. *)
Definition reasonOf (e : Error) : option Reason :=
  match e with
  | OverlayMustBeEnabled => Some OverlayNotEnabled
  | InvalidStateTransition _ _ => Some InvalidTransition
  | CanOnlyResume => Some InvalidTransition
  | NoActiveRecording => Some NoActiveCapture
  | _ => None
  end.

(** The decision the control handler obtains for [action] in state
    [current]: it calls [validateStateTransition] with the target state of
    its own switch. *)
Definition validate (s : VideoRecordingState) (current : RecordingState)
    (action : Action) : option Decision :=
  match validateStateTransition s current (targetStateOf action) action with
  | Ok _ => Some Accept
  | Throw e => option_map Rejected (reasonOf e)
  end.

(** The transition table as the specification words it (section 4.1), for
    an enabled overlay. *)
Definition specTable (current : RecordingState) (action : Action) : Decision :=
  match action, current with
  | record, _ => Accept
  | pause, recording => Accept
  | pause, _ => Rejected NoActiveCapture
  | resume, stopped => Accept
  | resume, _ => Rejected InvalidTransition
  | stop, stopped => Accept
  | stop, recording => Accept
  | stop, idle => Rejected NoActiveCapture
  end.

(* ===================================================================== *)
(** ** The world: global record, context object, timers, platform trace *)
(* ===================================================================== *)

(** Calls made on the platform, in the order they happen (oldest first). *)
Inductive EnvOp : Type :=
| OpCloseContext (bc : nat)
| OpCreateContext (rv : option RecordVideo) (bc : nat)
| OpNewPage (p : nat)
| OpGoto (p : nat) (url : string)
| OpVideoPath (p : nat)
| OpWait (ms : Z)
| OpMkdir (dir : string)
| OpAddInitScript (p : nat) (pos : OverlayPosition) (sid : string)
| OpEvaluateOverlay (p : nat)
| OpUpdateOverlay (p : nat) (st : RecordingState)
| OpSetTimeout (id : nat) (ms : Z)
| OpClearTimeout (id : nat)
| OpDebug (msg : string).

(** [videoRecordingState], the [Context] instance, the timers that are
    pending in the event loop, a supply of fresh ids (timers, pages,
    contexts) and the trace of platform calls. *)
Record World : Type := mkWorld {
  vrs : VideoRecordingState;
  ctx : Context;
  timers : list nat;
  fresh : nat;
  trace : list EnvOp
}.

Definition initialWorld : World :=
  {| vrs := initialVideoRecordingState; ctx := initialContext;
     timers := []; fresh := 0%nat; trace := [] |}.

(** What [pages[0].video()] followed by [video.path()] yields. *)
Inductive VideoProbe : Type :=
| NoVideo
| VideoAt (path : string)
| VideoPathThrows.

(** Everything the platform decides during one handler run. *)
Record Env : Type := mkEnv {
  e_stampAt : Z;                        (* new Date() behind the file name *)
  e_startAt : Z;                        (* new Date() stored as startTime *)
  e_stopAt : Z;                         (* new Date() stored as stopTime *)
  e_now : Z;                            (* new Date() read by the status tool *)
  e_isoStamp : Z -> string;             (* toISOString().replace(/[:.]/g, '-') *)
  e_outputFile : string -> option string; (* outputFile(config, name); None: throws *)
  e_dirname : string -> string;         (* path.dirname *)
  e_mkdir : bool;                       (* fs.promises.mkdir succeeds *)
  e_close : bool;                       (* close() of the context succeeds *)
  e_createContext : option (list string); (* createContext(): None throws, else
                                           the urls of the pages it starts with *)
  e_newPage : bool;                     (* browserContext.newPage() succeeds *)
  e_goto : string -> bool;              (* page.goto(url) succeeds *)
  e_video : VideoProbe;
  e_addInitScript : bool;               (* page.addInitScript succeeds *)
  e_evaluate : bool;                    (* page.evaluate succeeds *)
  e_randomUUID : string;                (* crypto.randomUUID() *)
  e_stat : string -> option Z           (* fs.promises.stat(path).size *)
}.

(** State-and-exception monad; the world survives a throw, as the mutated
    JavaScript objects do. *)
Definition M (A : Type) : Type := World -> World * Result A.

Definition ret {A} (a : A) : M A := fun w => (w, Ok a).
Definition throw {A} (e : Error) : M A := fun w => (w, Throw e).
Definition bind {A B} (m : M A) (k : A -> M B) : M B :=
  fun w => match m w with
           | (w', Ok a) => k a w'
           | (w', Throw e) => (w', Throw e)
           end.
Definition tryCatch {A} (m : M A) (handler : Error -> M A) : M A :=
  fun w => match m w with
           | (w', Ok a) => (w', Ok a)
           | (w', Throw e) => handler e w'
           end.

Declare Scope js_scope.
Delimit Scope js_scope with js.
Notation "x <- m ;; k" := (bind m (fun x => k))
  (at level 61, m at next level, right associativity) : js_scope.
Notation "m ;;; k" := (bind m (fun _ => k))
  (at level 61, right associativity) : js_scope.
Local Open Scope js_scope.

Definition getVRS : M VideoRecordingState := fun w => (w, Ok (vrs w)).
Definition getCtx : M Context := fun w => (w, Ok (ctx w)).
Definition modifyVRS (f : VideoRecordingState -> VideoRecordingState) : M unit :=
  fun w => ({| vrs := f (vrs w); ctx := ctx w; timers := timers w;
               fresh := fresh w; trace := trace w |}, Ok tt).
Definition modifyCtx (f : Context -> Context) : M unit :=
  fun w => ({| vrs := vrs w; ctx := f (ctx w); timers := timers w;
               fresh := fresh w; trace := trace w |}, Ok tt).
Definition emit (op : EnvOp) : M unit :=
  fun w => ({| vrs := vrs w; ctx := ctx w; timers := timers w;
               fresh := fresh w; trace := (trace w ++ [op])%list |}, Ok tt).
Definition freshId : M nat :=
  fun w => ({| vrs := vrs w; ctx := ctx w; timers := timers w;
               fresh := S (fresh w); trace := trace w |}, Ok (fresh w)).
Definition when (b : bool) (m : M unit) : M unit := if b then m else ret tt.

(** A [for ... of] loop whose body may throw. *)
Fixpoint forEach {A} (l : list A) (body : A -> M unit) : M unit :=
  match l with
  | [] => ret tt
  | x :: l' => body x ;;; forEach l' body
  end.

(** Field updates of the global record. *)
Definition set_isRecording (b : bool) (s : VideoRecordingState) :=
  {| isRecording := b; startTime := startTime s; filename := filename s;
     videoPath := videoPath s; browserContext := browserContext s;
     overlayEnabled := overlayEnabled s; overlayPosition := overlayPosition s;
     overlayState := overlayState s; sessionId := sessionId s;
     stopTime := stopTime s; recordingTimeout := recordingTimeout s;
     contextRef := contextRef s |}.
Definition set_startTime (t : option Z) (s : VideoRecordingState) :=
  {| isRecording := isRecording s; startTime := t; filename := filename s;
     videoPath := videoPath s; browserContext := browserContext s;
     overlayEnabled := overlayEnabled s; overlayPosition := overlayPosition s;
     overlayState := overlayState s; sessionId := sessionId s;
     stopTime := stopTime s; recordingTimeout := recordingTimeout s;
     contextRef := contextRef s |}.
Definition set_filename (f : option string) (s : VideoRecordingState) :=
  {| isRecording := isRecording s; startTime := startTime s; filename := f;
     videoPath := videoPath s; browserContext := browserContext s;
     overlayEnabled := overlayEnabled s; overlayPosition := overlayPosition s;
     overlayState := overlayState s; sessionId := sessionId s;
     stopTime := stopTime s; recordingTimeout := recordingTimeout s;
     contextRef := contextRef s |}.
Definition set_videoPath (p : option string) (s : VideoRecordingState) :=
  {| isRecording := isRecording s; startTime := startTime s; filename := filename s;
     videoPath := p; browserContext := browserContext s;
     overlayEnabled := overlayEnabled s; overlayPosition := overlayPosition s;
     overlayState := overlayState s; sessionId := sessionId s;
     stopTime := stopTime s; recordingTimeout := recordingTimeout s;
     contextRef := contextRef s |}.
Definition set_browserContext (b : option nat) (s : VideoRecordingState) :=
  {| isRecording := isRecording s; startTime := startTime s; filename := filename s;
     videoPath := videoPath s; browserContext := b;
     overlayEnabled := overlayEnabled s; overlayPosition := overlayPosition s;
     overlayState := overlayState s; sessionId := sessionId s;
     stopTime := stopTime s; recordingTimeout := recordingTimeout s;
     contextRef := contextRef s |}.
Definition set_overlayEnabled (b : bool) (s : VideoRecordingState) :=
  {| isRecording := isRecording s; startTime := startTime s; filename := filename s;
     videoPath := videoPath s; browserContext := browserContext s;
     overlayEnabled := b; overlayPosition := overlayPosition s;
     overlayState := overlayState s; sessionId := sessionId s;
     stopTime := stopTime s; recordingTimeout := recordingTimeout s;
     contextRef := contextRef s |}.
Definition set_overlayPosition (p : OverlayPosition) (s : VideoRecordingState) :=
  {| isRecording := isRecording s; startTime := startTime s; filename := filename s;
     videoPath := videoPath s; browserContext := browserContext s;
     overlayEnabled := overlayEnabled s; overlayPosition := p;
     overlayState := overlayState s; sessionId := sessionId s;
     stopTime := stopTime s; recordingTimeout := recordingTimeout s;
     contextRef := contextRef s |}.
Definition set_overlayState (st : RecordingState) (s : VideoRecordingState) :=
  {| isRecording := isRecording s; startTime := startTime s; filename := filename s;
     videoPath := videoPath s; browserContext := browserContext s;
     overlayEnabled := overlayEnabled s; overlayPosition := overlayPosition s;
     overlayState := st; sessionId := sessionId s;
     stopTime := stopTime s; recordingTimeout := recordingTimeout s;
     contextRef := contextRef s |}.
Definition set_sessionId (i : option string) (s : VideoRecordingState) :=
  {| isRecording := isRecording s; startTime := startTime s; filename := filename s;
     videoPath := videoPath s; browserContext := browserContext s;
     overlayEnabled := overlayEnabled s; overlayPosition := overlayPosition s;
     overlayState := overlayState s; sessionId := i;
     stopTime := stopTime s; recordingTimeout := recordingTimeout s;
     contextRef := contextRef s |}.
Definition set_stopTime (t : option Z) (s : VideoRecordingState) :=
  {| isRecording := isRecording s; startTime := startTime s; filename := filename s;
     videoPath := videoPath s; browserContext := browserContext s;
     overlayEnabled := overlayEnabled s; overlayPosition := overlayPosition s;
     overlayState := overlayState s; sessionId := sessionId s;
     stopTime := t; recordingTimeout := recordingTimeout s;
     contextRef := contextRef s |}.
Definition set_recordingTimeout (t : option nat) (s : VideoRecordingState) :=
  {| isRecording := isRecording s; startTime := startTime s; filename := filename s;
     videoPath := videoPath s; browserContext := browserContext s;
     overlayEnabled := overlayEnabled s; overlayPosition := overlayPosition s;
     overlayState := overlayState s; sessionId := sessionId s;
     stopTime := stopTime s; recordingTimeout := t;
     contextRef := contextRef s |}.
Definition set_contextRef (b : bool) (s : VideoRecordingState) :=
  {| isRecording := isRecording s; startTime := startTime s; filename := filename s;
     videoPath := videoPath s; browserContext := browserContext s;
     overlayEnabled := overlayEnabled s; overlayPosition := overlayPosition s;
     overlayState := overlayState s; sessionId := sessionId s;
     stopTime := stopTime s; recordingTimeout := recordingTimeout s;
     contextRef := b |}.

(* ===================================================================== *)
(** ** class Context: environment lifecycle *)
(* ===================================================================== *)

Definition set_browserContextPromise (b : option BrowserCtx) (c : Context) :=
  {| _browserContextPromise := b; _tabs := _tabs c; _currentTab := _currentTab c;
     _videoRecordingEnabled := _videoRecordingEnabled c;
     _videoRecordingOptions := _videoRecordingOptions c |}.
Definition set_tabs (t : list Page) (c : Context) :=
  {| _browserContextPromise := _browserContextPromise c; _tabs := t;
     _currentTab := _currentTab c;
     _videoRecordingEnabled := _videoRecordingEnabled c;
     _videoRecordingOptions := _videoRecordingOptions c |}.
Definition set_currentTab (t : option nat) (c : Context) :=
  {| _browserContextPromise := _browserContextPromise c; _tabs := _tabs c;
     _currentTab := t;
     _videoRecordingEnabled := _videoRecordingEnabled c;
     _videoRecordingOptions := _videoRecordingOptions c |}.
Definition set_videoRecordingEnabled (b : bool) (c : Context) :=
  {| _browserContextPromise := _browserContextPromise c; _tabs := _tabs c;
     _currentTab := _currentTab c;
     _videoRecordingEnabled := b;
     _videoRecordingOptions := _videoRecordingOptions c |}.
Definition set_videoRecordingOptions (o : option RecordVideo) (c : Context) :=
  {| _browserContextPromise := _browserContextPromise c; _tabs := _tabs c;
     _currentTab := _currentTab c;
     _videoRecordingEnabled := _videoRecordingEnabled c;
     _videoRecordingOptions := o |}.

(** JavaScript truthiness of a string: the empty string is falsy. *)
Definition truthy (s : string) : bool :=
  match s with EmptyString => false | _ => true end.

(** Truthiness of [string | undefined]. *)
Definition truthyOpt (o : option string) : bool :=
  match o with Some s => truthy s | None => false end.

(** [url && url !== 'about:blank']: the page is not a placeholder. *)
Definition isRealUrl (url : string) : bool :=
  truthy url && negb (String.eqb url "about:blank").

(** [_onPageCreated(page)]: push a tab; it becomes current if none is. *)
Definition _onPageCreated (page : Page) : M unit :=
  modifyCtx (fun c => set_tabs (_tabs c ++ [page])%list c) ;;;
  c <- getCtx ;;
  match _currentTab c with
  | None => modifyCtx (set_currentTab (Some (page_id page)))
  | Some _ => ret tt
  end.

(** [currentTabOrDie()]: the current tab, resolved among [_tabs]. *)
Definition findPage (id : nat) (tabs : list Page) : option Page :=
  find (fun p => Nat.eqb (page_id p) id) tabs.

Definition currentTabOrDie : M Page :=
  c <- getCtx ;;
  match _currentTab c with
  | None => throw NoCurrentSnapshot
  | Some id =>
      match findPage id (_tabs c) with
      | Some p => ret p
      | None => ret {| page_id := id; page_url := "about:blank" |}
      end
  end.

(** [_setupBrowserContext()]: create the environment; when video recording
    is enabled and options are stored, [recordVideo] is added to the context
    options for this one creation.  The pages the new context starts with
    get a tab each.  (Request interception and tracing depend only on the
    configuration and are not part of the model.) *)
Definition _setupBrowserContext (env : Env) : M BrowserCtx :=
  c <- getCtx ;;
  let rv := if _videoRecordingEnabled c then _videoRecordingOptions c else None in
  match e_createContext env with
  | None => throw (PlatformError "createContext")
  | Some urls =>
      id <- freshId ;;
      emit (OpCreateContext rv id) ;;;
      forEach urls (fun u =>
        p <- freshId ;;
        _onPageCreated {| page_id := p; page_url := u |}) ;;;
      ret {| bc_id := id; bc_recordVideo := rv; bc_pageHooks := [] |}
  end.

(** [_ensureBrowserContext()]: reuse the live environment or create one; a
    failed creation leaves [_browserContextPromise] unset. *)
Definition _ensureBrowserContext (env : Env) : M BrowserCtx :=
  c <- getCtx ;;
  match _browserContextPromise c with
  | Some bc => ret bc
  | None =>
      bc <- _setupBrowserContext env ;;
      modifyCtx (set_browserContextPromise (Some bc)) ;;;
      ret bc
  end.

(** [browserContext.newPage()]: the 'page' event first reaches
    [_onPageCreated], then the overlay hooks registered on this context
    (their failures stay inside the event handlers). *)
Definition newPage (env : Env) : M nat :=
  if negb (e_newPage env) then throw (PlatformError "newPage")
  else
    p <- freshId ;;
    emit (OpNewPage p) ;;;
    _onPageCreated {| page_id := p; page_url := "about:blank" |} ;;;
    c <- getCtx ;;
    forEach (match _browserContextPromise c with
             | Some bc => bc_pageHooks bc
             | None => []
             end)
            (fun h => emit (OpAddInitScript p (fst h) (snd h))) ;;;
    ret p.

Definition setUrl (id : nat) (url : string) (tabs : list Page) : list Page :=
  map (fun p => if Nat.eqb (page_id p) id
                then {| page_id := id; page_url := url |} else p) tabs.

(** [page.goto(url)]. *)
Definition goto (env : Env) (p : nat) (url : string) : M unit :=
  emit (OpGoto p url) ;;;
  if negb (e_goto env url) then throw (PlatformError "goto")
  else modifyCtx (fun c => set_tabs (setUrl p url (_tabs c)) c).

(** [ensureTab()]. *)
Definition ensureTab (env : Env) : M unit :=
  _ensureBrowserContext env ;;;
  c <- getCtx ;;
  match _currentTab c with
  | None => newPage env ;;; ret tt
  | Some _ => ret tt
  end.

(** [closeBrowserContext()]. *)
Definition closeBrowserContext (env : Env) : M unit :=
  c <- getCtx ;;
  match _browserContextPromise c with
  | Some bc =>
      emit (OpCloseContext (bc_id bc)) ;;;
      (if e_close env then ret tt else throw (PlatformError "close")) ;;;
      modifyCtx (set_browserContextPromise None) ;;;
      modifyCtx (set_currentTab None) ;;;
      modifyCtx (set_tabs [])
  | None => ret tt
  end.

(** The urls saved before the environment is torn down. *)
Definition savedUrls (tabs : list Page) : list string :=
  filter isRealUrl (map page_url tabs).

(** The page-restoring tail of [startVideoRecording]. *)
Definition restoreTabs (env : Env) (currentUrls : list string) : M unit :=
  if Nat.ltb 0 (List.length currentUrls)
  then forEach currentUrls (fun url => p <- newPage env ;; goto env p url)
  else newPage env ;;; ret tt.

(** [startVideoRecording(recordVideoOptions)]. *)
Definition startVideoRecording (env : Env) (recordVideoOptions : option RecordVideo)
  : M unit :=
  c <- getCtx ;;
  if _videoRecordingEnabled c then throw VideoRecordingAlreadyEnabled
  else
    let currentUrls := savedUrls (_tabs c) in
    modifyCtx (set_videoRecordingOptions recordVideoOptions) ;;;
    modifyCtx (set_videoRecordingEnabled true) ;;;
    closeBrowserContext env ;;;
    _ensureBrowserContext env ;;;
    restoreTabs env currentUrls ;;;
    emit (OpDebug "Video recording started, browser context recreated").

(** [pages[0].video()] and [video.path()]. *)
Definition probeVideo (env : Env) (p : Page) : M (option string) :=
  emit (OpVideoPath (page_id p)) ;;;
  match e_video env with
  | NoVideo => ret None
  | VideoAt path => ret (Some path)
  | VideoPathThrows => throw (PlatformError "video.path")
  end.

(** [stopVideoRecording()]. *)
Definition stopVideoRecording (env : Env) : M (option string) :=
  c <- getCtx ;;
  if negb (_videoRecordingEnabled c) then throw VideoRecordingNotEnabled
  else
    videoPath <-
      match _browserContextPromise c with
      | Some _ =>
          vp <- match _tabs c with
                | p0 :: _ => probeVideo env p0
                | [] => ret None
                end ;;
          closeBrowserContext env ;;;
          ret vp
      | None => ret None
      end ;;
    modifyCtx (set_videoRecordingEnabled false) ;;;
    modifyCtx (set_videoRecordingOptions None) ;;;
    emit (OpWait 1000) ;;;
    ret videoPath.

(** [injectRecordingOverlay(page, position, sessionId)]. *)
Definition injectRecordingOverlay (env : Env) (page : Page)
    (position : OverlayPosition) (sid : string) : M unit :=
  emit (OpAddInitScript (page_id page) position sid) ;;;
  (if e_addInitScript env then ret tt else throw (PlatformError "addInitScript")) ;;;
  when (negb (String.eqb (page_url page) "about:blank"))
    (emit (OpEvaluateOverlay (page_id page)) ;;;
     when (negb (e_evaluate env))
       (emit (OpDebug "Failed to inject overlay immediately, will be injected on next load:"))).

(** [browserContext.on('page', page => injectRecordingOverlay(...))] on the
    live context. *)
Definition registerPageHook (position : OverlayPosition) (sid : string) : M unit :=
  modifyCtx (fun c =>
    match _browserContextPromise c with
    | Some bc =>
        set_browserContextPromise
          (Some {| bc_id := bc_id bc; bc_recordVideo := bc_recordVideo bc;
                   bc_pageHooks := (bc_pageHooks bc ++ [(position, sid)])%list |}) c
    | None => c
    end).

(** *** Tab management *)

(** An entry of [_modalStates]: a modal state with the tab that raised it. *)
Record ModalState : Type := mkModalState {
  ms_tab : nat;
  ms_description : string
}.

(** [array[i]] for an integer [i]: [undefined] outside the array. *)
Definition at_index {A} (l : list A) (i : Z) : option A :=
  if Z.ltb i 0 then None else nth_error l (Z.to_nat i).

(** [_tabs.indexOf(tab)]; [None] stands for [-1]. *)
Fixpoint indexOf (tab : nat) (tabs : list Page) : option nat :=
  match tabs with
  | [] => None
  | p :: ps => if Nat.eqb (page_id p) tab then Some 0%nat
               else option_map S (indexOf tab ps)
  end.

(** [_tabs.splice(index, 1)]. *)
Definition splice1 (index : nat) (tabs : list Page) : list Page :=
  (firstn index tabs ++ skipn (S index) tabs)%list.

(** [close()]: forget the live environment, then close it.  [_tabs] and
    [_currentTab] are not touched.  (Tracing depends only on the
    configuration and is not part of the model.) *)
Definition close (env : Env) : M unit :=
  c <- getCtx ;;
  match _browserContextPromise c with
  | None => ret tt
  | Some bc =>
      emit (OpDebug "close context") ;;;
      modifyCtx (set_browserContextPromise None) ;;;
      emit (OpCloseContext (bc_id bc)) ;;;
      if e_close env then ret tt else throw (PlatformError "close")
  end.

(** [_onPageClosed(tab)].  [_modalStates] is handed in and the filtered
    array is returned.  [void this.close()] is not awaited: a rejection
    stays outside the caller. *)
Definition _onPageClosed (env : Env) (tab : nat) (modalStates : list ModalState)
  : M (list ModalState) :=
  let modalStates := filter (fun st => negb (Nat.eqb (ms_tab st) tab)) modalStates in
  c <- getCtx ;;
  match indexOf tab (_tabs c) with
  | None => ret modalStates
  | Some index =>
      modifyCtx (fun c => set_tabs (splice1 index (_tabs c)) c) ;;;
      c <- getCtx ;;
      when (match _currentTab c with Some i => Nat.eqb i tab | None => false end)
        (modifyCtx (fun c =>
           set_currentTab
             (option_map page_id
                (at_index (_tabs c)
                   (Z.min (Z.of_nat index) (Z.of_nat (List.length (_tabs c)) - 1))))
             c)) ;;;
      c <- getCtx ;;
      when (Nat.eqb (List.length (_tabs c)) 0)
        (tryCatch (close env) (fun _ => ret tt)) ;;;
      ret modalStates
  end.

(** [selectTab(index)] for an integer [index]; [bringToFront] tells whether
    [page.bringToFront()] succeeds.  Reading [page] of [undefined] raises a
    [TypeError]. *)
Definition selectTab (bringToFront : bool) (index : Z) : M unit :=
  modifyCtx (fun c =>
    set_currentTab (option_map page_id (at_index (_tabs c) (index - 1))) c) ;;;
  c <- getCtx ;;
  match _currentTab c with
  | None => throw (PlatformError "TypeError")
  | Some _ =>
      if bringToFront then ret tt else throw (PlatformError "bringToFront")
  end.


(* ===================================================================== *)
(** ** video.ts: watchdog, finalisation and the tool handlers *)
(* ===================================================================== *)

(** Seconds from a millisecond difference: [ms / 1000]. *)
Definition seconds (ms : Z) : Q := Qmake ms 1000.

(** [setTimeout(callback, ms)]: a fresh handle, pending in the event loop. *)
Definition setTimeout (ms : Z) : M nat :=
  id <- freshId ;;
  emit (OpSetTimeout id ms) ;;;
  (fun w => ({| vrs := vrs w; ctx := ctx w; timers := (timers w ++ [id])%list;
                fresh := fresh w; trace := trace w |}, Ok id)).

(** [clearTimeout(handle)]. *)
Definition clearTimeout (id : nat) : M unit :=
  emit (OpClearTimeout id) ;;;
  (fun w => ({| vrs := vrs w; ctx := ctx w;
                timers := filter (fun t => negb (Nat.eqb t id)) (timers w);
                fresh := fresh w; trace := trace w |}, Ok tt)).

(** [updateOverlayState(page, state)]: best effort, a failing
    [page.evaluate] is logged and swallowed. *)
Definition updateOverlayState (env : Env) (page : nat) (st : RecordingState) : M unit :=
  emit (OpUpdateOverlay page st) ;;;
  when (negb (e_evaluate env)) (emit (OpDebug "Failed to update overlay state:")).

(** The block
    [if (recordingTimeout) { clearTimeout(recordingTimeout); recordingTimeout = undefined; }]. *)
Definition clearRecordingTimeout : M unit :=
  s <- getVRS ;;
  match recordingTimeout s with
  | Some t => clearTimeout t ;;; modifyVRS (set_recordingTimeout None)
  | None => ret tt
  end.

(** [stopRecordingInternal(context, reason)].  [context.currentTab] is not a
    member of [Context], so [context.currentTab?.()] is [undefined] and the
    overlay push of the last [try] block never runs. *)
Definition stopRecordingInternal (env : Env) (reason : string) : M (option string) :=
  clearRecordingTimeout ;;;
  s <- getVRS ;;
  if isRecording s then
    videoPath <-
      tryCatch
        (stopResult <- stopVideoRecording env ;;
         ret (if truthyOpt stopResult then stopResult else None))
        (fun _ =>
           emit (OpDebug ("Stop recording (" ++ reason ++ ") encountered error:")) ;;;
           ret None) ;;
    let stopT := e_stopAt env in
    modifyVRS (set_isRecording false) ;;;
    modifyVRS (set_overlayState stopped) ;;;
    modifyVRS (set_stopTime (Some stopT)) ;;;
    ret videoPath
  else ret None.

(** [startRecordingTimeout(context)]. *)
Definition startRecordingTimeout : M unit :=
  s <- getVRS ;;
  match recordingTimeout s with
  | Some t => clearTimeout t
  | None => ret tt
  end ;;;
  modifyVRS (set_contextRef true) ;;;
  id <- setTimeout MAX_RECORDING_DURATION_MS ;;
  modifyVRS (set_recordingTimeout (Some id)).

(** The callback handed to [setTimeout] by [startRecordingTimeout]. *)
Definition onRecordingTimeout (env : Env) : M unit :=
  emit (OpDebug "Recording timeout reached (7 minutes). Auto-stopping recording.") ;;;
  s <- getVRS ;;
  if contextRef s
  then stopRecordingInternal env "max duration reached" ;;; ret tt
  else ret tt.

(** The event loop running the callback of pending timer [id]. *)
Definition fireTimer (env : Env) (id : nat) : M unit :=
  fun w =>
    if existsb (Nat.eqb id) (timers w)
    then onRecordingTimeout env
           {| vrs := vrs w; ctx := ctx w;
              timers := filter (fun t => negb (Nat.eqb t id)) (timers w);
              fresh := fresh w; trace := trace w |}
    else (w, Ok tt).

(** The statements shared by the [record] branch, the [resume] branch and
    the auto-start of [enable]: from the file-name timestamp down to
    [overlayState = 'recording'].  Returns [freshTab]. *)
Definition startOverlayRecording (env : Env) : M Page :=
  let timestamp := e_isoStamp env (e_stampAt env) in
  let name := "overlay-recording-" ++ timestamp ++ ".webm" in
  match e_outputFile env name with
  | None => throw (PlatformError "outputFile")
  | Some videoFilePath =>
      let videoDir := e_dirname env videoFilePath in
      emit (OpMkdir videoDir) ;;;
      (if e_mkdir env then ret tt else throw (PlatformError "mkdir")) ;;;
      startVideoRecording env
        (Some {| rv_dir := videoDir; rv_width := DEFAULT_VIDEO_WIDTH;
                 rv_height := DEFAULT_VIDEO_HEIGHT |}) ;;;
      freshTab <- currentTabOrDie ;;
      c <- getCtx ;;
      let freshBrowserContext := option_map bc_id (_browserContextPromise c) in
      s <- getVRS ;;
      let position := overlayPosition s in
      let sid := match sessionId s with Some i => i | None => "null" end in
      injectRecordingOverlay env freshTab position sid ;;;
      registerPageHook position sid ;;;
      modifyVRS (set_isRecording true) ;;;
      modifyVRS (set_startTime (Some (e_startAt env))) ;;;
      modifyVRS (set_filename (Some name)) ;;;
      modifyVRS (set_videoPath (Some videoFilePath)) ;;;
      modifyVRS (set_browserContext freshBrowserContext) ;;;
      modifyVRS (set_overlayState recording) ;;;
      ret freshTab
  end.

(** The auto-stop that precedes a new recording. *)
Definition autoStop (env : Env) (logLine reason : string) : M unit :=
  s <- getVRS ;;
  when (isRecording s)
    (emit (OpDebug logLine) ;;;
     stopRecordingInternal env reason ;;;
     modifyVRS (set_overlayState idle)).

(** Result of [browser_video_overlay_enable]. *)
Record EnableResponse : Type := mkEnableResponse {
  en_sessionId : string;
  en_position : OverlayPosition;
  en_recordingStarted : bool
}.

(** [videoOverlayEnable.handle(context, {position, autoStart})]. *)
Definition videoOverlayEnable (env : Env) (position : option OverlayPosition)
    (autoStart : option bool) : M EnableResponse :=
  s <- getVRS ;;
  if overlayEnabled s then throw OVERLAY_ALREADY_ENABLED
  else
    tryCatch (ensureTab env) (fun _ => throw CONTEXT_CLOSED) ;;;
    let position := match position with Some p => p | None => top_right end in
    let autoStart := match autoStart with Some b => b | None => false end in
    let sid := e_randomUUID env in
    modifyVRS (set_overlayEnabled true) ;;;
    modifyVRS (set_overlayPosition position) ;;;
    modifyVRS (set_overlayState idle) ;;;
    modifyVRS (set_sessionId (Some sid)) ;;;
    currentTab <- currentTabOrDie ;;
    injectRecordingOverlay env currentTab position sid ;;;
    registerPageHook position sid ;;;
    recordingStarted <-
      (if autoStart then
         autoStop env "Auto-stopping existing recording before autoStart"
           "auto-stop for autoStart" ;;;
         freshTab <- startOverlayRecording env ;;
         startRecordingTimeout ;;;
         updateOverlayState env (page_id freshTab) recording ;;;
         ret true
       else ret false) ;;
    ret {| en_sessionId := sid; en_position := position;
           en_recordingStarted := recordingStarted |}.

(** Result of [browser_video_overlay_control]. *)
Record ControlResponse : Type := mkControlResponse {
  previousState : RecordingState;
  currentState : RecordingState;
  c_videoPath : option string;
  duration : option Q;
  message : string
}.

(** The [pause] branch. *)
Definition pauseBranch (env : Env) (currentTab : Page)
  : M (option string * option Q * string) :=
  clearRecordingTimeout ;;;
  stopResult <- stopVideoRecording env ;;
  s <- getVRS ;;
  match (if truthyOpt stopResult then stopResult else None), startTime s with
  | Some path, Some startT =>
      let stopT := e_stopAt env in
      modifyVRS (set_isRecording false) ;;;
      modifyVRS (set_overlayState stopped) ;;;
      modifyVRS (set_stopTime (Some stopT)) ;;;
      updateOverlayState env (page_id currentTab) stopped ;;;
      ret (Some path, Some (seconds (stopT - startT)),
           "Recording paused (stopped). Video saved to " ++ path
             ++ ". Resume will start new recording.")
  | _, _ => throw FailedToStopDuringPause
  end.

(** The [stop] branch. *)
Definition stopBranch (env : Env) (currentTab : Page)
  : M (option string * option Q * string) :=
  clearRecordingTimeout ;;;
  stopResult <- stopVideoRecording env ;;
  s <- getVRS ;;
  match (if truthyOpt stopResult then stopResult else None), startTime s with
  | Some path, Some startT =>
      let stopT := e_stopAt env in
      modifyVRS (set_isRecording false) ;;;
      modifyVRS (set_overlayState stopped) ;;;
      modifyVRS (set_stopTime (Some stopT)) ;;;
      updateOverlayState env (page_id currentTab) stopped ;;;
      ret (Some path, Some (seconds (stopT - startT)),
           "Recording stopped. Video saved to " ++ path)
  | _, _ =>
      modifyVRS (set_isRecording false) ;;;
      modifyVRS (set_overlayState stopped) ;;;
      modifyVRS (set_stopTime (Some (e_stopAt env))) ;;;
      updateOverlayState env (page_id currentTab) stopped ;;;
      s' <- getVRS ;;
      let vp := if truthyOpt (videoPath s') then videoPath s' else None in
      ret (vp, None,
           "Recording stopped (was already stopped or timed out). Video path: "
             ++ match vp with Some p => p | None => "not available" end)
  end.

(** The [record] branch. *)
Definition recordBranch (env : Env) : M (option string * option Q * string) :=
  autoStop env "Auto-stopping existing recording before starting new one"
    "auto-stop for new recording" ;;;
  freshTab <- startOverlayRecording env ;;
  startRecordingTimeout ;;;
  updateOverlayState env (page_id freshTab) recording ;;;
  ret (None, None, "Recording started successfully (max duration: 7 minutes)").

(** The [resume] branch. *)
Definition resumeBranch (env : Env) : M (option string * option Q * string) :=
  freshTab <- startOverlayRecording env ;;
  modifyVRS (set_stopTime None) ;;;
  startRecordingTimeout ;;;
  updateOverlayState env (page_id freshTab) recording ;;;
  ret (None, None, "Recording resumed (new recording started, max duration: 7 minutes)").

(** [videoOverlayControl.handle(context, {action})]. *)
Definition videoOverlayControl (env : Env) (action : Action) : M ControlResponse :=
  s <- getVRS ;;
  if negb (overlayEnabled s) then throw OVERLAY_NOT_ENABLED
  else
    let previous := overlayState s in
    currentTab <- currentTabOrDie ;;
    let targetState := targetStateOf action in
    match validateStateTransition s previous targetState action with
    | Throw e => throw e
    | Ok _ =>
        r <- match action with
             | record => recordBranch env
             | pause => pauseBranch env currentTab
             | resume => resumeBranch env
             | stop => stopBranch env currentTab
             end ;;
        s' <- getVRS ;;
        ret {| previousState := previous; currentState := overlayState s';
               c_videoPath := fst (fst r); duration := snd (fst r);
               message := snd r |}
    end.

(** A reported [string | undefined | null]. *)
Inductive Reported : Type :=
| RNull
| RUndefined
| RString (s : string).

Definition reportOpt (o : option string) : Reported :=
  match o with Some s => RString s | None => RUndefined end.

Record VideoMetadata : Type := mkVideoMetadata {
  md_format : string;
  md_duration : Q;
  md_width : Z;
  md_height : Z;
  md_fileSize : Z
}.

(** The [status] object of [browser_video_status]. *)
Record StatusResponse : Type := mkStatusResponse {
  st_overlayEnabled : bool;
  st_overlayPosition : option OverlayPosition;
  st_sessionId : option string;
  st_state : RecordingState;
  st_elapsedTime : Q;
  st_startTime : option Z;
  st_stopTime : option Z;
  st_videoPath : Reported;
  st_videoMetadata : option VideoMetadata
}.

(** [elapsedTime] as the status handler computes it. *)
Definition elapsedTimeOf (s : VideoRecordingState) (now : Z) : Q :=
  match startTime s with
  | Some startT =>
      let endTime := match stopTime s with Some t => t | None => now end in
      seconds (endTime - startT)
  | None => 0%Q
  end.

(** The pure part of the status handler: the [status] object built from the
    record, the clock reading and the file size found by [stat]. *)
Definition statusOf (s : VideoRecordingState) (now : Z)
    (stat : string -> option Z) : StatusResponse :=
  let elapsedTime := elapsedTimeOf s now in
  let videoMetadata :=
    if RecordingState_eqb (overlayState s) stopped && truthyOpt (videoPath s)
    then match videoPath s with
         | Some p =>
             match stat p with
             | Some size =>
                 Some {| md_format := "webm"; md_duration := elapsedTime;
                         md_width := DEFAULT_VIDEO_WIDTH;
                         md_height := DEFAULT_VIDEO_HEIGHT;
                         md_fileSize := size |}
             | None => None
             end
         | None => None
         end
    else None in
  {| st_overlayEnabled := overlayEnabled s;
     st_overlayPosition := if overlayEnabled s then Some (overlayPosition s) else None;
     st_sessionId := sessionId s;
     st_state := overlayState s;
     st_elapsedTime := elapsedTime;
     st_startTime := startTime s;
     st_stopTime := stopTime s;
     st_videoPath := if RecordingState_eqb (overlayState s) stopped
                     then reportOpt (videoPath s) else RNull;
     st_videoMetadata := videoMetadata |}.

(** The [catch] of the metadata block: [stat] was tried and failed. *)
Definition statFailed (s : VideoRecordingState) (stat : string -> option Z) : bool :=
  RecordingState_eqb (overlayState s) stopped && truthyOpt (videoPath s) &&
  match videoPath s with
  | Some p => match stat p with Some _ => false | None => true end
  | None => false
  end.

(** [videoStatus.handle(context)]. *)
Definition videoStatus (env : Env) : M StatusResponse :=
  tryCatch (ensureTab env) (fun _ => throw CONTEXT_CLOSED) ;;;
  s <- getVRS ;;
  when (statFailed s (e_stat env))
    (emit (OpDebug "Failed to get video file stats:")) ;;;
  ret (statusOf s (e_now env) (e_stat env)).

(** *** The save tool *)

(** The [format] enum of [browser_video_save]. *)
Inductive SaveFormat : Type := webm | mp4.

(** What [videoSave.handle] returns: the source and destination of the
    copy its [action] will make, the format and the [code] lines. *)
Record SavePlan : Type := mkSavePlan {
  sv_sourcePath : option string;
  sv_outputPath : string;
  sv_format : SaveFormat;
  sv_code : list string
}.

(** Outcome of [videoSave.handle]: the "No video recording available to
    save" error, a rejecting [outputFile], or the plan. *)
Inductive SaveResult : Type :=
| NoVideoToSave
| OutputFileRejects
| SaveReady (plan : SavePlan).

(** [a || b] on [string | undefined]. *)
Definition orElse (a b : option string) : option string :=
  if truthyOpt a then a else b.

(** A [string | undefined] inside a template literal. *)
Definition shown (o : option string) : string :=
  match o with Some s => s | None => "undefined" end.

(** [videoSave.handle(context, {filename, format})]: it reads the global
    record [s] and writes nothing; the [action] it returns is not run by
    the handler. *)
Definition videoSave (env : Env) (s : VideoRecordingState) (name : string)
    (format : option SaveFormat) : SaveResult :=
  if negb (truthyOpt (filename s)) && negb (truthyOpt (videoPath s))
  then NoVideoToSave
  else
    match e_outputFile env name with
    | None => OutputFileRejects
    | Some outputPath =>
        let format := match format with Some f => f | None => webm end in
        let sourcePath := orElse (videoPath s) (filename s) in
        SaveReady
          {| sv_sourcePath := sourcePath;
             sv_outputPath := outputPath;
             sv_format := format;
             sv_code :=
               [ "// Save video recording from " ++ shown sourcePath;
                 "await fs.promises.copyFile('" ++ shown sourcePath ++ "', '"
                   ++ outputPath ++ "');" ] |}
    end.

(* ===================================================================== *)
(** ** Histories *)
(* ===================================================================== *)

(** What can happen to the session: a tool call or the watchdog firing. *)
Inductive Event : Type :=
| Enable (position : option OverlayPosition) (autoStart : option bool)
| Control (action : Action)
| Status
| WatchdogFires (id : nat).

Inductive Response : Type :=
| EnableDone (r : EnableResponse)
| ControlDone (r : ControlResponse)
| StatusDone (r : StatusResponse)
| WatchdogDone.

Definition mapM {A B} (f : A -> B) (m : M A) : M B := a <- m ;; ret (f a).

(** One step of the session under the platform behaviour [env]. *)
Definition step (env : Env) (ev : Event) : M Response :=
  match ev with
  | Enable p a => mapM EnableDone (videoOverlayEnable env p a)
  | Control a => mapM ControlDone (videoOverlayControl env a)
  | Status => mapM StatusDone (videoStatus env)
  | WatchdogFires id => mapM (fun _ => WatchdogDone) (fireTimer env id)
  end.

(** Run a history from [w]; handlers that throw leave their partial
    effects behind, as in the source.  Returns the final world and the
    outcomes, oldest first. *)
Fixpoint run (h : list (Env * Event)) (w : World) : World * list (Result Response) :=
  match h with
  | [] => (w, [])
  | (env, ev) :: h' =>
      let (w1, r) := step env ev w in
      let (w2, rs) := run h' w1 in
      (w2, r :: rs)
  end.

(** Worlds reachable from the initial one by any history under any
    platform behaviour. *)
Inductive reachable : World -> Prop :=
| reach_init : reachable initialWorld
| reach_step : forall w env ev,
    reachable w -> reachable (fst (step env ev w)).

(** A platform on which every call succeeds: all clock readings of the step
    are [t], the fresh context starts without pages and the recorded video
    is found at [video]. *)
Definition calmEnv (t : Z) (video : string) : Env :=
  {| e_stampAt := t; e_startAt := t; e_stopAt := t; e_now := t;
     e_isoStamp := fun z => NilZero.string_of_int (Z.to_int z);
     e_outputFile := fun name => Some ("/out/" ++ name);
     e_dirname := fun _ => "/out";
     e_mkdir := true; e_close := true;
     e_createContext := Some [];
     e_newPage := true; e_goto := fun _ => true;
     e_video := VideoAt video;
     e_addInitScript := true; e_evaluate := true;
     e_randomUUID := "session-1";
     e_stat := fun _ => Some 4096 |}.

(** The decision table the code implements for an enabled overlay. *)
Definition codeTable (current : RecordingState) (action : Action) : Decision :=
  match action, current with
  | record, _ => Accept
  | pause, recording => Accept
  | pause, _ => Rejected InvalidTransition
  | resume, stopped => Accept
  | resume, _ => Rejected InvalidTransition
  | stop, idle => Rejected InvalidTransition
  | stop, _ => Accept
  end.


(** Calls that act on the capture environment itself. *)
Definition isCaptureOp (op : EnvOp) : bool :=
  match op with
  | OpCloseContext _ | OpCreateContext _ _ | OpNewPage _ | OpGoto _ _
  | OpVideoPath _ | OpWait _ => true
  | _ => false
  end.

Definition captureOps (t : list EnvOp) : list EnvOp := filter isCaptureOp t.

(** The platform calls that restore the saved urls, the first new page
    getting id [n]: one [newPage] and one [goto] per url, or a single
    [newPage] when there is none. *)
Fixpoint restoreOps (n : nat) (urls : list string) : list EnvOp :=
  match urls with
  | [] => []
  | u :: us => OpNewPage n :: OpGoto n u :: restoreOps (S n) us
  end.

(** Pages numbered from [n] showing [urls]. *)
Fixpoint pagesFrom (n : nat) (urls : list string) : list Page :=
  match urls with
  | [] => []
  | u :: us => {| page_id := n; page_url := u |} :: pagesFrom (S n) us
  end.

(** A relation between the world before and after a computation holds
    whatever the computation returns. *)
Definition stable {A} (R : World -> World -> Prop) (m : M A) : Prop :=
  forall w, R w (fst (m w)).

(** The computation touches neither the session record nor the timers, and
    only draws ids from the supply. *)
Definition sameSession (w w' : World) : Prop :=
  vrs w' = vrs w /\ timers w' = timers w /\ (fresh w <= fresh w')%nat.

(** The identity fields of the record are kept. *)
Definition sameIdentity (w w' : World) : Prop :=
  sessionId (vrs w') = sessionId (vrs w) /\
  overlayPosition (vrs w') = overlayPosition (vrs w) /\
  overlayEnabled (vrs w') = overlayEnabled (vrs w).

(** Session invariants that tie the watchdog to the record: a pending timer
    is the one stored in [recordingTimeout]; a timer is pending only while a
    recording is active and the context reference is stored; [isRecording]
    implies the recording state of an enabled overlay; timer ids come from
    the supply. *)
Definition sessionInvOn (s : VideoRecordingState) (ts : list nat) (n : nat) : Prop :=
  (forall t, In t ts -> recordingTimeout s = Some t) /\
  (ts <> [] -> isRecording s = true /\ contextRef s = true) /\
  (isRecording s = true -> overlayState s = recording /\ overlayEnabled s = true) /\
  (forall t, In t ts -> (t < n)%nat).

Definition sessionInv (w : World) : Prop :=
  sessionInvOn (vrs w) (timers w) (fresh w).

(** Weakest precondition of a computation for a postcondition on its
    outcome and final world. *)
Definition wp {A} (m : M A) (Q : Result A -> World -> Prop) (w : World) : Prop :=
  Q (snd (m w)) (fst (m w)).

(** The world that holds context [c] and nothing else; the capture
    methods of [Context] are run on it to read off what they do to the
    context alone. *)
Definition onContext (c : Context) : World :=
  {| vrs := initialVideoRecordingState; ctx := c; timers := [];
     fresh := 0%nat; trace := [] |}.

(** [calmEnv] with a context whose [close()] rejects. *)
Definition closeFailsEnv (t : Z) : Env :=
  {| e_stampAt := t; e_startAt := t; e_stopAt := t; e_now := t;
     e_isoStamp := fun z => NilZero.string_of_int (Z.to_int z);
     e_outputFile := fun name => Some ("/out/" ++ name);
     e_dirname := fun _ => "/out";
     e_mkdir := true; e_close := false;
     e_createContext := Some [];
     e_newPage := true; e_goto := fun _ => true;
     e_video := VideoAt "/out/video.webm";
     e_addInitScript := true; e_evaluate := true;
     e_randomUUID := "session-1";
     e_stat := fun _ => Some 4096 |}.

(** [calmEnv] with a browser factory whose [createContext()] rejects. *)
Definition createFailsEnv (t : Z) : Env :=
  {| e_stampAt := t; e_startAt := t; e_stopAt := t; e_now := t;
     e_isoStamp := fun z => NilZero.string_of_int (Z.to_int z);
     e_outputFile := fun name => Some ("/out/" ++ name);
     e_dirname := fun _ => "/out";
     e_mkdir := true; e_close := true;
     e_createContext := None;
     e_newPage := true; e_goto := fun _ => true;
     e_video := VideoAt "/out/video.webm";
     e_addInitScript := true; e_evaluate := true;
     e_randomUUID := "session-1";
     e_stat := fun _ => Some 4096 |}.

(** Sample histories: enable without auto-start, then record. *)
Definition enabledThenRecord : list (Env * Event) :=
  [ (calmEnv 100 "/out/video.webm", Enable None None);
    (calmEnv 200 "/out/video.webm", Control record) ].

(** ... then stop, then a status query (which reopens a tab). *)
Definition recordedAndStopped : list (Env * Event) :=
  (enabledThenRecord ++
   [ (calmEnv 300 "/out/video.webm", Control stop);
     (calmEnv 400 "/out/video.webm", Status) ])%list.

(** The record after a finalisation at [e_stopAt env]: watchdog handle
    dropped, not recording, state [stopped], [stopTime] set. *)
Definition finalized (env : Env) (s : VideoRecordingState) : VideoRecordingState :=
  set_stopTime (Some (e_stopAt env))
    (set_overlayState stopped
       (set_isRecording false (set_recordingTimeout None s))).

(** The context after 'page' events for [ps] reached [_onPageCreated]. *)
Definition addPages (ps : list Page) (c : Context) : Context :=
  {| _browserContextPromise := _browserContextPromise c;
     _tabs := (_tabs c ++ ps)%list;
     _currentTab := match _currentTab c with
                    | Some i => Some i
                    | None => option_map page_id (hd_error ps)
                    end;
     _videoRecordingEnabled := _videoRecordingEnabled c;
     _videoRecordingOptions := _videoRecordingOptions c |}.

(** Every tab id was drawn from the supply before [n]. *)
Definition idsBelow (n : nat) (tabs : list Page) : Prop :=
  Forall (fun p => (page_id p < n)%nat) tabs.

(** Overlay hooks registered on the live context. *)
Definition liveHooks (c : Context) : list (OverlayPosition * string) :=
  match _browserContextPromise c with
  | Some bc => bc_pageHooks bc
  | None => []
  end.

(** The teardown call [closeBrowserContext] makes, if there is a live
    environment. *)
Definition closeOps (c : Context) : list EnvOp :=
  match _browserContextPromise c with
  | Some bc => [OpCloseContext (bc_id bc)]
  | None => []
  end.

(** The urls of the recreated pages: the saved ones, or one blank page. *)
Definition restoredUrls (urls : list string) : list string :=
  match urls with
  | [] => ["about:blank"]
  | _ => urls
  end.

(** The platform calls of [restoreTabs]. *)
Definition restoreTrace (n : nat) (urls : list string) : list EnvOp :=
  match urls with
  | [] => [OpNewPage n]
  | _ => restoreOps n urls
  end.

(** The current tab after the environment was recreated with pages [ps]. *)
Definition currentAfter (c : Context) (ps : list Page) : option nat :=
  match _browserContextPromise c, _currentTab c with
  | None, Some i => Some i
  | _, _ => option_map page_id (hd_error ps)
  end.

(** Sample worlds. *)
Definition enabledWorld : World :=
  fst (run [(calmEnv 100 "/out/video.webm", Enable None None)] initialWorld).

Definition recordingWorld : World := fst (run enabledThenRecord initialWorld).

Definition stoppedWorld : World := fst (run recordedAndStopped initialWorld).

(** A session that is browsing two tabs, one of them a placeholder. *)
Definition browsingWorld : World :=
  {| vrs := initialVideoRecordingState;
     ctx := {| _browserContextPromise :=
                 Some {| bc_id := 0; bc_recordVideo := None; bc_pageHooks := [] |};
               _tabs := [ {| page_id := 1; page_url := "https://example.com/" |};
                          {| page_id := 2; page_url := "about:blank" |} ];
               _currentTab := Some 1%nat;
               _videoRecordingEnabled := false;
               _videoRecordingOptions := None |};
     timers := []; fresh := 3%nat; trace := [] |}.

Definition sampleRecordVideo : RecordVideo :=
  {| rv_dir := "/out"; rv_width := DEFAULT_VIDEO_WIDTH;
     rv_height := DEFAULT_VIDEO_HEIGHT |}.

(** The history on which a restart fails after its auto-stop: enable,
    record, then record again while the browser factory rejects. *)
Definition failedRestart : list (Env * Event) :=
  (enabledThenRecord ++ [ (createFailsEnv 300, Control record) ])%list.

(** A step is a failed restart when a [record] action arrives while a
    recording is active and the handler throws. *)
Definition failedRestartStep (env : Env) (ev : Event) (w : World) : Prop :=
  ev = Control record /\ isRecording (vrs w) = true /\
  isOk (snd (step env ev w)) = false.

(** Worlds reachable without any failed restart. *)
Inductive reachableClean : World -> Prop :=
| clean_init : reachableClean initialWorld
| clean_step : forall w env ev,
    reachableClean w -> ~ failedRestartStep env ev w ->
    reachableClean (fst (step env ev w)).

(** An idle record carries no start time and no output path; a disabled
    overlay is idle; an active recording is in state [recording]. *)
Definition idleClear (s : VideoRecordingState) : Prop :=
  (overlayState s = idle -> startTime s = None /\ videoPath s = None) /\
  (overlayEnabled s = false -> overlayState s = idle /\ isRecording s = false) /\
  (isRecording s = true -> overlayState s = recording).

(** Auxiliary definitions for the further properties. *)

(** Until the overlay is enabled nothing has touched the record or the
    event loop. *)
Definition untouched (w : World) : Prop :=
  overlayEnabled (vrs w) = false ->
  vrs w = initialVideoRecordingState /\ timers w = [].

(** At most one watchdog is pending. *)
Definition atMostOne (w : World) : Prop := (List.length (timers w) <= 1)%nat.

(** The file name a recording started under [env] is given. *)
Definition recordingName (env : Env) : string :=
  "overlay-recording-" ++ e_isoStamp env (e_stampAt env) ++ ".webm".

(** What one step may do to [startTime], [filename] and [videoPath]: leave
    all three alone, or set all three from the clock, the timestamped name
    and [outputFile]. *)
Definition startFieldsStep (env : Env) (s s' : VideoRecordingState) : Prop :=
  (startTime s' = startTime s /\ filename s' = filename s /\
   videoPath s' = videoPath s) \/
  (startTime s' = Some (e_startAt env) /\
   filename s' = Some (recordingName env) /\
   videoPath s' = e_outputFile env (recordingName env) /\
   videoPath s' <> None).

(** The start fields are set together, and the file name is never empty. *)
Definition startFieldsInv (s : VideoRecordingState) : Prop :=
  (startTime s = None /\ filename s = None /\ videoPath s = None) \/
  (startTime s <> None /\ truthyOpt (filename s) = true /\ videoPath s <> None).

(** Pushes of a recording state to the overlay of a page. *)
Definition isOverlayUpdate (op : EnvOp) : bool :=
  match op with OpUpdateOverlay _ _ => true | _ => false end.

Definition overlayOps (t : list EnvOp) : list EnvOp := filter isOverlayUpdate t.

(** Invariants of the [Context] fields: tab ids are distinct and were drawn
    from the supply; the current tab is one of the open tabs; there is a
    current tab as soon as a tab is open; tabs exist only inside a live
    environment; while video recording is disabled no options are stored
    and the live environment was created without [recordVideo]. *)
Definition ctxInvOn (c : Context) (n : nat) : Prop :=
  NoDup (map page_id (_tabs c)) /\
  idsBelow n (_tabs c) /\
  (forall i, _currentTab c = Some i -> In i (map page_id (_tabs c))) /\
  (_currentTab c = None -> _tabs c = []) /\
  (_browserContextPromise c = None -> _tabs c = []) /\
  (_videoRecordingEnabled c = false ->
     _videoRecordingOptions c = None /\
     forall bc, _browserContextPromise c = Some bc -> bc_recordVideo bc = None).

Definition ctxInv (w : World) : Prop := ctxInvOn (ctx w) (fresh w).



(** The computation leaves the recording flag and the stored options. *)
Definition sameFlags (w w' : World) : Prop :=
  _videoRecordingEnabled (ctx w') = _videoRecordingEnabled (ctx w) /\
  _videoRecordingOptions (ctx w') = _videoRecordingOptions (ctx w).

(** The tab that becomes current when the current tab, which had [before]
    on its left and [after] on its right, is closed: its right neighbour,
    else its left neighbour. *)
Definition nextCurrent (before after : list Page) : option nat :=
  match after, rev before with
  | q :: _, _ => Some (page_id q)
  | [], q :: _ => Some (page_id q)
  | [], [] => None
  end.

(** [calmEnv] with pages that carry no video. *)
Definition noVideoEnv (t : Z) : Env :=
  {| e_stampAt := t; e_startAt := t; e_stopAt := t; e_now := t;
     e_isoStamp := fun z => NilZero.string_of_int (Z.to_int z);
     e_outputFile := fun name => Some ("/out/" ++ name);
     e_dirname := fun _ => "/out";
     e_mkdir := true; e_close := true;
     e_createContext := Some [];
     e_newPage := true; e_goto := fun _ => true;
     e_video := NoVideo;
     e_addInitScript := true; e_evaluate := true;
     e_randomUUID := "session-1";
     e_stat := fun _ => Some 4096 |}.

(** Two modal states, one raised by a tab that is not open. *)
Definition sampleModalStates : list ModalState :=
  [ {| ms_tab := 7; ms_description := "dialog" |};
    {| ms_tab := 1; ms_description := "file chooser" |} ].

(* ===================================================================== *)
(** ** Basic facts *)
(* ===================================================================== *)

Lemma RecordingState_eqb_spec (a b : RecordingState) :
  reflect (a = b) (RecordingState_eqb a b).
Proof. destruct a, b; constructor; congruence. Qed.

Lemma bind_run {A B} (m : M A) (k : A -> M B) (w : World) :
  bind m k w = match m w with
               | (w', Ok a) => k a w'
               | (w', Throw e) => (w', Throw e)
               end.
Proof. reflexivity. Qed.

Section StableRules.
Variable R : World -> World -> Prop.
Hypothesis R_refl : forall w, R w w.
Hypothesis R_trans : forall a b c, R a b -> R b c -> R a c.

Lemma stable_ret {A} (a : A) : stable R (ret a).
Proof. intro w; apply R_refl. Qed.

Lemma stable_throw {A} (e : Error) : stable R (@throw A e).
Proof. intro w; apply R_refl. Qed.

Lemma stable_getVRS : stable R getVRS.
Proof. intro w; apply R_refl. Qed.

Lemma stable_getCtx : stable R getCtx.
Proof. intro w; apply R_refl. Qed.

Lemma stable_bind {A B} (m : M A) (k : A -> M B) :
  stable R m -> (forall a, stable R (k a)) -> stable R (bind m k).
Proof.
  intros Hm Hk w. unfold bind.
  specialize (Hm w). destruct (m w) as [w1 [a|e]]; simpl in *.
  - eapply R_trans; [exact Hm | apply Hk].
  - exact Hm.
Qed.

Lemma stable_tryCatch {A} (m : M A) (h : Error -> M A) :
  stable R m -> (forall e, stable R (h e)) -> stable R (tryCatch m h).
Proof.
  intros Hm Hh w. unfold tryCatch.
  specialize (Hm w). destruct (m w) as [w1 [a|e]]; simpl in *.
  - exact Hm.
  - eapply R_trans; [exact Hm | apply Hh].
Qed.

Lemma stable_when (b : bool) (m : M unit) :
  stable R m -> stable R (when b m).
Proof. intros Hm; destruct b; simpl; [exact Hm | apply stable_ret]. Qed.

Lemma stable_forEach {A} (l : list A) (body : A -> M unit) :
  (forall x, stable R (body x)) -> stable R (forEach l body).
Proof.
  intros Hb; induction l as [|x l IH]; simpl.
  - apply stable_ret.
  - apply stable_bind; [apply Hb | intros _; exact IH].
Qed.
End StableRules.

Lemma sameSession_refl w : sameSession w w.
Proof. repeat split; auto. Qed.

Lemma sameSession_trans a b c : sameSession a b -> sameSession b c -> sameSession a c.
Proof.
  intros (H1 & H2 & H3) (H4 & H5 & H6); repeat split; try congruence.
  eapply Nat.le_trans; eassumption.
Qed.

Lemma sameIdentity_refl w : sameIdentity w w.
Proof. repeat split; reflexivity. Qed.

Lemma sameIdentity_trans a b c :
  sameIdentity a b -> sameIdentity b c -> sameIdentity a c.
Proof. intros (H1 & H2 & H3) (H4 & H5 & H6); repeat split; congruence. Qed.

Lemma sameSession_identity w w' : sameSession w w' -> sameIdentity w w'.
Proof. intros [H _]; unfold sameIdentity; rewrite H; repeat split. Qed.

Lemma stable_weaken {A} (R R' : World -> World -> Prop) (m : M A) :
  (forall w w', R w w' -> R' w w') -> stable R m -> stable R' m.
Proof. intros HR Hm w; apply HR, Hm. Qed.

(** Structural steps shared by every [stable] proof. *)
Ltac stable_struct Rrefl Rtrans :=
  repeat match goal with
    | |- stable _ (bind _ _) => apply (stable_bind _ Rtrans)
    | |- stable _ (tryCatch _ _) => apply (stable_tryCatch _ Rtrans)
    | |- stable _ (ret _) => apply (stable_ret _ Rrefl)
    | |- stable _ (throw _) => apply (stable_throw _ Rrefl)
    | |- stable _ getVRS => apply (stable_getVRS _ Rrefl)
    | |- stable _ getCtx => apply (stable_getCtx _ Rrefl)
    | |- stable _ (when _ _) => apply (stable_when _ Rrefl)
    | |- stable _ (forEach _ _) => apply (stable_forEach _ Rrefl Rtrans)
    | |- stable _ (let _ := _ in _) => cbv zeta
    | |- stable _ (match ?x with _ => _ end) => destruct x
    | |- stable _ (if ?b then _ else _) => destruct b
    | |- stable _ _ => fail 1
    | |- forall _, _ => intro; cbv beta
    end.

(** *** The context methods leave the session record and the timers alone *)

Lemma session_modifyCtx f : stable sameSession (modifyCtx f).
Proof. intro w; repeat split; auto. Qed.

Lemma session_emit op : stable sameSession (emit op).
Proof. intro w; repeat split; auto. Qed.

Lemma session_freshId : stable sameSession freshId.
Proof. intro w; repeat split; simpl; auto. Qed.

Ltac session_tac :=
  repeat first
    [ progress stable_struct sameSession_refl sameSession_trans
    | match goal with
      | |- stable _ (modifyCtx _) => apply session_modifyCtx
      | |- stable _ (emit _) => apply session_emit
      | |- stable _ freshId => apply session_freshId
      end ].

Lemma session_onPageCreated p : stable sameSession (_onPageCreated p).
Proof. unfold _onPageCreated; session_tac. Qed.

Lemma session_currentTabOrDie : stable sameSession currentTabOrDie.
Proof. unfold currentTabOrDie; session_tac. Qed.

Lemma session_setupBrowserContext env : stable sameSession (_setupBrowserContext env).
Proof. unfold _setupBrowserContext; session_tac; apply session_onPageCreated. Qed.

Lemma session_ensureBrowserContext env : stable sameSession (_ensureBrowserContext env).
Proof. unfold _ensureBrowserContext; session_tac; apply session_setupBrowserContext. Qed.

Lemma session_newPage env : stable sameSession (newPage env).
Proof. unfold newPage; session_tac; apply session_onPageCreated. Qed.

Lemma session_goto env p url : stable sameSession (goto env p url).
Proof. unfold goto; session_tac. Qed.

Lemma session_ensureTab env : stable sameSession (ensureTab env).
Proof.
  unfold ensureTab; session_tac;
    first [apply session_ensureBrowserContext | apply session_newPage].
Qed.

Lemma session_closeBrowserContext env : stable sameSession (closeBrowserContext env).
Proof. unfold closeBrowserContext; session_tac. Qed.

Lemma session_restoreTabs env urls : stable sameSession (restoreTabs env urls).
Proof.
  unfold restoreTabs; session_tac;
    first [apply session_newPage | apply session_goto].
Qed.

Lemma session_startVideoRecording env rv : stable sameSession (startVideoRecording env rv).
Proof.
  unfold startVideoRecording; session_tac;
    first [ apply session_closeBrowserContext | apply session_ensureBrowserContext
          | apply session_restoreTabs ].
Qed.

Lemma session_probeVideo env p : stable sameSession (probeVideo env p).
Proof. unfold probeVideo; session_tac. Qed.

Lemma session_stopVideoRecording env : stable sameSession (stopVideoRecording env).
Proof.
  unfold stopVideoRecording; session_tac;
    first [apply session_probeVideo | apply session_closeBrowserContext].
Qed.

Lemma session_injectRecordingOverlay env p pos sid :
  stable sameSession (injectRecordingOverlay env p pos sid).
Proof. unfold injectRecordingOverlay; session_tac. Qed.

Lemma session_registerPageHook pos sid : stable sameSession (registerPageHook pos sid).
Proof. unfold registerPageHook; session_tac. Qed.

Lemma session_updateOverlayState env p st :
  stable sameSession (updateOverlayState env p st).
Proof. unfold updateOverlayState; session_tac. Qed.

(** *** Identity fields: written by no control path *)

Lemma identity_of_session {A} (m : M A) :
  stable sameSession m -> stable sameIdentity m.
Proof. apply stable_weaken; exact sameSession_identity. Qed.

Lemma identity_modifyVRS f :
  (forall s, sessionId (f s) = sessionId s /\
             overlayPosition (f s) = overlayPosition s /\
             overlayEnabled (f s) = overlayEnabled s) ->
  stable sameIdentity (modifyVRS f).
Proof. intros Hf w; apply Hf. Qed.

Lemma identity_setTimeout ms : stable sameIdentity (setTimeout ms).
Proof. intro w; repeat split. Qed.

Lemma identity_clearTimeout id : stable sameIdentity (clearTimeout id).
Proof. intro w; repeat split. Qed.

Ltac identity_tac :=
  repeat first
    [ progress stable_struct sameIdentity_refl sameIdentity_trans
    | match goal with
          | |- stable _ (setTimeout _) => apply identity_setTimeout
          | |- stable _ (clearTimeout _) => apply identity_clearTimeout
          | |- stable _ (modifyVRS _) =>
              apply identity_modifyVRS; intro; repeat split
          | |- stable _ (emit _) => apply identity_of_session, session_emit
          | |- stable _ currentTabOrDie =>
              apply identity_of_session, session_currentTabOrDie
          | |- stable _ (stopVideoRecording _) =>
              apply identity_of_session, session_stopVideoRecording
          | |- stable _ (startVideoRecording _ _) =>
              apply identity_of_session, session_startVideoRecording
          | |- stable _ (injectRecordingOverlay _ _ _ _) =>
              apply identity_of_session, session_injectRecordingOverlay
          | |- stable _ (registerPageHook _ _) =>
              apply identity_of_session, session_registerPageHook
          | |- stable _ (updateOverlayState _ _ _) =>
              apply identity_of_session, session_updateOverlayState
          | |- stable _ (ensureTab _) =>
              apply identity_of_session, session_ensureTab
          end ].

Lemma identity_clearRecordingTimeout : stable sameIdentity clearRecordingTimeout.
Proof. unfold clearRecordingTimeout; identity_tac. Qed.

Lemma identity_stopRecordingInternal env reason :
  stable sameIdentity (stopRecordingInternal env reason).
Proof.
  unfold stopRecordingInternal; identity_tac; apply identity_clearRecordingTimeout.
Qed.

Lemma identity_startRecordingTimeout : stable sameIdentity startRecordingTimeout.
Proof. unfold startRecordingTimeout; identity_tac. Qed.

Lemma identity_startOverlayRecording env :
  stable sameIdentity (startOverlayRecording env).
Proof. unfold startOverlayRecording; identity_tac. Qed.

Lemma identity_autoStop env l r : stable sameIdentity (autoStop env l r).
Proof. unfold autoStop; identity_tac; apply identity_stopRecordingInternal. Qed.

Lemma identity_recordBranch env : stable sameIdentity (recordBranch env).
Proof.
  unfold recordBranch; identity_tac;
    lazymatch goal with
    | |- stable _ (autoStop _ _ _) => apply identity_autoStop
    | |- stable _ (startOverlayRecording _) => apply identity_startOverlayRecording
    | |- stable _ startRecordingTimeout => apply identity_startRecordingTimeout
    end.
Qed.

Lemma identity_resumeBranch env : stable sameIdentity (resumeBranch env).
Proof.
  unfold resumeBranch; identity_tac;
    lazymatch goal with
    | |- stable _ (startOverlayRecording _) => apply identity_startOverlayRecording
    | |- stable _ startRecordingTimeout => apply identity_startRecordingTimeout
    end.
Qed.

Lemma identity_pauseBranch env tab : stable sameIdentity (pauseBranch env tab).
Proof. unfold pauseBranch; identity_tac; apply identity_clearRecordingTimeout. Qed.

Lemma identity_stopBranch env tab : stable sameIdentity (stopBranch env tab).
Proof. unfold stopBranch; identity_tac; apply identity_clearRecordingTimeout. Qed.

Lemma identity_videoOverlayControl env action :
  stable sameIdentity (videoOverlayControl env action).
Proof.
  unfold videoOverlayControl; identity_tac;
    lazymatch goal with
    | |- stable _ (recordBranch _) => apply identity_recordBranch
    | |- stable _ (pauseBranch _ _) => apply identity_pauseBranch
    | |- stable _ (resumeBranch _) => apply identity_resumeBranch
    | |- stable _ (stopBranch _ _) => apply identity_stopBranch
    end.
Qed.

Lemma identity_fireTimer env id : stable sameIdentity (fireTimer env id).
Proof.
  intro w. unfold fireTimer.
  destruct (existsb (Nat.eqb id) (timers w)); [|apply sameIdentity_refl].
  match goal with
  | |- sameIdentity _ (fst (onRecordingTimeout env ?w0)) =>
      assert (H : stable sameIdentity (onRecordingTimeout env));
      [ unfold onRecordingTimeout; identity_tac; apply identity_stopRecordingInternal
      | exact (H w0) ]
  end.
Qed.

Lemma identity_videoStatus env : stable sameIdentity (videoStatus env).
Proof. unfold videoStatus; identity_tac. Qed.

Lemma identity_mapM {A B} (f : A -> B) (m : M A) :
  stable sameIdentity m -> stable sameIdentity (mapM f m).
Proof. intro H; unfold mapM; identity_tac; exact H. Qed.

(** *** Weakest-precondition rules *)

Lemma wp_bind {A B} (m : M A) (k : A -> M B) Q w :
  wp m (fun r w' => match r with
                    | Ok a => wp (k a) Q w'
                    | Throw e => Q (Throw e) w'
                    end) w ->
  wp (bind m k) Q w.
Proof. unfold wp, bind; destruct (m w) as [w1 [a|e]]; simpl; auto. Qed.

Lemma wp_tryCatch {A} (m : M A) (h : Error -> M A) Q w :
  wp m (fun r w' => match r with
                    | Ok a => Q (Ok a) w'
                    | Throw e => wp (h e) Q w'
                    end) w ->
  wp (tryCatch m h) Q w.
Proof. unfold wp, tryCatch; destruct (m w) as [w1 [a|e]]; simpl; auto. Qed.

Lemma wp_ret {A} (a : A) Q w : Q (Ok a) w -> wp (ret a) Q w.
Proof. exact (fun H => H). Qed.

Lemma wp_throw {A} (e : Error) (Q : Result A -> World -> Prop) w :
  Q (Throw e) w -> wp (throw e) Q w.
Proof. exact (fun H => H). Qed.

Lemma wp_getVRS Q w : Q (Ok (vrs w)) w -> wp getVRS Q w.
Proof. exact (fun H => H). Qed.

Lemma wp_getCtx Q w : Q (Ok (ctx w)) w -> wp getCtx Q w.
Proof. exact (fun H => H). Qed.

Lemma wp_modifyVRS f Q w :
  Q (Ok tt) {| vrs := f (vrs w); ctx := ctx w; timers := timers w;
               fresh := fresh w; trace := trace w |} ->
  wp (modifyVRS f) Q w.
Proof. exact (fun H => H). Qed.

Lemma wp_modifyCtx f Q w :
  Q (Ok tt) {| vrs := vrs w; ctx := f (ctx w); timers := timers w;
               fresh := fresh w; trace := trace w |} ->
  wp (modifyCtx f) Q w.
Proof. exact (fun H => H). Qed.

Lemma wp_emit op Q w :
  Q (Ok tt) {| vrs := vrs w; ctx := ctx w; timers := timers w;
               fresh := fresh w; trace := (trace w ++ [op])%list |} ->
  wp (emit op) Q w.
Proof. exact (fun H => H). Qed.

Lemma wp_setTimeout ms Q w :
  Q (Ok (fresh w))
    {| vrs := vrs w; ctx := ctx w; timers := (timers w ++ [fresh w])%list;
       fresh := S (fresh w);
       trace := (trace w ++ [OpSetTimeout (fresh w) ms])%list |} ->
  wp (setTimeout ms) Q w.
Proof. exact (fun H => H). Qed.

Lemma wp_clearTimeout id Q w :
  Q (Ok tt)
    {| vrs := vrs w; ctx := ctx w;
       timers := filter (fun t => negb (Nat.eqb t id)) (timers w);
       fresh := fresh w;
       trace := (trace w ++ [OpClearTimeout id])%list |} ->
  wp (clearTimeout id) Q w.
Proof. exact (fun H => H). Qed.

Lemma wp_when (b : bool) (m : M unit) (Q : Result unit -> World -> Prop) w :
  (if b then wp m Q w else Q (Ok tt) w) -> wp (when b m) Q w.
Proof. destruct b; exact (fun H => H). Qed.

(** A computation that is [stable sameSession] may do anything to the
    context, the trace and the id supply, and return anything. *)
Lemma wp_session {A} (m : M A) Q w :
  stable sameSession m ->
  (forall r c n tr, (fresh w <= n)%nat ->
     Q r {| vrs := vrs w; ctx := c; timers := timers w; fresh := n; trace := tr |}) ->
  wp m Q w.
Proof.
  intros Hm HQ. unfold wp. destruct (Hm w) as (Hv & Ht & Hf).
  destruct (fst (m w)) as [v c ts n tr]; simpl in *; subst v ts. apply HQ, Hf.
Qed.

Lemma wp_conseq {A} (m : M A) (Q Q' : Result A -> World -> Prop) w :
  wp m Q w -> (forall r w', Q r w' -> Q' r w') -> wp m Q' w.
Proof. unfold wp; auto. Qed.

Lemma wp_run {A} (m : M A) Q w w' r : wp m Q w -> m w = (w', r) -> Q r w'.
Proof. unfold wp; intros H E; rewrite E in H; exact H. Qed.

Ltac world_simpl :=
  cbn [vrs ctx timers fresh trace fst snd
       isRecording startTime filename videoPath browserContext overlayEnabled
       overlayPosition overlayState sessionId stopTime recordingTimeout contextRef
       set_isRecording set_startTime set_filename set_videoPath
       set_browserContext set_overlayEnabled set_overlayPosition
       set_overlayState set_sessionId set_stopTime set_recordingTimeout
       set_contextRef] in *.

Ltac wp_core :=
  lazymatch goal with
  | |- wp (bind _ _) _ _ => apply wp_bind
  | |- wp (tryCatch _ _) _ _ => apply wp_tryCatch
  | |- wp (ret _) _ _ => apply wp_ret
  | |- wp (throw _) _ _ => apply wp_throw
  | |- wp getVRS _ _ => apply wp_getVRS
  | |- wp getCtx _ _ => apply wp_getCtx
  | |- wp (modifyVRS _) _ _ => apply wp_modifyVRS
  | |- wp (modifyCtx _) _ _ => apply wp_modifyCtx
  | |- wp (emit _) _ _ => apply wp_emit
  | |- wp (when _ _) _ _ => apply wp_when
  | |- wp (clearTimeout _) _ _ => apply wp_clearTimeout
  | |- wp (setTimeout _) _ _ => apply wp_setTimeout
  | |- wp (let _ := _ in _) _ _ => cbv zeta
  | |- wp (if ?b then _ else _) _ _ => destruct b eqn:?
  | |- wp (match ?x with _ => _ end) _ _ => destruct x eqn:?
  | |- match ?r with Ok _ => _ | Throw _ => _ end =>
      first [is_var r; destruct r | destruct r eqn:?]
  | |- if ?b then _ else _ => destruct b eqn:?
  end.

Ltac wp_abs :=
  lazymatch goal with
  | |- wp currentTabOrDie _ _ =>
      apply wp_session; [apply session_currentTabOrDie | intros ? ? ? ? ?]
  | |- wp (stopVideoRecording _) _ _ =>
      apply wp_session; [apply session_stopVideoRecording | intros ? ? ? ? ?]
  | |- wp (startVideoRecording _ _) _ _ =>
      apply wp_session; [apply session_startVideoRecording | intros ? ? ? ? ?]
  | |- wp (injectRecordingOverlay _ _ _ _) _ _ =>
      apply wp_session; [apply session_injectRecordingOverlay | intros ? ? ? ? ?]
  | |- wp (registerPageHook _ _) _ _ =>
      apply wp_session; [apply session_registerPageHook | intros ? ? ? ? ?]
  | |- wp (updateOverlayState _ _ _) _ _ =>
      apply wp_session; [apply session_updateOverlayState | intros ? ? ? ? ?]
  | |- wp (ensureTab _) _ _ =>
      apply wp_session; [apply session_ensureTab | intros ? ? ? ? ?]
  end.

Ltac wp_prim := first [wp_core | wp_abs].

Ltac wp_go := repeat (wp_prim; cbv beta iota; world_simpl).

Lemma wp_fireTimer env id Q w :
  (if existsb (Nat.eqb id) (timers w)
   then wp (onRecordingTimeout env) Q
          {| vrs := vrs w; ctx := ctx w;
             timers := filter (fun t => negb (Nat.eqb t id)) (timers w);
             fresh := fresh w; trace := trace w |}
   else Q (Ok tt) w) ->
  wp (fireTimer env id) Q w.
Proof.
  unfold wp at 2, fireTimer.
  destruct (existsb (Nat.eqb id) (timers w)); exact (fun H => H).
Qed.

Lemma wp_mapM {A B} (f : A -> B) (m : M A) Q w :
  wp m (fun r w' => match r with
                    | Ok a => Q (Ok (f a)) w'
                    | Throw e => Q (Throw e) w'
                    end) w ->
  wp (mapM f m) Q w.
Proof. intro H; unfold mapM; apply wp_bind; exact H. Qed.

(** *** The session invariants hold in every reachable world *)

Lemma filter_all_eq (t : nat) (ts : list nat) :
  (forall x, In x ts -> x = t) ->
  filter (fun x => negb (Nat.eqb x t)) ts = [].
Proof.
  induction ts as [|a ts IH]; intros H; simpl; [reflexivity|].
  rewrite (H a (or_introl eq_refl)), Nat.eqb_refl; simpl.
  apply IH; intros x Hx; apply H; right; exact Hx.
Qed.

Lemma inv_cleared_some s ts n t :
  sessionInvOn s ts n -> recordingTimeout s = Some t ->
  filter (fun x => negb (Nat.eqb x t)) ts = [].
Proof.
  intros (H1 & _) Ht. apply filter_all_eq. intros x Hx.
  specialize (H1 x Hx). congruence.
Qed.

Lemma inv_cleared_none s ts n :
  sessionInvOn s ts n -> recordingTimeout s = None -> ts = [].
Proof.
  intros (H1 & _) Ht. destruct ts as [|x ts]; [reflexivity|].
  specialize (H1 x (or_introl eq_refl)). congruence.
Qed.

Lemma inv_filter s ts n (p : nat -> bool) :
  sessionInvOn s ts n -> sessionInvOn s (filter p ts) n.
Proof.
  intros (H1 & H2 & H3 & H4). repeat split.
  - intros t Ht. apply filter_In in Ht. apply H1, Ht.
  - apply H2. intro E. rewrite E in H. apply H. reflexivity.
  - apply H2. intro E. rewrite E in H. apply H. reflexivity.
  - apply H3. assumption.
  - apply H3. assumption.
  - intros t Ht. apply filter_In in Ht. apply H4, Ht.
Qed.

Ltac inv_timers :=
  repeat match goal with
  | HI : sessionInvOn ?s ?ts _, Ht : recordingTimeout ?s = Some ?t |- _ =>
      lazymatch goal with
      | H : filter (fun x => negb (Nat.eqb x t)) ts = [] |- _ => fail
      | _ => pose proof (inv_cleared_some _ _ _ _ HI Ht)
      end
  | HI : sessionInvOn ?s ?ts _, Ht : recordingTimeout ?s = None |- _ =>
      lazymatch goal with
      | H : ts = [] |- _ => fail
      | _ => pose proof (inv_cleared_none _ _ _ HI Ht)
      end
  end.

Ltac inv_leaf :=
  unfold sessionInv in *; world_simpl; inv_timers;
  repeat match goal with
  | H : negb _ = false |- _ => apply negb_false_iff in H
  | H : negb _ = true |- _ => apply negb_true_iff in H
  | H : filter _ _ = [] |- _ => rewrite H in *
  | H : timers _ = [] |- _ => rewrite H in *
  end;
  match goal with
  | HI : sessionInvOn _ _ _ |- _ => destruct HI as (?HI & ?HI & ?HI & ?HI)
  end;
  unfold sessionInvOn; world_simpl; cbn [In app] in *;
  repeat split; intros; cbn [In app] in *;
  try solve [intuition (subst; auto; try lia; try congruence)];
  try solve [ match goal with
              | HI : forall t, In t ?ts -> (t < _)%nat, H : In _ ?ts |- _ =>
                  specialize (HI _ H); lia
              end ].

Ltac unfold_session :=
  unfold videoOverlayControl, videoOverlayEnable, videoStatus,
    recordBranch, pauseBranch, resumeBranch, stopBranch, autoStop,
    onRecordingTimeout, startOverlayRecording, startRecordingTimeout,
    stopRecordingInternal, clearRecordingTimeout.

Lemma inv_videoOverlayControl env a w :
  sessionInv w -> wp (videoOverlayControl env a) (fun _ w' => sessionInv w') w.
Proof. intros HI. unfold_session. wp_go. all: inv_leaf. Qed.

Lemma inv_videoOverlayEnable env p a w :
  sessionInv w -> wp (videoOverlayEnable env p a) (fun _ w' => sessionInv w') w.
Proof. intros HI. unfold_session. wp_go. all: inv_leaf. Qed.

Lemma inv_videoStatus env w :
  sessionInv w -> wp (videoStatus env) (fun _ w' => sessionInv w') w.
Proof. intros HI. unfold_session. wp_go. all: inv_leaf. Qed.

Lemma inv_fireTimer env id w :
  sessionInv w -> wp (fireTimer env id) (fun _ w' => sessionInv w') w.
Proof.
  intros HI. apply wp_fireTimer.
  destruct (existsb (Nat.eqb id) (timers w)); [|exact HI].
  assert (HI' : sessionInv
            {| vrs := vrs w; ctx := ctx w;
               timers := filter (fun t => negb (Nat.eqb t id)) (timers w);
               fresh := fresh w; trace := trace w |})
    by (apply inv_filter; exact HI).
  clear HI. revert HI'.
  generalize (filter (fun t => negb (Nat.eqb t id)) (timers w)); intros ts HI.
  unfold_session. wp_go. all: inv_leaf.
Qed.

Lemma sessionInv_step env ev w :
  sessionInv w -> sessionInv (fst (step env ev w)).
Proof.
  intros HI. destruct ev as [p a|a| |id]; simpl.
  - apply (wp_mapM EnableDone _ (fun _ w' => sessionInv w')).
    eapply wp_conseq; [apply inv_videoOverlayEnable, HI|]. intros [?|?] ?; auto.
  - apply (wp_mapM ControlDone _ (fun _ w' => sessionInv w')).
    eapply wp_conseq; [apply inv_videoOverlayControl, HI|]. intros [?|?] ?; auto.
  - apply (wp_mapM StatusDone _ (fun _ w' => sessionInv w')).
    eapply wp_conseq; [apply inv_videoStatus, HI|]. intros [?|?] ?; auto.
  - apply (wp_mapM (fun _ => WatchdogDone) _ (fun _ w' => sessionInv w')).
    eapply wp_conseq; [apply inv_fireTimer, HI|]. intros [?|?] ?; auto.
Qed.

Lemma sessionInv_initial : sessionInv initialWorld.
Proof.
  unfold sessionInv, sessionInvOn; simpl.
  repeat split; try (intros ? []); try congruence; try discriminate.
Qed.

Lemma reachable_sessionInv w : reachable w -> sessionInv w.
Proof.
  induction 1 as [|w env ev _ IH]; [apply sessionInv_initial|].
  apply sessionInv_step, IH.
Qed.

Lemma reachable_run h w : reachable w -> reachable (fst (run h w)).
Proof.
  revert w; induction h as [|[env ev] h IH]; intros w Hw; simpl; [exact Hw|].
  pose proof (reach_step w env ev Hw) as H1.
  destruct (step env ev w) as [w1 r]; simpl in H1.
  specialize (IH w1 H1). destruct (run h w1) as [w2 rs]; exact IH.
Qed.

(** *** What [stopVideoRecording] does depends on the context alone *)

Lemma stopVideoRecording_local env w :
  stopVideoRecording env w =
  ({| vrs := vrs w;
      ctx := ctx (fst (stopVideoRecording env (onContext (ctx w))));
      timers := timers w; fresh := fresh w;
      trace := (trace w ++ trace (fst (stopVideoRecording env (onContext (ctx w)))))%list |},
   snd (stopVideoRecording env (onContext (ctx w)))).
Proof.
  destruct w as [v c ts n tr]. destruct c as [bc tabs cur en opts].
  unfold stopVideoRecording, closeBrowserContext, probeVideo, onContext,
    bind, getCtx, modifyCtx, emit, ret, throw; simpl.
  destruct en; simpl; [|rewrite app_nil_r; reflexivity].
  destruct bc as [b|]; simpl; [|reflexivity].
  destruct tabs as [|p0 tabs]; simpl.
  - destruct (e_close env); simpl; rewrite <- ?app_assoc; reflexivity.
  - destruct (e_video env); simpl; try reflexivity;
      destruct (e_close env); simpl; rewrite <- ?app_assoc; reflexivity.
Qed.

Lemma stopVideoRecording_not_enabled env w :
  _videoRecordingEnabled (ctx w) = false ->
  stopVideoRecording env w = (w, Throw VideoRecordingNotEnabled).
Proof.
  intros H. unfold stopVideoRecording, bind, getCtx. rewrite H. reflexivity.
Qed.

Lemma stopVideoRecording_disables env w vp :
  snd (stopVideoRecording env w) = Ok vp ->
  _videoRecordingEnabled (ctx (fst (stopVideoRecording env w))) = false.
Proof.
  destruct w as [v c ts n tr]. destruct c as [bc tabs cur en opts].
  unfold stopVideoRecording, closeBrowserContext, probeVideo,
    bind, getCtx, modifyCtx, emit, ret, throw; simpl.
  destruct en; simpl; [|discriminate].
  destruct bc as [b|]; simpl; [|reflexivity].
  destruct tabs as [|p0 tabs]; simpl.
  - destruct (e_close env); simpl; [reflexivity|discriminate].
  - destruct (e_video env); simpl; try discriminate;
      destruct (e_close env); simpl; try discriminate; reflexivity.
Qed.

Lemma wp_stopVideoRecording env Q w :
  Q (snd (stopVideoRecording env (onContext (ctx w))))
    {| vrs := vrs w;
       ctx := ctx (fst (stopVideoRecording env (onContext (ctx w))));
       timers := timers w; fresh := fresh w;
       trace := (trace w ++ trace (fst (stopVideoRecording env (onContext (ctx w)))))%list |} ->
  wp (stopVideoRecording env) Q w.
Proof.
  intro H. unfold wp. rewrite (stopVideoRecording_local env w). exact H.
Qed.

(** Exact treatment of the loop-free context calls of the [stop] paths. *)
Ltac wp_exact :=
  lazymatch goal with
  | |- wp (stopVideoRecording _) _ _ => apply wp_stopVideoRecording
  | |- wp (updateOverlayState _ _ _) _ _ => unfold updateOverlayState
  | |- wp currentTabOrDie _ _ => unfold currentTabOrDie
  end.

Ltac wp_go_exact :=
  repeat (first [wp_core | wp_exact | wp_abs]; cbv beta iota; world_simpl).

(** *** The pending watchdog and the two ways to stop *)

Lemma existsb_In id ts : In id ts -> existsb (Nat.eqb id) ts = true.
Proof.
  intros H. apply existsb_exists. exists id. split; [exact H|apply Nat.eqb_refl].
Qed.

Lemma pending_timer_facts w id :
  sessionInv w -> In id (timers w) ->
  recordingTimeout (vrs w) = Some id /\ isRecording (vrs w) = true /\
  contextRef (vrs w) = true /\ overlayState (vrs w) = recording /\
  overlayEnabled (vrs w) = true /\
  filter (fun t => negb (Nat.eqb t id)) (timers w) = [].
Proof.
  intros (H1 & H2 & H3 & H4) Hin.
  assert (Hne : timers w <> []) by (intro E; rewrite E in Hin; exact Hin).
  destruct (H2 Hne) as [Hr Hc]. destruct (H3 Hr) as [Hs He].
  repeat split; auto.
  apply filter_all_eq. intros x Hx.
  pose proof (H1 x Hx) as Ex. pose proof (H1 id Hin) as Ei. congruence.
Qed.

Lemma captureOps_app a b : captureOps (a ++ b) = (captureOps a ++ captureOps b)%list.
Proof. apply filter_app. Qed.

Lemma watchdog_effect env w id :
  sessionInv w -> In id (timers w) ->
  wp (fireTimer env id)
     (fun r w' =>
        r = Ok tt /\
        vrs w' = finalized env (vrs w) /\
        ctx w' = ctx (fst (stopVideoRecording env (onContext (ctx w)))) /\
        timers w' = [] /\ fresh w' = fresh w /\
        captureOps (trace w') =
          (captureOps (trace w) ++
           captureOps (trace (fst (stopVideoRecording env (onContext (ctx w))))))%list /\
        (isOk (snd (stopVideoRecording env (onContext (ctx w)))) = false ->
         In (OpDebug "Stop recording (max duration reached) encountered error:")
            (trace w'))) w.
Proof.
  intros HI Hin.
  destruct (pending_timer_facts w id HI Hin) as (Ht & Hr & Hc & Hs & He & Hf).
  apply wp_fireTimer. rewrite (existsb_In _ _ Hin).
  unfold_session. wp_go_exact; try congruence.
  all: rewrite ?Hf in *; cbn [filter] in *.
  all: repeat split; auto.
  all: try (inversion Heqo; subst; reflexivity).
  all: rewrite ?captureOps_app; cbn [captureOps filter isCaptureOp app]; rewrite ?app_nil_r; auto.
  all: try (intros; discriminate).
  all: try (intros _; apply in_or_app; right; left; reflexivity).

Qed.


(** *** After a start: the watchdog is the only pending timer *)

Lemma inv_not_recording_no_timers s ts n :
  sessionInvOn s ts n -> isRecording s = false -> ts = [].
Proof.
  intros (_ & H2 & _) Hr. destruct ts as [|x ts]; [reflexivity|].
  destruct H2 as [H _]; [discriminate | congruence].
Qed.

Lemma inv_fresh_not_pending s ts n m :
  sessionInvOn s ts n -> (n <= m)%nat -> ~ In m ts.
Proof. intros (_ & _ & _ & H4) Hle Hin. specialize (H4 m Hin). lia. Qed.

(** *** [startVideoRecording], call by call *)

Lemma addPages_nil c : addPages [] c = c.
Proof.
  destruct c as [bc tabs cur en opts]; unfold addPages; simpl.
  rewrite app_nil_r. destruct cur; reflexivity.
Qed.

Lemma addPages_app ps qs c : addPages qs (addPages ps c) = addPages (ps ++ qs) c.
Proof.
  destruct c as [bc tabs cur en opts]; unfold addPages; simpl.
  rewrite app_assoc. f_equal.
  destruct cur; [reflexivity|]. destruct ps; reflexivity.
Qed.

Lemma onPageCreated_run p w :
  _onPageCreated p w =
  ({| vrs := vrs w; ctx := addPages [p] (ctx w); timers := timers w;
      fresh := fresh w; trace := trace w |}, Ok tt).
Proof.
  destruct w as [v c ts n tr]; destruct c as [bc tabs cur en opts].
  unfold _onPageCreated, bind, modifyCtx, getCtx, ret, addPages; simpl.
  destruct cur; reflexivity.
Qed.

Lemma setup_pages_run urls : forall w,
  forEach urls (fun u => bind freshId (fun p =>
     _onPageCreated {| page_id := p; page_url := u |})) w =
  ({| vrs := vrs w; ctx := addPages (pagesFrom (fresh w) urls) (ctx w);
      timers := timers w; fresh := (fresh w + List.length urls)%nat;
      trace := trace w |}, Ok tt).
Proof.
  induction urls as [|u us IH]; intros w; simpl.
  - unfold ret. rewrite addPages_nil, Nat.add_0_r. destruct w; reflexivity.
  - rewrite bind_run. rewrite bind_run. unfold freshId at 1. 
    rewrite onPageCreated_run. rewrite IH. simpl.
    rewrite addPages_app. simpl. rewrite Nat.add_succ_r. reflexivity.
Qed.

Lemma setUrl_other n url tabs :
  idsBelow n tabs -> setUrl n url tabs = tabs.
Proof.
  induction 1 as [|p ps Hp _ IH]; simpl; [reflexivity|].
  rewrite IH. destruct (Nat.eqb_spec (page_id p) n); [lia|reflexivity].
Qed.

Lemma setUrl_last n url tabs :
  idsBelow n tabs ->
  setUrl n url (tabs ++ [{| page_id := n; page_url := "about:blank" |}]) =
  (tabs ++ [{| page_id := n; page_url := url |}])%list.
Proof.
  intros H. unfold setUrl. rewrite map_app. fold (setUrl n url tabs).
  rewrite (setUrl_other _ _ _ H). simpl. rewrite Nat.eqb_refl. reflexivity.
Qed.

Lemma newPage_run env w :
  e_newPage env = true -> liveHooks (ctx w) = [] ->
  newPage env w =
  ({| vrs := vrs w;
      ctx := addPages [{| page_id := fresh w; page_url := "about:blank" |}] (ctx w);
      timers := timers w; fresh := S (fresh w);
      trace := (trace w ++ [OpNewPage (fresh w)])%list |}, Ok (fresh w)).
Proof.
  intros Hn Hh. unfold newPage. rewrite Hn. cbn [negb].
  rewrite bind_run. unfold freshId at 1. cbv beta iota.
  rewrite bind_run. unfold emit at 1. cbv beta iota. cbn [vrs ctx timers fresh trace].
  rewrite bind_run. rewrite onPageCreated_run. cbn [vrs ctx timers fresh trace].
  rewrite bind_run. unfold getCtx at 1. cbv beta iota. cbn [vrs ctx timers fresh trace].
  assert (E : match _browserContextPromise
                      (addPages [{| page_id := fresh w; page_url := "about:blank" |}] (ctx w)) with
              | Some bc => bc_pageHooks bc
              | None => []
              end = []) by exact Hh.
  rewrite E. reflexivity.
Qed.

Lemma restore_pages_run env urls : forall w,
  e_newPage env = true -> liveHooks (ctx w) = [] ->
  (forall u, In u urls -> e_goto env u = true) ->
  idsBelow (fresh w) (_tabs (ctx w)) ->
  forEach urls (fun url => bind (newPage env) (fun p => goto env p url)) w =
  ({| vrs := vrs w; ctx := addPages (pagesFrom (fresh w) urls) (ctx w);
      timers := timers w; fresh := (fresh w + List.length urls)%nat;
      trace := (trace w ++ restoreOps (fresh w) urls)%list |}, Ok tt).
Proof.
  induction urls as [|u us IH]; intros w Hn Hh Hg Hb; simpl.
  - unfold ret. rewrite addPages_nil, Nat.add_0_r, app_nil_r. destruct w; reflexivity.
  - rewrite bind_run. rewrite bind_run. rewrite (newPage_run env w Hn Hh).
    cbv beta iota.
    unfold goto. rewrite bind_run. unfold emit at 1. cbv beta iota.
    cbn [vrs ctx timers fresh trace].
    rewrite (Hg u (or_introl eq_refl)). cbn [negb].
    unfold modifyCtx at 1. cbn [vrs ctx timers fresh trace].
    assert (Ectx : set_tabs (setUrl (fresh w) u
                     (_tabs (addPages [{| page_id := fresh w; page_url := "about:blank" |}] (ctx w))))
                     (addPages [{| page_id := fresh w; page_url := "about:blank" |}] (ctx w))
                   = addPages [{| page_id := fresh w; page_url := u |}] (ctx w)).
    { unfold addPages, set_tabs; simpl. rewrite (setUrl_last _ _ _ Hb). reflexivity. }
    rewrite Ectx. rewrite IH; cbn [vrs ctx timers fresh trace].
    + rewrite addPages_app. simpl. rewrite Nat.add_succ_r, <- !app_assoc. reflexivity.
    + exact Hn.
    + exact Hh.
    + intros u' Hu'; apply Hg; right; exact Hu'.
    + unfold addPages; simpl. apply Forall_app; split.
      * eapply Forall_impl; [|exact Hb]. simpl; intros; lia.
      * constructor; [simpl; lia|constructor].
Qed.

Lemma restoreTabs_run env urls w :
  e_newPage env = true -> liveHooks (ctx w) = [] ->
  (forall u, In u urls -> e_goto env u = true) ->
  idsBelow (fresh w) (_tabs (ctx w)) ->
  restoreTabs env urls w =
  ({| vrs := vrs w;
      ctx := addPages (pagesFrom (fresh w) (restoredUrls urls)) (ctx w);
      timers := timers w;
      fresh := (fresh w + List.length (restoredUrls urls))%nat;
      trace := (trace w ++ restoreTrace (fresh w) urls)%list |}, Ok tt).
Proof.
  intros Hn Hh Hg Hb. unfold restoreTabs.
  destruct urls as [|u us].
  - cbn [List.length Nat.ltb Nat.leb]. rewrite bind_run, (newPage_run env w Hn Hh).
    cbv beta iota. unfold ret. simpl. rewrite Nat.add_1_r. reflexivity.
  - cbn [List.length Nat.ltb Nat.leb].
    rewrite (restore_pages_run env (u :: us) w Hn Hh Hg Hb). reflexivity.
Qed.

Lemma idsBelow_pagesFrom urls : forall n,
  idsBelow (n + List.length urls) (pagesFrom n urls).
Proof.
  induction urls as [|u us IH]; intros n; simpl; [constructor|].
  constructor; [simpl; lia|].
  rewrite <- Nat.add_succ_comm. apply IH.
Qed.


Lemma closeBrowserContext_run env w :
  e_close env = true ->
  closeBrowserContext env w =
  ({| vrs := vrs w;
      ctx := match _browserContextPromise (ctx w) with
             | Some _ => set_tabs [] (set_currentTab None
                           (set_browserContextPromise None (ctx w)))
             | None => ctx w
             end;
      timers := timers w; fresh := fresh w;
      trace := (trace w ++ closeOps (ctx w))%list |}, Ok tt).
Proof.
  intros Hc. destruct w as [v c ts n tr]; destruct c as [bc tabs cur en opts].
  unfold closeBrowserContext, closeOps, bind, getCtx, emit, modifyCtx, ret, throw.
  cbn [vrs ctx timers fresh trace _browserContextPromise].
  destruct bc as [b|]; cbn [vrs ctx timers fresh trace].
  - rewrite Hc. reflexivity.
  - rewrite app_nil_r. reflexivity.
Qed.

Lemma ensureBrowserContext_run env w initial :
  _browserContextPromise (ctx w) = None ->
  e_createContext env = Some initial ->
  let rv := if _videoRecordingEnabled (ctx w)
            then _videoRecordingOptions (ctx w) else None in
  let bc := {| bc_id := fresh w; bc_recordVideo := rv; bc_pageHooks := [] |} in
  _ensureBrowserContext env w =
  ({| vrs := vrs w;
      ctx := set_browserContextPromise (Some bc)
               (addPages (pagesFrom (S (fresh w)) initial) (ctx w));
      timers := timers w;
      fresh := (S (fresh w) + List.length initial)%nat;
      trace := (trace w ++ [OpCreateContext rv (fresh w)])%list |}, Ok bc).
Proof.
  intros Hp Hc rv bc. unfold _ensureBrowserContext.
  rewrite bind_run. unfold getCtx at 1. cbv beta iota. rewrite Hp.
  rewrite bind_run. unfold _setupBrowserContext.
  rewrite bind_run. unfold getCtx at 1. cbv beta iota zeta. rewrite Hc.
  rewrite bind_run. unfold freshId at 1. cbv beta iota.
  rewrite bind_run. unfold emit at 1. cbv beta iota.
  cbn [vrs ctx timers fresh trace].
  rewrite bind_run. rewrite setup_pages_run. cbv beta iota.
  cbn [vrs ctx timers fresh trace]. unfold ret at 1. cbv beta iota.
  rewrite bind_run. unfold modifyCtx at 1. cbv beta iota.
  cbn [vrs ctx timers fresh trace]. reflexivity.
Qed.

Lemma startVideoRecording_run env rv w initial :
  _videoRecordingEnabled (ctx w) = false ->
  (_browserContextPromise (ctx w) = None -> _tabs (ctx w) = []) ->
  e_close env = true ->
  e_createContext env = Some initial ->
  e_newPage env = true ->
  (forall u, In u (savedUrls (_tabs (ctx w))) -> e_goto env u = true) ->
  let urls := savedUrls (_tabs (ctx w)) in
  let n0 := fresh w in
  let first := (S n0 + List.length initial)%nat in
  let pages := (pagesFrom (S n0) initial ++ pagesFrom first (restoredUrls urls))%list in
  startVideoRecording env rv w =
  ({| vrs := vrs w;
      ctx := {| _browserContextPromise :=
                  Some {| bc_id := n0; bc_recordVideo := rv; bc_pageHooks := [] |};
                _tabs := pages;
                _currentTab := currentAfter (ctx w) pages;
                _videoRecordingEnabled := true;
                _videoRecordingOptions := rv |};
      timers := timers w;
      fresh := (first + List.length (restoredUrls urls))%nat;
      trace := (trace w ++ closeOps (ctx w) ++ [OpCreateContext rv n0]
                  ++ restoreTrace first urls
                  ++ [OpDebug "Video recording started, browser context recreated"])%list |},
   Ok tt).
Proof.
  intros Hen Hlive Hclose Hcreate Hnew Hgoto urls n0 first pages.
  unfold startVideoRecording.
  rewrite bind_run. unfold getCtx at 1. cbv beta iota. rewrite Hen. cbv zeta.
  fold urls.
  rewrite bind_run. unfold modifyCtx at 1. cbv beta iota.
  rewrite bind_run. unfold modifyCtx at 1. cbv beta iota.
  cbn [vrs ctx timers fresh trace].
  rewrite bind_run. rewrite (closeBrowserContext_run _ _ Hclose). cbv beta iota.
  cbn [vrs ctx timers fresh trace].
  rewrite bind_run.
  rewrite (ensureBrowserContext_run env _ initial); [| | exact Hcreate].
  2: { cbn [ctx]. destruct w as [v c ts n tr]; destruct c as [bc tabs cur en opts].
       simpl. destruct bc; reflexivity. }
  cbv beta iota zeta. cbn [vrs ctx timers fresh trace].
  rewrite bind_run. rewrite restoreTabs_run; [| exact Hnew | | exact Hgoto | ].
  - cbv beta iota. cbn [vrs ctx timers fresh trace]. unfold emit.
    destruct w as [v c ts n tr]; destruct c as [bc tabs cur en opts].
    cbn [vrs ctx timers fresh trace _tabs _videoRecordingEnabled
         _browserContextPromise _currentTab _videoRecordingOptions] in *.
    subst n0 first pages urls. unfold closeOps, currentAfter, addPages,
      set_browserContextPromise, set_tabs, set_currentTab,
      set_videoRecordingEnabled, set_videoRecordingOptions.
    cbn [vrs ctx timers fresh trace _tabs _videoRecordingEnabled
         _browserContextPromise _currentTab _videoRecordingOptions].
    destruct bc as [b|].
    + simpl. rewrite <- !app_assoc. simpl.
      f_equal. f_equal. f_equal.
      destruct (pagesFrom (S n) initial); reflexivity.
    + rewrite (Hlive eq_refl). simpl. rewrite <- !app_assoc. simpl.
      f_equal. f_equal. f_equal.
      destruct cur; [reflexivity|].
      destruct (pagesFrom (S n) initial); reflexivity.
  - reflexivity.
  - destruct w as [v c ts n tr]; destruct c as [bc tabs cur en opts].
    cbn [vrs ctx timers fresh trace _tabs _videoRecordingEnabled
         _browserContextPromise _currentTab _videoRecordingOptions] in *.
    destruct bc as [b|]; simpl.
    + apply (idsBelow_pagesFrom initial (S n)).
    + rewrite (Hlive eq_refl). simpl. apply (idsBelow_pagesFrom initial (S n)).
Qed.

(** *** Idle records are clear unless a restart failed *)

Ltac idle_leaf :=
  repeat match goal with
  | H : negb _ = false |- _ => apply negb_false_iff in H
  | H : negb _ = true |- _ => apply negb_true_iff in H
  end;
  match goal with
  | HI : idleClear _ |- _ => destruct HI as (?HI & ?HI & ?HI)
  end;
  unfold idleClear; world_simpl;
  try solve [ right; repeat split; intros; try congruence; try discriminate;
              intuition congruence
            | left; repeat split; auto; congruence
            | repeat split; intros; try congruence; try discriminate;
              intuition congruence ].

Lemma idle_videoOverlayControl env a w :
  idleClear (vrs w) ->
  wp (videoOverlayControl env a)
     (fun r w' => (a = record /\ isRecording (vrs w) = true /\ isOk r = false)
                  \/ idleClear (vrs w')) w.
Proof. intros HI. unfold_session. wp_go. all: idle_leaf. Qed.

Lemma idle_videoOverlayEnable env p a w :
  idleClear (vrs w) ->
  wp (videoOverlayEnable env p a) (fun _ w' => idleClear (vrs w')) w.
Proof. intros HI. unfold_session. wp_go. all: idle_leaf. Qed.

Lemma idle_videoStatus env w :
  idleClear (vrs w) ->
  wp (videoStatus env) (fun _ w' => idleClear (vrs w')) w.
Proof. intros HI. unfold_session. wp_go. all: idle_leaf. Qed.

Lemma idle_fireTimer env id w :
  idleClear (vrs w) ->
  wp (fireTimer env id) (fun _ w' => idleClear (vrs w')) w.
Proof.
  intros HI. apply wp_fireTimer.
  destruct (existsb (Nat.eqb id) (timers w)); [|exact HI].
  unfold_session. wp_go. all: idle_leaf.
Qed.

Lemma idleClear_step env ev w :
  idleClear (vrs w) -> ~ failedRestartStep env ev w ->
  idleClear (vrs (fst (step env ev w))).
Proof.
  intros HI Hclean. unfold failedRestartStep in Hclean.
  destruct ev as [p a|a| |id]; simpl in *.
  - apply (wp_mapM EnableDone _ (fun _ w' => idleClear (vrs w'))).
    eapply wp_conseq; [apply idle_videoOverlayEnable, HI|]. intros [?|?] ?; auto.
  - pose proof (idle_videoOverlayControl env a w HI) as H. unfold wp in H.
    unfold mapM, bind in *.
    destruct (videoOverlayControl env a w) as [w1 [r|e]]; simpl in *.
    + destruct H as [(_ & _ & H)|H]; [discriminate|exact H].
    + destruct H as [(Ha & Hr & _)|H]; [|exact H].
      exfalso; apply Hclean; subst a; auto.
  - apply (wp_mapM StatusDone _ (fun _ w' => idleClear (vrs w'))).
    eapply wp_conseq; [apply idle_videoStatus, HI|]. intros [?|?] ?; auto.
  - apply (wp_mapM (fun _ => WatchdogDone) _ (fun _ w' => idleClear (vrs w'))).
    eapply wp_conseq; [apply idle_fireTimer, HI|]. intros [?|?] ?; auto.
Qed.

Lemma idle_clear_without_failed_restart w :
  reachableClean w ->
  overlayState (vrs w) = idle ->
  startTime (vrs w) = None /\ videoPath (vrs w) = None.
Proof.
  intros Hr. assert (HI : idleClear (vrs w)).
  { induction Hr as [|w env ev _ IH Hc].
    - unfold idleClear; simpl. repeat split; congruence.
    - apply idleClear_step; assumption. }
  apply HI.
Qed.


(** *** Two evaluations that locate error paths of the handlers *)

(** The [record] branch, unlike [resume], does not delete [stopTime]: a
    recording started from [stopped] keeps the stop time of the previous
    capture, and the status tool then computes a negative elapsed time. *)
Example record_after_stop_keeps_stopTime :
  let w := fst (step (calmEnv 500 "/out/video.webm") (Control record) stoppedWorld) in
  overlayState (vrs w) = recording /\
  startTime (vrs w) = Some 500 /\
  stopTime (vrs w) = Some 300 /\
  elapsedTimeOf (vrs w) 600 = seconds (-200).
Proof. vm_compute. repeat split. Qed.

(** A teardown error during a manual [pause] is rethrown to the caller; the
    watchdog has already been cleared while the record still says
    recording. *)
Example pause_teardown_failure_propagates :
  let out := step (closeFailsEnv 300) (Control pause) recordingWorld in
  snd out = Throw (PlatformError "close") /\
  isRecording (vrs (fst out)) = true /\
  overlayState (vrs (fst out)) = recording /\
  timers (fst out) = [].
Proof. vm_compute. repeat split. Qed.

(* ===================================================================== *)
(** ** The claims *)
(* ===================================================================== *)

(** C1.  For an enabled overlay the decision the control handler gets from
    [validateStateTransition] accepts exactly the pairs the transition table
    of section 4.1 accepts, but it does not match the table on the reasons:
    for [pause] outside [recording] and for [stop] from [idle] the table
    names NoActiveCapture whereas the code rejects with
    "Invalid state transition" (InvalidTransition), because the lookup in
    [validTransitions] throws before the "No active recording to
    stop/pause" test is reached; that test never fires for any action the
    handler can pass. *)
Theorem validate_reason_table (s : VideoRecordingState)
    (current : RecordingState) (action : Action) :
  overlayEnabled s = true ->
  validate s current action = Some (codeTable current action) /\
  (codeTable current action = Accept <-> specTable current action = Accept) /\
  (codeTable current action <> specTable current action <->
     (action = pause /\ current <> recording) \/ (action = stop /\ current = idle)) /\
  (codeTable current action <> specTable current action ->
     codeTable current action = Rejected InvalidTransition /\
     specTable current action = Rejected NoActiveCapture) /\
  validateStateTransition s current (targetStateOf action) action
    <> Throw NoActiveRecording.
Proof.
  intros He. unfold validate, validateStateTransition. rewrite He.
  destruct action, current; cbn; repeat split;
    try congruence; try tauto; try discriminate;
    try (intros [[? ?]|[? ?]]; congruence);
    try (intros _; first [left; split; congruence | right; split; congruence]).
Qed.

Lemma validate_reason_table_witness :
  overlayEnabled (set_overlayEnabled true initialVideoRecordingState) = true /\
  validate (set_overlayEnabled true initialVideoRecordingState) idle stop
    = Some (Rejected InvalidTransition) /\
  specTable idle stop = Rejected NoActiveCapture.
Proof.
  split; [reflexivity|].
  split; [|reflexivity].
  exact (proj1 (validate_reason_table
                  (set_overlayEnabled true initialVideoRecordingState) idle stop
                  eq_refl)).
Defined.

(** C2.  A [stop] action on a session that is already [stopped] does not
    succeed once the capture has been finalised: [stopVideoRecording] has
    reset [_videoRecordingEnabled], so the handler's unguarded call throws
    "Video recording is not enabled." (or [currentTabOrDie] throws first when
    no tab was reopened).  The state and the recorded path are not
    changed by the failed call. *)
Theorem stop_when_stopped_throws env w :
  overlayEnabled (vrs w) = true ->
  overlayState (vrs w) = stopped ->
  _videoRecordingEnabled (ctx w) = false ->
  exists e,
    snd (videoOverlayControl env stop w) = Throw e /\
    (e = NoCurrentSnapshot \/ e = VideoRecordingNotEnabled) /\
    overlayState (vrs (fst (videoOverlayControl env stop w))) = stopped /\
    videoPath (vrs (fst (videoOverlayControl env stop w))) = videoPath (vrs w).
Proof.
  intros He Hs Hd.
  assert (Hsvr : snd (stopVideoRecording env (onContext (ctx w)))
                 = Throw VideoRecordingNotEnabled).
  { rewrite stopVideoRecording_not_enabled; [reflexivity | exact Hd]. }
  assert (H : wp (videoOverlayControl env stop)
                (fun r w' => (r = Throw NoCurrentSnapshot \/
                              r = Throw VideoRecordingNotEnabled) /\
                             overlayState (vrs w') = stopped /\
                             videoPath (vrs w') = videoPath (vrs w)) w).
  { unfold_session. wp_go_exact; auto; try congruence.
    all: try (rewrite He in *; discriminate).
    all: try (unfold validateStateTransition in *; rewrite He, Hs in *; discriminate).
    all: inversion Hsvr; subst; auto. }
  unfold wp in H. destruct H as ([H|H] & H1 & H2); eauto 6.
Qed.

Lemma stop_when_stopped_throws_witness :
  overlayEnabled (vrs stoppedWorld) = true /\
  overlayState (vrs stoppedWorld) = stopped /\
  _videoRecordingEnabled (ctx stoppedWorld) = false /\
  exists e,
    snd (videoOverlayControl (calmEnv 500 "/out/video.webm") stop stoppedWorld)
      = Throw e /\
    (e = NoCurrentSnapshot \/ e = VideoRecordingNotEnabled) /\
    overlayState (vrs (fst (videoOverlayControl (calmEnv 500 "/out/video.webm")
                              stop stoppedWorld))) = stopped /\
    videoPath (vrs (fst (videoOverlayControl (calmEnv 500 "/out/video.webm")
                           stop stoppedWorld))) = videoPath (vrs stoppedWorld).
Proof.
  split; [vm_compute; reflexivity|].
  split; [vm_compute; reflexivity|].
  split; [vm_compute; reflexivity|].
  apply (stop_when_stopped_throws (calmEnv 500 "/out/video.webm") stoppedWorld);
    vm_compute; reflexivity.
Defined.

(** C3.  The invariant does not hold on every reachable history: a
    [record] action that arrives while recording auto-stops, sets the state
    to [idle] without clearing [startTime] and [videoPath], and when the new
    capture then fails to start the record is left idle with the fields of
    the previous capture.  Evaluated on enable, record, record-with-failing
    browser factory. *)
Theorem failed_restart_leaves_idle_with_stale_fields :
  let w := fst (run failedRestart initialWorld) in
  reachable w /\
  snd (run failedRestart initialWorld) =
    [ Ok (EnableDone {| en_sessionId := "session-1"; en_position := top_right;
                        en_recordingStarted := false |});
      Ok (ControlDone {| previousState := idle; currentState := recording;
                         c_videoPath := None; duration := None;
                         message := "Recording started successfully (max duration: 7 minutes)" |});
      Throw (PlatformError "createContext") ] /\
  overlayState (vrs w) = idle /\
  startTime (vrs w) = Some 200 /\
  videoPath (vrs w) = Some "/out/overlay-recording-200.webm".
Proof.
  split; [apply reachable_run, reach_init|].
  vm_compute. repeat split.
Qed.




(** C5, as stated, fails: after a successful [record] the record's
    [videoPath] is not null, it holds the path planned for the new file. *)
Lemma record_assigns_videoPath :
  step (calmEnv 200 "/out/video.webm") (Control record) enabledWorld =
    (recordingWorld,
     Ok (ControlDone
           {| previousState := idle; currentState := recording;
              c_videoPath := None; duration := None;
              message := "Recording started successfully (max duration: 7 minutes)" |})) /\
  overlayState (vrs recordingWorld) = recording /\
  videoPath (vrs recordingWorld) = Some "/out/overlay-recording-200.webm".
Proof. vm_compute. repeat split. Qed.

(** C5, amended.  After every successful [record] or [resume] action on a
    reachable session the record is recording ([overlayState = recording],
    [isRecording]), [startTime] is the clock reading of the update, the
    record's [videoPath] is the (non-null) path planned for the new file
    while the status view of it is null, after [resume] the [stopTime] is
    cleared, and exactly one watchdog is pending: a timer newly drawn, stored
    in [recordingTimeout], that was not pending before. *)
Theorem record_resume_post env a w w' r :
  (a = record \/ a = resume) ->
  reachable w ->
  videoOverlayControl env a w = (w', Ok r) ->
  overlayState (vrs w') = recording /\
  isRecording (vrs w') = true /\
  startTime (vrs w') = Some (e_startAt env) /\
  videoPath (vrs w') =
    e_outputFile env ("overlay-recording-" ++ e_isoStamp env (e_stampAt env) ++ ".webm") /\
  videoPath (vrs w') <> None /\
  (forall now stat, st_videoPath (statusOf (vrs w') now stat) = RNull) /\
  (a = resume -> stopTime (vrs w') = None) /\
  exists id,
    recordingTimeout (vrs w') = Some id /\ timers w' = [id] /\
    ~ In id (timers w) /\ contextRef (vrs w') = true.
Proof.
  intros Ha Hreach E.
  pose proof (reachable_sessionInv w Hreach) as HI.
  refine (wp_run _ (fun r0 w0 => match r0 with Ok _ => _ | Throw _ => True end)
            _ _ _ _ E).
  clear E w' r. unfold sessionInv in HI.
  destruct Ha; subst a; unfold_session; wp_go; auto.
  all: inv_timers.
  all: repeat match goal with
       | H : filter _ _ = [] |- _ => rewrite H in *
       | H : timers _ = [] |- _ => rewrite H in *
       end.
  all: try (pose proof (inv_not_recording_no_timers _ _ _ HI ltac:(eassumption)) as Hnt;
            rewrite Hnt in * ).
  all: cbn [filter app] in *.
  all: repeat split; try congruence; try discriminate.
  all: eexists; repeat split; try reflexivity; try (intros []).
  all: eapply inv_fresh_not_pending; [exact HI | lia].
Qed.

Lemma record_resume_post_witness :
  videoOverlayControl (calmEnv 200 "/out/video.webm") record enabledWorld =
    (recordingWorld,
     Ok {| previousState := idle; currentState := recording;
           c_videoPath := None; duration := None;
           message := "Recording started successfully (max duration: 7 minutes)" |}) /\
  overlayState (vrs recordingWorld) = recording /\
  startTime (vrs recordingWorld) = Some 200 /\
  exists id,
    recordingTimeout (vrs recordingWorld) = Some id /\
    timers recordingWorld = [id] /\
    ~ In id (timers enabledWorld) /\ contextRef (vrs recordingWorld) = true.
Proof.
  assert (E : videoOverlayControl (calmEnv 200 "/out/video.webm") record enabledWorld =
    (recordingWorld,
     Ok {| previousState := idle; currentState := recording;
           c_videoPath := None; duration := None;
           message := "Recording started successfully (max duration: 7 minutes)" |}))
    by (vm_compute; reflexivity).
  pose proof (record_resume_post (calmEnv 200 "/out/video.webm") record
                enabledWorld recordingWorld _ (or_introl eq_refl)
                (reachable_run _ initialWorld reach_init) E) as H.
  exact (conj E (conj (proj1 H) (conj (proj1 (proj2 (proj2 H)))
           (proj2 (proj2 (proj2 (proj2 (proj2 (proj2 (proj2 H)))))))))).
Defined.



(** C7, as stated, fails: an invocation on a context whose video recording
    is already enabled throws at once and neither tears down nor recreates
    anything. *)
Lemma startVideoRecording_twice_throws :
  _videoRecordingEnabled (ctx recordingWorld) = true /\
  startVideoRecording (calmEnv 300 "/out/video.webm") (Some sampleRecordVideo)
      recordingWorld
    = (recordingWorld, Throw VideoRecordingAlreadyEnabled) /\
  snd (step (closeFailsEnv 300) (Control record) recordingWorld)
    = Throw VideoRecordingAlreadyEnabled.
Proof. vm_compute. repeat split. Qed.

(** C7, amended.  An invocation of [startVideoRecording] on a context
    whose video recording is not yet enabled, with every platform call
    succeeding, saves the urls of the open pages that are neither empty nor
    about:blank, tears down the live environment, creates a new one with
    the given capture descriptor, and then opens exactly one page per saved
    url and navigates it there, or exactly one blank page when no url was
    saved; the tabs of the context are the pages the new environment
    started with followed by these. *)
Theorem startVideoRecording_steps env rv w initial :
  _videoRecordingEnabled (ctx w) = false ->
  (_browserContextPromise (ctx w) = None -> _tabs (ctx w) = []) ->
  e_close env = true ->
  e_createContext env = Some initial ->
  e_newPage env = true ->
  (forall u, In u (savedUrls (_tabs (ctx w))) -> e_goto env u = true) ->
  let urls := savedUrls (_tabs (ctx w)) in
  let n0 := fresh w in
  let first := (S n0 + List.length initial)%nat in
  let w' := fst (startVideoRecording env rv w) in
  snd (startVideoRecording env rv w) = Ok tt /\
  (forall u, In u urls <->
     (exists p, In p (_tabs (ctx w)) /\ page_url p = u) /\
     u <> "" /\ u <> "about:blank") /\
  trace w' =
    (trace w ++ closeOps (ctx w) ++ [OpCreateContext rv n0]
       ++ restoreTrace first urls
       ++ [OpDebug "Video recording started, browser context recreated"])%list /\
  _browserContextPromise (ctx w') =
    Some {| bc_id := n0; bc_recordVideo := rv; bc_pageHooks := [] |} /\
  _tabs (ctx w') =
    (pagesFrom (S n0) initial ++ pagesFrom first (restoredUrls urls))%list /\
  _videoRecordingEnabled (ctx w') = true /\
  _videoRecordingOptions (ctx w') = rv /\
  vrs w' = vrs w /\ timers w' = timers w.
Proof.
  intros Hen Hlive Hclose Hcreate Hnew Hgoto urls n0 first w'.
  pose proof (startVideoRecording_run env rv w initial Hen Hlive Hclose Hcreate
                Hnew Hgoto) as E.
  cbv zeta in E. subst w'. rewrite E. cbn [fst snd vrs ctx timers fresh trace
    _tabs _videoRecordingEnabled _browserContextPromise _videoRecordingOptions].
  split; [reflexivity|]. split; [|repeat split; reflexivity].
  intros u. unfold urls, savedUrls. rewrite filter_In, in_map_iff. split.
  - intros ((p & Hp & Hin) & Hreal). split; [exists p; auto|].
    unfold isRealUrl in Hreal. apply andb_true_iff in Hreal.
    destruct Hreal as [Ht Hb]. split.
    + intros ->. discriminate.
    + intros ->. discriminate.
  - intros ((p & Hin & Hp) & Hne & Hnb). split; [exists p; auto|].
    unfold isRealUrl. apply andb_true_iff. split.
    + destruct u; [congruence|reflexivity].
    + destruct (String.eqb_spec u "about:blank"); [congruence|reflexivity].
Qed.

Lemma startVideoRecording_steps_witness :
  _videoRecordingEnabled (ctx browsingWorld) = false /\
  e_close (calmEnv 300 "/out/video.webm") = true /\
  e_createContext (calmEnv 300 "/out/video.webm") = Some [] /\
  e_newPage (calmEnv 300 "/out/video.webm") = true /\
  snd (startVideoRecording (calmEnv 300 "/out/video.webm") (Some sampleRecordVideo)
         browsingWorld) = Ok tt /\
  trace (fst (startVideoRecording (calmEnv 300 "/out/video.webm")
                (Some sampleRecordVideo) browsingWorld)) =
    [ OpCloseContext 0; OpCreateContext (Some sampleRecordVideo) 3;
      OpNewPage 4; OpGoto 4 "https://example.com/";
      OpDebug "Video recording started, browser context recreated" ] /\
  _tabs (ctx (fst (startVideoRecording (calmEnv 300 "/out/video.webm")
                     (Some sampleRecordVideo) browsingWorld))) =
    [ {| page_id := 4; page_url := "https://example.com/" |} ].
Proof.
  assert (Hlive : _browserContextPromise (ctx browsingWorld) = None ->
                  _tabs (ctx browsingWorld) = [])
    by (intro H; discriminate H).
  pose proof (startVideoRecording_steps (calmEnv 300 "/out/video.webm")
                (Some sampleRecordVideo) browsingWorld []
                eq_refl Hlive eq_refl eq_refl eq_refl
                (fun u _ => eq_refl)) as H.
  cbv zeta in H.
  exact (conj eq_refl (conj eq_refl (conj eq_refl (conj eq_refl
           (conj (proj1 H)
              (conj (proj1 (proj2 (proj2 H)))
                 (proj1 (proj2 (proj2 (proj2 (proj2 H))))))))))).
Defined.

(** C8.  When the watchdog of a reachable session fires, whatever the
    platform does (the artifact reference missing or unreadable, the
    teardown throwing), the callback returns normally and the record is
    forced into [stopped] with [isRecording] false and [stopTime] set; no
    timer stays pending, and a finalisation that threw has been written to
    the debug log instead of being propagated. *)
Theorem watchdog_forces_stopped env w id :
  reachable w -> In id (timers w) ->
  let w' := fst (step env (WatchdogFires id) w) in
  snd (step env (WatchdogFires id) w) = Ok WatchdogDone /\
  overlayState (vrs w') = stopped /\
  isRecording (vrs w') = false /\
  stopTime (vrs w') = Some (e_stopAt env) /\
  timers w' = [] /\
  (isOk (snd (stopVideoRecording env w)) = false ->
   In (OpDebug "Stop recording (max duration reached) encountered error:")
      (trace w')).
Proof.
  intros Hreach Hin w'.
  pose proof (reachable_sessionInv w Hreach) as HI.
  pose proof (watchdog_effect env w id HI Hin) as Ha. unfold wp in Ha.
  destruct Ha as (Ha0 & Ha1 & Ha2 & Ha3 & Ha4 & Ha5 & Ha6).
  subst w'. simpl. unfold mapM, bind.
  rewrite (stopVideoRecording_local env w). cbn [snd].
  destruct (fireTimer env id w) as [w1 r1]; simpl in *.
  subst r1. simpl. rewrite Ha1. repeat split; auto.
Qed.

Lemma watchdog_forces_stopped_witness :
  In 4%nat (timers recordingWorld) /\
  isOk (snd (stopVideoRecording (closeFailsEnv 300) recordingWorld)) = false /\
  snd (step (closeFailsEnv 300) (WatchdogFires 4) recordingWorld) = Ok WatchdogDone /\
  overlayState (vrs (fst (step (closeFailsEnv 300) (WatchdogFires 4) recordingWorld)))
    = stopped /\
  isRecording (vrs (fst (step (closeFailsEnv 300) (WatchdogFires 4) recordingWorld)))
    = false /\
  stopTime (vrs (fst (step (closeFailsEnv 300) (WatchdogFires 4) recordingWorld)))
    = Some 300.
Proof.
  assert (Hin : In 4%nat (timers recordingWorld))
    by (vm_compute; left; reflexivity).
  assert (Hfail : isOk (snd (stopVideoRecording (closeFailsEnv 300) recordingWorld))
                  = false) by (vm_compute; reflexivity).
  pose proof (watchdog_forces_stopped (closeFailsEnv 300) recordingWorld 4%nat
                (reachable_run enabledThenRecord initialWorld reach_init) Hin) as H.
  cbv zeta in H.
  exact (conj Hin (conj Hfail (conj (proj1 H) (conj (proj1 (proj2 H))
           (conj (proj1 (proj2 (proj2 H))) (proj1 (proj2 (proj2 (proj2 H))))))))).
Defined.

(** C9.  The status operation reports [videoPath] as null whenever the
    state is not [stopped], so a non-null report implies [stopped]; this
    holds right after a successful [record] or [resume] too, although the
    record's own [videoPath] has then already been assigned. *)
Theorem status_videoPath_only_when_stopped env w w' r :
  videoStatus env w = (w', Ok r) ->
  (overlayState (vrs w) <> stopped -> st_videoPath r = RNull) /\
  (st_videoPath r <> RNull -> overlayState (vrs w) = stopped) /\
  (forall env0 w0 r0 a,
     (a = record \/ a = resume) ->
     videoOverlayControl env0 a w0 = (w, Ok r0) ->
     videoPath (vrs w) <> None /\ st_videoPath r = RNull).
Proof.
  intros E.
  assert (Hstatus :
            wp (videoStatus env)
               (fun r w' => match r with
                  | Ok r => r = statusOf (vrs w) (e_now env) (e_stat env)
                  | Throw _ => True
                  end) w).
  { unfold videoStatus. wp_go; auto. }
  pose proof (wp_run _ _ _ _ _ Hstatus E) as Hr. simpl in Hr. subst r.
  assert (Hnull : overlayState (vrs w) <> stopped ->
                  st_videoPath (statusOf (vrs w) (e_now env) (e_stat env)) = RNull).
  { intros Hs. unfold statusOf; simpl.
    destruct (RecordingState_eqb_spec (overlayState (vrs w)) stopped); congruence. }
  split; [exact Hnull|]. split.
  - intros Hn.
    destruct (RecordingState_eqb_spec (overlayState (vrs w)) stopped) as [e|n]; auto.
    exfalso; apply Hn, Hnull, n.
  - intros env0 w0 r0 a Ha E0.
    assert (Hstart : wp (videoOverlayControl env0 a)
              (fun r w' => match r with
                           | Ok _ => videoPath (vrs w') <> None /\
                                     overlayState (vrs w') = recording
                           | Throw _ => True
                           end) w0).
    { destruct Ha; subst a; unfold_session; wp_go; auto; split; congruence. }
    pose proof (wp_run _ _ _ _ _ Hstart E0) as [Hp Hs]. split; [exact Hp|].
    apply Hnull. congruence.
Qed.

Lemma status_videoPath_only_when_stopped_witness :
  videoStatus (calmEnv 250 "/out/video.webm") recordingWorld =
    (recordingWorld,
     Ok (statusOf (vrs recordingWorld) 250 (fun _ => Some 4096))) /\
  overlayState (vrs recordingWorld) <> stopped /\
  videoPath (vrs recordingWorld) = Some "/out/overlay-recording-200.webm" /\
  st_videoPath (statusOf (vrs recordingWorld) 250 (fun _ => Some 4096)) = RNull.
Proof.
  assert (E : videoStatus (calmEnv 250 "/out/video.webm") recordingWorld =
    (recordingWorld,
     Ok (statusOf (vrs recordingWorld) 250 (fun _ => Some 4096))))
    by (vm_compute; reflexivity).
  assert (Hs : overlayState (vrs recordingWorld) <> stopped)
    by (vm_compute; discriminate).
  assert (Hp : videoPath (vrs recordingWorld) = Some "/out/overlay-recording-200.webm")
    by (vm_compute; reflexivity).
  pose proof (status_videoPath_only_when_stopped _ _ _ _ E) as H.
  exact (conj E (conj Hs (conj Hp (proj1 H Hs)))).
Defined.

(** C10.  Every event other than the enable operation (each control
    action, the status query and the watchdog firing), whether it returns
    or throws, leaves [sessionId], [overlayPosition] and [overlayEnabled]
    of the record as they were. *)
Theorem control_keeps_identity env ev w :
  (forall p a, ev <> Enable p a) ->
  sessionId (vrs (fst (step env ev w))) = sessionId (vrs w) /\
  overlayPosition (vrs (fst (step env ev w))) = overlayPosition (vrs w) /\
  overlayEnabled (vrs (fst (step env ev w))) = overlayEnabled (vrs w).
Proof.
  intros Hev. destruct ev as [p a|a| |id]; simpl.
  - exfalso; exact (Hev p a eq_refl).
  - apply (identity_mapM ControlDone), identity_videoOverlayControl.
  - apply (identity_mapM StatusDone), identity_videoStatus.
  - apply (identity_mapM (fun _ => WatchdogDone)), identity_fireTimer.
Qed.

Lemma control_keeps_identity_witness :
  (forall p a, Control record <> Enable p a) /\
  sessionId (vrs (fst (step (calmEnv 200 "/out/video.webm") (Control record)
                         enabledWorld))) = sessionId (vrs enabledWorld) /\
  overlayPosition (vrs (fst (step (calmEnv 200 "/out/video.webm") (Control record)
                               enabledWorld))) = overlayPosition (vrs enabledWorld) /\
  overlayEnabled (vrs (fst (step (calmEnv 200 "/out/video.webm") (Control record)
                              enabledWorld))) = overlayEnabled (vrs enabledWorld).
Proof.
  assert (Hev : forall p a, Control record <> Enable p a)
    by (intros p a H; discriminate H).
  exact (conj Hev (control_keeps_identity (calmEnv 200 "/out/video.webm")
                     (Control record) enabledWorld Hev)).
Defined.

(* ===================================================================== *)
(** ** Further properties of the handlers *)
(* ===================================================================== *)

(** *** Rejections and the enable handler *)

(** A control call that is rejected up front changes nothing at all: with
    the overlay disabled it throws OVERLAY_NOT_ENABLED, without a current
    tab it throws "No current snapshot available", and when
    [validateStateTransition] rejects the action its error is rethrown; in
    each case the world after the call is the world before it. *)
Theorem control_rejection_changes_nothing env a w e :
  (overlayEnabled (vrs w) = false /\ e = OVERLAY_NOT_ENABLED) \/
  (overlayEnabled (vrs w) = true /\ _currentTab (ctx w) = None /\
   e = NoCurrentSnapshot) \/
  (overlayEnabled (vrs w) = true /\ _currentTab (ctx w) <> None /\
   validateStateTransition (vrs w) (overlayState (vrs w)) (targetStateOf a) a
     = Throw e) ->
  videoOverlayControl env a w = (w, Throw e).
Proof.
  intros H. unfold videoOverlayControl.
  rewrite bind_run. unfold getVRS at 1. cbv beta iota.
  destruct H as [[He ->]|[(He & Ht & ->)|(He & Ht & Hv)]]; rewrite He; cbn [negb].
  - reflexivity.
  - rewrite bind_run. unfold currentTabOrDie at 1. rewrite bind_run.
    unfold getCtx at 1. cbv beta iota. rewrite Ht. reflexivity.
  - rewrite bind_run. unfold currentTabOrDie at 1. rewrite bind_run.
    unfold getCtx at 1. cbv beta iota.
    destruct (_currentTab (ctx w)) as [i|]; [|congruence].
    destruct (findPage i (_tabs (ctx w))); unfold ret; cbv beta iota zeta;
      rewrite Hv; reflexivity.
Qed.

Lemma control_rejection_changes_nothing_witness :
  validateStateTransition (vrs enabledWorld) (overlayState (vrs enabledWorld))
      (targetStateOf pause) pause
    = Throw (InvalidStateTransition idle stopped) /\
  videoOverlayControl (calmEnv 200 "/out/video.webm") pause enabledWorld
    = (enabledWorld, Throw (InvalidStateTransition idle stopped)).
Proof.
  assert (He : overlayEnabled (vrs enabledWorld) = true) by (vm_compute; reflexivity).
  assert (Ht : _currentTab (ctx enabledWorld) <> None) by (vm_compute; discriminate).
  assert (Hv : validateStateTransition (vrs enabledWorld)
                 (overlayState (vrs enabledWorld)) (targetStateOf pause) pause
               = Throw (InvalidStateTransition idle stopped))
    by (vm_compute; reflexivity).
  exact (conj Hv
    (control_rejection_changes_nothing (calmEnv 200 "/out/video.webm") pause
       enabledWorld _ (or_intror (or_intror (conj He (conj Ht Hv)))))).
Defined.

Lemma enable_when_enabled env p a w :
  overlayEnabled (vrs w) = true ->
  step env (Enable p a) w = (w, Throw OVERLAY_ALREADY_ENABLED).
Proof.
  intros He. cbn [step]. unfold mapM, videoOverlayEnable.
  rewrite bind_run, bind_run. unfold getVRS at 1. cbv beta iota.
  rewrite He. reflexivity.
Qed.

Lemma step_keeps_enabled env ev w :
  overlayEnabled (vrs w) = true ->
  sameIdentity w (fst (step env ev w)).
Proof.
  intros He. destruct ev as [p a|a| |id].
  - rewrite enable_when_enabled by exact He. apply sameIdentity_refl.
  - apply (identity_mapM ControlDone), identity_videoOverlayControl.
  - apply (identity_mapM StatusDone), identity_videoStatus.
  - apply (identity_mapM (fun _ => WatchdogDone)), identity_fireTimer.
Qed.

(** Once the overlay is enabled it stays enabled for the rest of the
    process, with the same session id and position, whatever tool calls
    and watchdog firings follow; every later enable call is rejected with
    OVERLAY_ALREADY_ENABLED and changes nothing.  (No handler ever resets
    [overlayEnabled].) *)
Theorem enable_at_most_once h w :
  overlayEnabled (vrs w) = true ->
  let w' := fst (run h w) in
  overlayEnabled (vrs w') = true /\
  sessionId (vrs w') = sessionId (vrs w) /\
  overlayPosition (vrs w') = overlayPosition (vrs w) /\
  forall env p a, step env (Enable p a) w' = (w', Throw OVERLAY_ALREADY_ENABLED).
Proof.
  intros He w'.
  assert (H : sameIdentity w w').
  { subst w'. revert w He. induction h as [|[env ev] h IH]; intros w He.
    - apply sameIdentity_refl.
    - simpl. pose proof (step_keeps_enabled env ev w He) as Hs.
      destruct (step env ev w) as [w1 r1]. simpl in Hs.
      assert (He1 : overlayEnabled (vrs w1) = true).
      { destruct Hs as (_ & _ & Hs). congruence. }
      specialize (IH w1 He1). destruct (run h w1) as [w2 rs]. simpl in *.
      eapply sameIdentity_trans; eassumption. }
  destruct H as (H1 & H2 & H3).
  assert (He' : overlayEnabled (vrs w') = true) by congruence.
  repeat split; auto. intros; apply enable_when_enabled, He'.
Qed.

Lemma enable_at_most_once_witness :
  overlayEnabled (vrs enabledWorld) = true /\
  sessionId (vrs (fst (run [ (calmEnv 200 "/out/video.webm", Control record);
                             (calmEnv 300 "/out/video.webm", Control stop) ]
                       enabledWorld)))
    = sessionId (vrs enabledWorld) /\
  step (calmEnv 400 "/out/video.webm") (Enable (Some top_left) (Some true))
       (fst (run [ (calmEnv 200 "/out/video.webm", Control record);
                   (calmEnv 300 "/out/video.webm", Control stop) ]
              enabledWorld))
    = (fst (run [ (calmEnv 200 "/out/video.webm", Control record);
                  (calmEnv 300 "/out/video.webm", Control stop) ]
             enabledWorld),
       Throw OVERLAY_ALREADY_ENABLED).
Proof.
  assert (He : overlayEnabled (vrs enabledWorld) = true) by (vm_compute; reflexivity).
  pose proof (enable_at_most_once
                [ (calmEnv 200 "/out/video.webm", Control record);
                  (calmEnv 300 "/out/video.webm", Control stop) ]
                enabledWorld He) as H.
  cbv zeta in H.
  exact (conj He (conj (proj1 (proj2 H))
           (proj2 (proj2 (proj2 H)) (calmEnv 400 "/out/video.webm")
              (Some top_left) (Some true)))).
Defined.

(** A successful enable call found the overlay disabled and leaves it
    enabled with a fresh session id and the requested position (top-right
    by default); it reports a started recording exactly when [autoStart]
    was true, in which case the session is recording from [e_startAt];
    otherwise the session is idle and recording state, start time and
    timers are as before. *)
Theorem enable_post env p a w w' r :
  videoOverlayEnable env p a w = (w', Ok r) ->
  overlayEnabled (vrs w) = false /\
  overlayEnabled (vrs w') = true /\
  sessionId (vrs w') = Some (e_randomUUID env) /\
  overlayPosition (vrs w') = match p with Some q => q | None => top_right end /\
  en_sessionId r = e_randomUUID env /\
  en_position r = overlayPosition (vrs w') /\
  (en_recordingStarted r = true <-> a = Some true) /\
  (en_recordingStarted r = true ->
     overlayState (vrs w') = recording /\ isRecording (vrs w') = true /\
     startTime (vrs w') = Some (e_startAt env)) /\
  (en_recordingStarted r = false ->
     overlayState (vrs w') = idle /\
     isRecording (vrs w') = isRecording (vrs w) /\
     startTime (vrs w') = startTime (vrs w) /\
     timers w' = timers w).
Proof.
  intros E.
  refine (wp_run _ (fun r0 w0 => match r0 with Ok r => _ | Throw _ => True end)
            _ _ _ _ E).
  clear E w' r. unfold_session. wp_go; auto.
  all: repeat match goal with
       | H : negb _ = false |- _ => apply negb_false_iff in H
       end.
  all: repeat split; intros; try congruence; try discriminate; auto.
  all: destruct a as [[|]|]; cbn in *; congruence.
Qed.

Lemma enable_post_witness :
  videoOverlayEnable (calmEnv 100 "/out/video.webm") None None initialWorld =
    (enabledWorld,
     Ok {| en_sessionId := "session-1"; en_position := top_right;
           en_recordingStarted := false |}) /\
  overlayEnabled (vrs enabledWorld) = true /\
  sessionId (vrs enabledWorld) = Some "session-1" /\
  overlayPosition (vrs enabledWorld) = top_right.
Proof.
  assert (E : videoOverlayEnable (calmEnv 100 "/out/video.webm") None None
                initialWorld =
    (enabledWorld,
     Ok {| en_sessionId := "session-1"; en_position := top_right;
           en_recordingStarted := false |}))
    by (vm_compute; reflexivity).
  pose proof (enable_post (calmEnv 100 "/out/video.webm") None None initialWorld
                enabledWorld _ E) as H.
  exact (conj E (conj (proj1 (proj2 H))
           (conj (proj1 (proj2 (proj2 H))) (proj1 (proj2 (proj2 (proj2 H))))))).
Defined.

(** Enabling with [autoStart] is enabling without it followed by a
    [record] control call: from a session that is not recording, and on a
    platform where the plain enable succeeds, both leave the same world
    (record, context, timers, id supply and platform trace), and the one
    succeeds exactly when the other does. *)
Theorem enable_autoStart_is_enable_then_record env p w :
  isRecording (vrs w) = false ->
  isOk (snd (step env (Enable p (Some false)) w)) = true ->
  fst (step env (Enable p (Some true)) w)
    = fst (run [(env, Enable p (Some false)); (env, Control record)] w) /\
  (isOk (snd (step env (Enable p (Some true)) w)) = true <->
   isOk (snd (step env (Control record)
                 (fst (step env (Enable p (Some false)) w)))) = true).
Proof.
  destruct w as [v c ts n tr]; destruct v as [a1 a2 a3 a4 a5 en a7 a8 a9 a10 a11 a12].
  cbn [vrs isRecording]. intros ->.
  cbn [run step]. unfold mapM, videoOverlayEnable, videoOverlayControl, recordBranch,
    autoStop, currentTabOrDie, validateStateTransition, startRecordingTimeout,
    updateOverlayState, setTimeout, clearTimeout, injectRecordingOverlay,
    registerPageHook.
  match goal with
  | |- context [ensureTab env] =>
      pose proof (session_ensureTab env
        {| vrs := mkVRS false a2 a3 a4 a5 en a7 a8 a9 a10 a11 a12;
           ctx := c; timers := ts; fresh := n; trace := tr |}) as Hs
  end.
  cbv beta iota zeta delta
    -[startOverlayRecording ensureTab stopRecordingInternal append findPage e_evaluate
      e_addInitScript e_randomUUID seconds String.eqb
      MAX_RECORDING_DURATION_MS filter List.app] in *.
  destruct en; [cbn; discriminate|].
  cbv beta iota.
  destruct (ensureTab env _) as [[v1 c1 ts1 n1 tr1] [u|e]];
    cbv beta iota in *; [|cbn; discriminate].
  destruct Hs as (Hv & _). subst v1. cbv beta iota.
  destruct c1 as [bc1 tabs1 cur1 en1 opts1]. cbv beta iota.
  destruct cur1 as [i|]; cbv beta iota; [|cbn; discriminate].
  destruct (findPage i tabs1) as [[pid purl]|] eqn:Hf; cbv beta iota;
    (destruct (e_addInitScript env); cbv beta iota; [|cbn; discriminate]).
  all: try (destruct (String.eqb purl "about:blank")); cbv beta iota;
       try (match goal with |- context [e_evaluate ?en] => destruct (e_evaluate en) eqn:Hev end);
       cbv beta iota;
       destruct bc1 as [[b1 b2 b3]|]; cbv beta iota.
  all: intros _.
  all: try change (String.eqb "about:blank" "about:blank") with true; cbv beta iota.
  all: try rewrite !Hf; cbv beta iota.
  all: match goal with
       | |- context [startOverlayRecording ?en ?W] =>
           destruct (startOverlayRecording en W) as [[v2 c2 ts2 n2 tr2] [tab|e]]
       end; cbv beta iota.
  all: try (split; [reflexivity | split; intros; discriminate]).
  all: destruct v2 as [b1' b2' b3' b4' b5' b6' b7' b8' b9' b10' rt b12'];
       destruct rt; cbv beta iota.
  all: try (match goal with |- context [e_evaluate ?en] => destruct (e_evaluate en) end);
       cbv beta iota.
  all: split; [reflexivity | split; reflexivity].
Qed.

Lemma enable_autoStart_is_enable_then_record_witness :
  isOk (snd (step (calmEnv 100 "/out/video.webm") (Enable None (Some false))
               initialWorld)) = true /\
  fst (step (calmEnv 100 "/out/video.webm") (Enable None (Some true)) initialWorld)
    = fst (run [ (calmEnv 100 "/out/video.webm", Enable None (Some false));
                 (calmEnv 100 "/out/video.webm", Control record) ] initialWorld).
Proof.
  assert (Hr : isRecording (vrs initialWorld) = false) by reflexivity.
  assert (Ho : isOk (snd (step (calmEnv 100 "/out/video.webm")
                            (Enable None (Some false)) initialWorld)) = true)
    by (vm_compute; reflexivity).
  exact (conj Ho (proj1 (enable_autoStart_is_enable_then_record
                          (calmEnv 100 "/out/video.webm") None initialWorld Hr Ho))).
Defined.

(** *** Before the overlay is enabled *)

Ltac untouched_leaf :=
  unfold untouched in *; world_simpl;
  repeat match goal with
  | H : negb _ = false |- _ => apply negb_false_iff in H
  | H : negb _ = true |- _ => apply negb_true_iff in H
  end;
  try solve [ assumption | intros; congruence | intros; discriminate ].

Lemma untouched_control env a w :
  untouched w -> wp (videoOverlayControl env a) (fun _ w' => untouched w') w.
Proof. intros HI. unfold_session. wp_go. all: untouched_leaf. Qed.

Lemma untouched_enable env p a w :
  untouched w -> wp (videoOverlayEnable env p a) (fun _ w' => untouched w') w.
Proof. intros HI. unfold_session. wp_go. all: untouched_leaf. Qed.

Lemma untouched_status env w :
  untouched w -> wp (videoStatus env) (fun _ w' => untouched w') w.
Proof. intros HI. unfold_session. wp_go. all: untouched_leaf. Qed.

Lemma untouched_fireTimer env id w :
  untouched w -> wp (fireTimer env id) (fun _ w' => untouched w') w.
Proof.
  intros HI. apply wp_fireTimer.
  destruct (existsb (Nat.eqb id) (timers w)) eqn:Hex; [|exact HI].
  assert (He : overlayEnabled (vrs w) = true).
  { destruct (overlayEnabled (vrs w)) eqn:E; [reflexivity|].
    destruct (HI E) as [_ Ht]. rewrite Ht in Hex. discriminate. }
  unfold_session. wp_go. all: untouched_leaf.
Qed.

Lemma untouched_step env ev w : untouched w -> untouched (fst (step env ev w)).
Proof.
  intros HI. destruct ev as [p a|a| |id]; simpl.
  - apply (wp_mapM EnableDone _ (fun _ w' => untouched w')).
    eapply wp_conseq; [apply untouched_enable, HI|]. intros [?|?] ?; auto.
  - apply (wp_mapM ControlDone _ (fun _ w' => untouched w')).
    eapply wp_conseq; [apply untouched_control, HI|]. intros [?|?] ?; auto.
  - apply (wp_mapM StatusDone _ (fun _ w' => untouched w')).
    eapply wp_conseq; [apply untouched_status, HI|]. intros [?|?] ?; auto.
  - apply (wp_mapM (fun _ => WatchdogDone) _ (fun _ w' => untouched w')).
    eapply wp_conseq; [apply untouched_fireTimer, HI|]. intros [?|?] ?; auto.
Qed.

(** As long as the overlay has not been enabled, no history of tool calls
    and timer events has written the global record or armed a timer: the
    record is still its initial value, and the status tool reports a
    disabled, idle session with no position, no session id, zero elapsed
    time and a null video path. *)
Theorem untouched_before_enable w :
  reachable w -> overlayEnabled (vrs w) = false ->
  vrs w = initialVideoRecordingState /\ timers w = [] /\
  forall env w' r,
    videoStatus env w = (w', Ok r) ->
    st_overlayEnabled r = false /\ st_overlayPosition r = None /\
    st_sessionId r = None /\ st_state r = idle /\
    st_elapsedTime r = 0%Q /\ st_startTime r = None /\ st_stopTime r = None /\
    st_videoPath r = RNull /\ st_videoMetadata r = None.
Proof.
  intros Hr He.
  assert (HI : untouched w).
  { clear He. induction Hr as [|w env ev _ IH].
    - intros _. split; reflexivity.
    - apply untouched_step, IH. }
  destruct (HI He) as [Hv Ht]. split; [exact Hv|]. split; [exact Ht|].
  intros env w' r E.
  assert (Hstatus :
            wp (videoStatus env)
               (fun r w' => match r with
                  | Ok r => r = statusOf (vrs w) (e_now env) (e_stat env)
                  | Throw _ => True
                  end) w).
  { unfold videoStatus. wp_go; auto. }
  pose proof (wp_run _ _ _ _ _ Hstatus E) as Hs. cbv beta iota in Hs. subst r.
  rewrite Hv. repeat split.
Qed.

Lemma untouched_before_enable_witness :
  overlayEnabled
    (vrs (fst (run [ (calmEnv 50 "/out/video.webm", Status);
                     (calmEnv 60 "/out/video.webm", Control record) ]
                initialWorld))) = false /\
  vrs (fst (run [ (calmEnv 50 "/out/video.webm", Status);
                  (calmEnv 60 "/out/video.webm", Control record) ]
             initialWorld)) = initialVideoRecordingState /\
  timers (fst (run [ (calmEnv 50 "/out/video.webm", Status);
                     (calmEnv 60 "/out/video.webm", Control record) ]
                initialWorld)) = [].
Proof.
  assert (He : overlayEnabled
    (vrs (fst (run [ (calmEnv 50 "/out/video.webm", Status);
                     (calmEnv 60 "/out/video.webm", Control record) ]
                initialWorld))) = false) by (vm_compute; reflexivity).
  pose proof (untouched_before_enable _
                (reachable_run [ (calmEnv 50 "/out/video.webm", Status);
                                 (calmEnv 60 "/out/video.webm", Control record) ]
                   initialWorld reach_init) He) as H.
  exact (conj He (conj (proj1 H) (proj1 (proj2 H)))).
Defined.

(** *** One watchdog at a time *)

Ltac one_leaf :=
  unfold atMostOne, sessionInv in *; world_simpl; inv_timers;
  repeat match goal with
  | H : filter _ _ = [] |- _ => rewrite H in *
  | H : timers _ = [] |- _ => rewrite H in *
  end;
  cbn [List.length app filter] in *;
  try solve [ lia | assumption ].

Lemma one_control env a w :
  sessionInv w -> atMostOne w ->
  wp (videoOverlayControl env a) (fun _ w' => atMostOne w') w.
Proof. intros HI H1. unfold_session. wp_go. all: one_leaf. Qed.

Lemma one_enable env p a w :
  sessionInv w -> atMostOne w ->
  wp (videoOverlayEnable env p a) (fun _ w' => atMostOne w') w.
Proof. intros HI H1. unfold_session. wp_go. all: one_leaf. Qed.

Lemma one_status env w :
  sessionInv w -> atMostOne w ->
  wp (videoStatus env) (fun _ w' => atMostOne w') w.
Proof. intros HI H1. unfold_session. wp_go. all: one_leaf. Qed.

Lemma one_fireTimer env id w :
  sessionInv w -> atMostOne w ->
  wp (fireTimer env id) (fun _ w' => atMostOne w') w.
Proof.
  intros HI H1. apply wp_fireTimer.
  destruct (existsb (Nat.eqb id) (timers w)); [|exact H1].
  assert (HI' : sessionInv
            {| vrs := vrs w; ctx := ctx w;
               timers := filter (fun t => negb (Nat.eqb t id)) (timers w);
               fresh := fresh w; trace := trace w |})
    by (apply inv_filter; exact HI).
  assert (H1' : (List.length (filter (fun t => negb (Nat.eqb t id)) (timers w)) <= 1)%nat).
  { unfold atMostOne in H1. eapply Nat.le_trans; [apply filter_length_le | exact H1]. }
  clear HI H1. revert HI' H1'.
  generalize (filter (fun t => negb (Nat.eqb t id)) (timers w)); intros ts HI H1.
  unfold_session. wp_go. all: one_leaf.
Qed.

Lemma atMostOne_step env ev w :
  sessionInv w -> atMostOne w -> atMostOne (fst (step env ev w)).
Proof.
  intros HI H1. destruct ev as [p a|a| |id]; simpl.
  - apply (wp_mapM EnableDone _ (fun _ w' => atMostOne w')).
    eapply wp_conseq; [apply one_enable; assumption|]. intros [?|?] ?; auto.
  - apply (wp_mapM ControlDone _ (fun _ w' => atMostOne w')).
    eapply wp_conseq; [apply one_control; assumption|]. intros [?|?] ?; auto.
  - apply (wp_mapM StatusDone _ (fun _ w' => atMostOne w')).
    eapply wp_conseq; [apply one_status; assumption|]. intros [?|?] ?; auto.
  - apply (wp_mapM (fun _ => WatchdogDone) _ (fun _ w' => atMostOne w')).
    eapply wp_conseq; [apply one_fireTimer; assumption|]. intros [?|?] ?; auto.
Qed.

(** At any point of any history at most one watchdog timer is pending;
    when one is, it is the handle stored in [recordingTimeout], a recording
    is active in state [recording] and the context reference is stored.
    (Every path that arms a timer first clears the one before it.) *)
Theorem single_watchdog w :
  reachable w ->
  (List.length (timers w) <= 1)%nat /\
  forall t, In t (timers w) ->
    timers w = [t] /\ recordingTimeout (vrs w) = Some t /\
    isRecording (vrs w) = true /\ overlayState (vrs w) = recording /\
    contextRef (vrs w) = true.
Proof.
  intros Hr.
  assert (H1 : atMostOne w).
  { induction Hr as [|w env ev Hr IH].
    - unfold atMostOne; simpl; lia.
    - apply atMostOne_step; [apply reachable_sessionInv, Hr | exact IH]. }
  split; [exact H1|]. intros t Hin.
  destruct (reachable_sessionInv w Hr) as (I1 & I2 & I3 & I4).
  assert (Hne : timers w <> []) by (intro E; rewrite E in Hin; exact Hin).
  destruct (I2 Hne) as [Hrec Hc]. destruct (I3 Hrec) as [Hs _].
  repeat split; auto.
  unfold atMostOne in H1. destruct (timers w) as [|x [|y l]]; simpl in *.
  - contradiction.
  - destruct Hin as [->|[]]. reflexivity.
  - lia.
Qed.

Lemma single_watchdog_witness :
  In 7%nat (timers (fst (run [ (calmEnv 250 "/out/video.webm", Control record) ]
                          recordingWorld))) /\
  timers (fst (run [ (calmEnv 250 "/out/video.webm", Control record) ]
                 recordingWorld)) = [7%nat].
Proof.
  assert (Hin : In 7%nat (timers (fst (run [ (calmEnv 250 "/out/video.webm",
                                              Control record) ]
                                        recordingWorld))))
    by (vm_compute; left; reflexivity).
  pose proof (single_watchdog _
                (reachable_run [ (calmEnv 250 "/out/video.webm", Control record) ]
                   recordingWorld
                   (reachable_run enabledThenRecord initialWorld reach_init))) as H.
  exact (conj Hin (proj1 (proj2 H _ Hin))).
Defined.

(** *** The start fields *)

Ltac start_leaf :=
  unfold startFieldsStep, recordingName; world_simpl;
  try solve [ left; repeat split; reflexivity
            | right; repeat split; congruence ].

Lemma start_control env a w :
  wp (videoOverlayControl env a) (fun _ w' => startFieldsStep env (vrs w) (vrs w')) w.
Proof. unfold_session. wp_go. all: start_leaf. Qed.

Lemma start_enable env p a w :
  wp (videoOverlayEnable env p a) (fun _ w' => startFieldsStep env (vrs w) (vrs w')) w.
Proof. unfold_session. wp_go. all: start_leaf. Qed.

Lemma start_status env w :
  wp (videoStatus env) (fun _ w' => startFieldsStep env (vrs w) (vrs w')) w.
Proof. unfold_session. wp_go. all: start_leaf. Qed.

Lemma start_fireTimer env id w :
  wp (fireTimer env id) (fun _ w' => startFieldsStep env (vrs w) (vrs w')) w.
Proof.
  apply wp_fireTimer.
  destruct (existsb (Nat.eqb id) (timers w)); [|left; repeat split].
  unfold_session. wp_go. all: start_leaf.
Qed.

Lemma startFields_step env ev w :
  startFieldsStep env (vrs w) (vrs (fst (step env ev w))).
Proof.
  destruct ev as [p a|a| |id]; simpl.
  - apply (wp_mapM EnableDone _ (fun _ w' => startFieldsStep env (vrs w) (vrs w'))).
    eapply wp_conseq; [apply start_enable|]. intros [?|?] ?; auto.
  - apply (wp_mapM ControlDone _ (fun _ w' => startFieldsStep env (vrs w) (vrs w'))).
    eapply wp_conseq; [apply start_control|]. intros [?|?] ?; auto.
  - apply (wp_mapM StatusDone _ (fun _ w' => startFieldsStep env (vrs w) (vrs w'))).
    eapply wp_conseq; [apply start_status|]. intros [?|?] ?; auto.
  - apply (wp_mapM (fun _ => WatchdogDone) _ (fun _ w' => startFieldsStep env (vrs w) (vrs w'))).
    eapply wp_conseq; [apply start_fireTimer|]. intros [?|?] ?; auto.
Qed.

Lemma reachable_startFieldsInv w : reachable w -> startFieldsInv (vrs w).
Proof.
  induction 1 as [|w env ev _ IH].
  - left; repeat split.
  - destruct (startFields_step env ev w) as [(H1 & H2 & H3)|(H1 & H2 & H3 & H4)].
    + unfold startFieldsInv. rewrite H1, H2, H3. exact IH.
    + right. rewrite H1, H2. repeat split; try congruence.
Qed.

(** Whatever a tool call or a watchdog firing does, and whether it
    succeeds or throws, it either leaves [startTime], [filename] and
    [videoPath] as they were or sets all three at once: the clock reading,
    the name "overlay-recording-<timestamp>.webm" and that name resolved by
    [outputFile].  In particular [videoPath] is only ever the path planned
    at start, never a path reported by the platform when the capture was
    finalised, and no stop, pause or timeout clears any of the three. *)
Theorem planned_path_only env ev w :
  startFieldsStep env (vrs w) (vrs (fst (step env ev w))).
Proof.
  destruct ev as [p a|a| |id]; simpl.
  - apply (wp_mapM EnableDone _ (fun _ w' => startFieldsStep env (vrs w) (vrs w'))).
    eapply wp_conseq; [apply start_enable|]. intros [?|?] ?; auto.
  - apply (wp_mapM ControlDone _ (fun _ w' => startFieldsStep env (vrs w) (vrs w'))).
    eapply wp_conseq; [apply start_control|]. intros [?|?] ?; auto.
  - apply (wp_mapM StatusDone _ (fun _ w' => startFieldsStep env (vrs w) (vrs w'))).
    eapply wp_conseq; [apply start_status|]. intros [?|?] ?; auto.
  - apply (wp_mapM (fun _ => WatchdogDone) _ (fun _ w' => startFieldsStep env (vrs w) (vrs w'))).
    eapply wp_conseq; [apply start_fireTimer|]. intros [?|?] ?; auto.
Qed.

(** In every reachable world the three start fields are either all unset
    (no recording was ever started) or all set. *)
Theorem start_fields_together w :
  reachable w ->
  (startTime (vrs w) = None /\ filename (vrs w) = None /\ videoPath (vrs w) = None) \/
  (startTime (vrs w) <> None /\ filename (vrs w) <> None /\ videoPath (vrs w) <> None).
Proof.
  induction 1 as [|w env ev _ IH].
  - left; repeat split.
  - destruct (startFields_step env ev w) as [(H1 & H2 & H3)|(H1 & H2 & H3 & H4)].
    + rewrite H1, H2, H3. exact IH.
    + right. repeat split; congruence.
Qed.

Lemma start_fields_together_witness :
  startTime (vrs stoppedWorld) <> None /\
  ((startTime (vrs stoppedWorld) = None /\ filename (vrs stoppedWorld) = None /\
    videoPath (vrs stoppedWorld) = None) \/
   (startTime (vrs stoppedWorld) <> None /\ filename (vrs stoppedWorld) <> None /\
    videoPath (vrs stoppedWorld) <> None)).
Proof.
  assert (Hs : startTime (vrs stoppedWorld) <> None) by (vm_compute; discriminate).
  exact (conj Hs (start_fields_together stoppedWorld
                    (reachable_run recordedAndStopped initialWorld reach_init))).
Defined.

(** In every reachable world the save tool throws "No video recording
    available to save" exactly when no recording was ever started; it is
    accepted as soon as one was started, also while it is still running.
    The source of the copy it plans is never [undefined]: it is the planned
    [videoPath], or the file name when that path is the empty string. *)
Theorem videoSave_reachable w env name format :
  reachable w ->
  (videoSave env (vrs w) name format = NoVideoToSave <-> startTime (vrs w) = None) /\
  (forall plan, videoSave env (vrs w) name format = SaveReady plan ->
     e_outputFile env name = Some (sv_outputPath plan) /\
     exists path,
       sv_sourcePath plan = Some path /\ truthy path = true /\
       (videoPath (vrs w) = Some path \/
        (videoPath (vrs w) = Some EmptyString /\ filename (vrs w) = Some path))).
Proof.
  intros Hr. pose proof (reachable_startFieldsInv w Hr) as HI.
  unfold videoSave, orElse.
  destruct HI as [(H1 & H2 & H3)|(H1 & H2 & H3)].
  - rewrite H2, H3. cbn. split; [tauto|]. intros plan H; discriminate.
  - rewrite H2. cbn [negb andb]. split.
    + split; [|contradiction]. destruct (e_outputFile env name); discriminate.
    + intros plan Hp. destruct (e_outputFile env name) as [out|]; [|discriminate].
      injection Hp as <-. cbn. split; [reflexivity|].
      destruct (videoPath (vrs w)) as [vp|] eqn:Hv; [|congruence].
      destruct vp as [|c vp'].
      * cbn [truthyOpt truthy]. destruct (filename (vrs w)) as [f|]; [|discriminate].
        exists f. cbn in H2. auto.
      * cbn [truthyOpt truthy]. eexists; repeat split; auto.
Qed.

Lemma videoSave_reachable_witness :
  isRecording (vrs recordingWorld) = true /\
  videoSave (calmEnv 250 "/out/video.webm") (vrs recordingWorld) "copy.webm" None
    <> NoVideoToSave.
Proof.
  assert (Hrec : isRecording (vrs recordingWorld) = true) by (vm_compute; reflexivity).
  assert (Hs : startTime (vrs recordingWorld) <> None) by (vm_compute; discriminate).
  pose proof (videoSave_reachable recordingWorld (calmEnv 250 "/out/video.webm")
                "copy.webm" None
                (reachable_run enabledThenRecord initialWorld reach_init)) as H.
  exact (conj Hrec (fun E => Hs (proj1 (proj1 H) E))).
Defined.

(** *** Tearing the capture down *)

Lemma stopVideoRecording_cases env w :
  let w' := fst (stopVideoRecording env w) in
  match snd (stopVideoRecording env w) with
  | Throw e =>
      ctx w' = ctx w /\
      (_videoRecordingEnabled (ctx w) = false <-> e = VideoRecordingNotEnabled)
  | Ok vp =>
      _videoRecordingEnabled (ctx w) = true /\
      _videoRecordingEnabled (ctx w') = false /\
      _videoRecordingOptions (ctx w') = None /\
      _browserContextPromise (ctx w') = None /\
      (_browserContextPromise (ctx w) <> None ->
         _tabs (ctx w') = [] /\ _currentTab (ctx w') = None) /\
      (forall path, vp = Some path ->
         e_video env = VideoAt path /\ _tabs (ctx w) <> [] /\
         _browserContextPromise (ctx w) <> None) /\
      (vp = None ->
         _browserContextPromise (ctx w) = None \/ _tabs (ctx w) = [] \/
         e_video env = NoVideo)
  end /\
  vrs w' = vrs w /\ timers w' = timers w /\ fresh w' = fresh w.
Proof.
  destruct w as [v c ts n tr]. destruct c as [bc tabs cur en opts].
  unfold stopVideoRecording, closeBrowserContext, probeVideo,
    bind, getCtx, modifyCtx, emit, ret, throw; simpl.
  destruct en; simpl.
  2: { repeat split; auto; discriminate. }
  destruct bc as [b|]; simpl.
  2: { repeat split; auto; try discriminate; try congruence. }
  destruct tabs as [|p0 tabs]; simpl.
  - destruct (e_close env); simpl; repeat split; auto; try discriminate; try congruence.
  - destruct (e_video env) eqn:Ev; simpl; try destruct (e_close env); simpl;
      repeat split; auto; try discriminate; try congruence.
Qed.

(** [stopVideoRecording] is all or nothing on the context: when it throws,
    every field of the context is as before, and the error is "Video
    recording is not enabled" exactly when the flag was off; when it
    returns, the flag was on and is now off, the stored options and the
    live environment are gone and, if there was an environment, so are the
    tabs.  A returned path is the one the first page's video reported;
    none is returned when there was no environment, no page or no video.
    It never touches the session record, the timers or the id supply. *)
Theorem stopVideoRecording_all_or_nothing env w :
  let w' := fst (stopVideoRecording env w) in
  match snd (stopVideoRecording env w) with
  | Throw e =>
      ctx w' = ctx w /\
      (_videoRecordingEnabled (ctx w) = false <-> e = VideoRecordingNotEnabled)
  | Ok vp =>
      _videoRecordingEnabled (ctx w) = true /\
      _videoRecordingEnabled (ctx w') = false /\
      _videoRecordingOptions (ctx w') = None /\
      _browserContextPromise (ctx w') = None /\
      (_browserContextPromise (ctx w) <> None ->
         _tabs (ctx w') = [] /\ _currentTab (ctx w') = None) /\
      (forall path, vp = Some path ->
         e_video env = VideoAt path /\ _tabs (ctx w) <> [] /\
         _browserContextPromise (ctx w) <> None) /\
      (vp = None ->
         _browserContextPromise (ctx w) = None \/ _tabs (ctx w) = [] \/
         e_video env = NoVideo)
  end /\
  vrs w' = vrs w /\ timers w' = timers w /\ fresh w' = fresh w.
Proof.
  destruct w as [v c ts n tr]. destruct c as [bc tabs cur en opts].
  unfold stopVideoRecording, closeBrowserContext, probeVideo,
    bind, getCtx, modifyCtx, emit, ret, throw; simpl.
  destruct en; simpl.
  2: { repeat split; auto; discriminate. }
  destruct bc as [b|]; simpl.
  2: { repeat split; auto; try discriminate; try congruence. }
  destruct tabs as [|p0 tabs]; simpl.
  - destruct (e_close env); simpl; repeat split; auto; try discriminate; try congruence.
  - destruct (e_video env) eqn:Ev; simpl; try destruct (e_close env); simpl;
      repeat split; auto; try discriminate; try congruence.
Qed.

Lemma stop_ok_on_context env c vp :
  snd (stopVideoRecording env (onContext c)) = Ok vp ->
  _videoRecordingEnabled c = true /\
  _videoRecordingEnabled (ctx (fst (stopVideoRecording env (onContext c)))) = false /\
  (_browserContextPromise c <> None ->
   _tabs (ctx (fst (stopVideoRecording env (onContext c)))) = []) /\
  (forall path, vp = Some path -> e_video env = VideoAt path).
Proof.
  intros H. pose proof (stopVideoRecording_cases env (onContext c)) as F.
  cbv zeta in F. rewrite H in F. cbn [ctx onContext] in F.
  destruct F as ((F1 & F2 & F3 & F4 & F5 & F6 & F7) & _).
  repeat split; auto.
  - intros Hp. apply F5, Hp.
  - intros path Hpath. apply (F6 path Hpath).
Qed.

Lemma stop_throw_on_context env c e :
  snd (stopVideoRecording env (onContext c)) = Throw e ->
  ctx (fst (stopVideoRecording env (onContext c))) = c.
Proof.
  intros H. pose proof (stopVideoRecording_cases env (onContext c)) as F.
  cbv zeta in F. rewrite H in F. cbn [ctx onContext] in F. apply F.
Qed.

Lemma stopRecordingInternal_idle env reason w :
  isRecording (vrs w) = false -> recordingTimeout (vrs w) = None ->
  stopRecordingInternal env reason w = (w, Ok None).
Proof.
  intros H1 H2. unfold stopRecordingInternal, clearRecordingTimeout.
  rewrite bind_run, bind_run. unfold getVRS at 1. cbv beta iota. rewrite H2.
  unfold ret at 1. cbv beta iota.
  rewrite bind_run. unfold getVRS at 1. cbv beta iota. rewrite H1. reflexivity.
Qed.

(** [stopRecordingInternal] never throws, whatever the platform does: it
    always returns, leaving the session not recording and without a
    watchdog handle.  If a recording was active the state is [stopped] and
    [stopTime] is the clock reading, even when the capture could not be
    finalised; if none was active, state, [stopTime] and context are as
    before.  It returns a path only for an active recording whose first
    page reported a non-empty video path.  Calling it again changes
    nothing and returns no path. *)
Theorem stopRecordingInternal_never_throws env reason w :
  let w' := fst (stopRecordingInternal env reason w) in
  (exists vp,
     snd (stopRecordingInternal env reason w) = Ok vp /\
     (forall path, vp = Some path ->
        isRecording (vrs w) = true /\ e_video env = VideoAt path /\
        truthy path = true /\ _videoRecordingEnabled (ctx w') = false)) /\
  isRecording (vrs w') = false /\
  recordingTimeout (vrs w') = None /\
  (isRecording (vrs w) = true ->
     overlayState (vrs w') = stopped /\ stopTime (vrs w') = Some (e_stopAt env)) /\
  (isRecording (vrs w) = false ->
     overlayState (vrs w') = overlayState (vrs w) /\
     stopTime (vrs w') = stopTime (vrs w) /\ ctx w' = ctx w) /\
  forall env2 reason2, stopRecordingInternal env2 reason2 w' = (w', Ok None).
Proof.
  cbv zeta.
  assert (H : wp (stopRecordingInternal env reason)
    (fun r w' =>
       (exists vp, r = Ok vp /\
          (forall path, vp = Some path ->
             isRecording (vrs w) = true /\ e_video env = VideoAt path /\
             truthy path = true /\ _videoRecordingEnabled (ctx w') = false)) /\
       isRecording (vrs w') = false /\
       recordingTimeout (vrs w') = None /\
       (isRecording (vrs w) = true ->
          overlayState (vrs w') = stopped /\ stopTime (vrs w') = Some (e_stopAt env)) /\
       (isRecording (vrs w) = false ->
          overlayState (vrs w') = overlayState (vrs w) /\
          stopTime (vrs w') = stopTime (vrs w) /\ ctx w' = ctx w)) w).
  { unfold_session. wp_go_exact.
    all: repeat match goal with
         | H : snd (stopVideoRecording _ (onContext _)) = Ok _ |- _ =>
             destruct (stop_ok_on_context _ _ _ H) as (?F & ?F & ?F & ?F); clear H
         end.
    all: repeat match goal with |- _ /\ _ => split end;
         try reflexivity; try assumption; try (intros; congruence);
         try (intros; split; congruence).
    all: try (eexists; split; [reflexivity|]; intros path Hp;
              try discriminate; try (injection Hp as ->);
              repeat split; auto; congruence).
    all: try (intros; repeat split; congruence).
    all: match goal with
         | |- context [truthyOpt ?a] =>
             destruct a as [path0|]; cbn [truthyOpt];
             [destruct (truthy path0) eqn:Htr|]
         end.
    all: eexists; (split; [reflexivity|]); intros path Hp; try discriminate.
    all: injection Hp as <-; repeat split; auto. }
  unfold wp in H. destruct H as (H1 & H2 & H3 & H4 & H5).
  repeat match goal with |- _ /\ _ => split end; auto.
  intros env2 reason2. apply stopRecordingInternal_idle; assumption.
Qed.

(** *** The pause and stop branches *)

(** A successful pause was issued in state [recording]; it leaves the
    session in state [stopped], not recording, with [stopTime] set, no
    watchdog pending and the context's recording flag off; [videoPath] of
    the record is untouched.  The response carries the non-empty path the
    platform reported for the finished video and the duration
    [(stopTime - startTime) / 1000]. *)
Theorem pause_post env w w' r :
  reachable w ->
  videoOverlayControl env pause w = (w', Ok r) ->
  overlayState (vrs w) = recording /\
  previousState r = recording /\ currentState r = stopped /\
  overlayState (vrs w') = stopped /\ isRecording (vrs w') = false /\
  stopTime (vrs w') = Some (e_stopAt env) /\
  recordingTimeout (vrs w') = None /\ timers w' = [] /\
  videoPath (vrs w') = videoPath (vrs w) /\
  _videoRecordingEnabled (ctx w') = false /\
  exists path t0,
    e_video env = VideoAt path /\ truthy path = true /\
    startTime (vrs w) = Some t0 /\
    c_videoPath r = Some path /\
    duration r = Some (seconds (e_stopAt env - t0)).
Proof.
  intros Hreach E.
  pose proof (reachable_sessionInv w Hreach) as HI.
  refine (wp_run _ (fun r0 w0 => match r0 with Ok r => _ | Throw _ => True end)
            _ _ _ _ E).
  clear E w' r. unfold sessionInv in HI.
  unfold_session. wp_go_exact; auto.
  all: inv_timers.
  all: repeat match goal with
       | H : negb _ = false |- _ => apply negb_false_iff in H
       | H : filter _ _ = [] |- _ => rewrite H in *
       | H : timers _ = [] |- _ => rewrite H in *
       end.
  all: match goal with
       | H : snd (stopVideoRecording _ (onContext _)) = Ok _ |- _ =>
           destruct (stop_ok_on_context _ _ _ H) as (F1 & F2 & F3 & F4)
       end.
  all: match goal with
       | H : validateStateTransition _ _ _ _ = Ok _ |- _ =>
           unfold validateStateTransition in H;
           destruct (overlayState (vrs w)) eqn:Hst;
           rewrite ?Heqb in H; cbn in H; try discriminate
       end.
  all: destruct a0 as [path|]; cbn [truthyOpt] in *; try discriminate.
  all: destruct (truthy path) eqn:Htr; try discriminate.
  all: match goal with H : Some _ = Some _ |- _ => injection H as <- end.
  all: repeat split; auto.
  all: exists path; eexists; repeat split; eauto.
Qed.

Lemma pause_post_witness :
  videoOverlayControl (calmEnv 300 "/out/video.webm") pause recordingWorld =
    (fst (videoOverlayControl (calmEnv 300 "/out/video.webm") pause recordingWorld),
     Ok {| previousState := recording; currentState := stopped;
           c_videoPath := Some "/out/video.webm";
           duration := Some (seconds (300 - 200));
           message := "Recording paused (stopped). Video saved to "
                        ++ "/out/video.webm"
                        ++ ". Resume will start new recording." |}) /\
  overlayState (vrs (fst (videoOverlayControl (calmEnv 300 "/out/video.webm") pause
                            recordingWorld))) = stopped /\
  timers (fst (videoOverlayControl (calmEnv 300 "/out/video.webm") pause
                 recordingWorld)) = [].
Proof.
  assert (E : videoOverlayControl (calmEnv 300 "/out/video.webm") pause recordingWorld =
    (fst (videoOverlayControl (calmEnv 300 "/out/video.webm") pause recordingWorld),
     Ok {| previousState := recording; currentState := stopped;
           c_videoPath := Some "/out/video.webm";
           duration := Some (seconds (300 - 200));
           message := "Recording paused (stopped). Video saved to "
                        ++ "/out/video.webm"
                        ++ ". Resume will start new recording." |}))
    by (vm_compute; reflexivity).
  pose proof (pause_post (calmEnv 300 "/out/video.webm") recordingWorld _ _
                (reachable_run enabledThenRecord initialWorld reach_init) E) as H.
  exact (conj E (conj (proj1 (proj2 (proj2 (proj2 H))))
           (proj1 (proj2 (proj2 (proj2 (proj2 (proj2 (proj2 (proj2 H)))))))))).
Defined.

(** A successful stop leaves the session in state [stopped], not
    recording, with [stopTime] set, no watchdog pending and the context's
    recording flag off; [startTime] and [videoPath] of the record are
    untouched.  Either the platform reported a non-empty path, which the
    response carries together with the duration, or the response has no
    duration and falls back to the planned [videoPath] of the record. *)
Theorem stop_post env w w' r :
  reachable w ->
  videoOverlayControl env stop w = (w', Ok r) ->
  previousState r = overlayState (vrs w) /\ currentState r = stopped /\
  overlayState (vrs w') = stopped /\ isRecording (vrs w') = false /\
  stopTime (vrs w') = Some (e_stopAt env) /\
  recordingTimeout (vrs w') = None /\ timers w' = [] /\
  videoPath (vrs w') = videoPath (vrs w) /\
  startTime (vrs w') = startTime (vrs w) /\
  _videoRecordingEnabled (ctx w') = false /\
  ((exists path t0,
      e_video env = VideoAt path /\ truthy path = true /\
      startTime (vrs w) = Some t0 /\
      c_videoPath r = Some path /\
      duration r = Some (seconds (e_stopAt env - t0)))
   \/
   (duration r = None /\
    c_videoPath r = if truthyOpt (videoPath (vrs w)) then videoPath (vrs w) else None)).
Proof.
  intros Hreach E.
  pose proof (reachable_sessionInv w Hreach) as HI.
  refine (wp_run _ (fun r0 w0 => match r0 with Ok r => _ | Throw _ => True end)
            _ _ _ _ E).
  clear E w' r. unfold sessionInv in HI.
  unfold_session. wp_go_exact; auto.
  all: inv_timers.
  all: repeat match goal with
       | H : negb _ = false |- _ => apply negb_false_iff in H
       | H : filter _ _ = [] |- _ => rewrite H in *
       | H : timers _ = [] |- _ => rewrite H in *
       end.
  all: match goal with
       | H : snd (stopVideoRecording _ (onContext _)) = Ok _ |- _ =>
           destruct (stop_ok_on_context _ _ _ H) as (F1 & F2 & F3 & F4)
       end.
  all: repeat split; auto.
  all: try (right; split; reflexivity).
  all: left.
  all: destruct a0 as [path|]; cbn [truthyOpt] in *; try discriminate.
  all: destruct (truthy path) eqn:Htr; try discriminate.
  all: match goal with H : Some _ = Some _ |- _ => injection H as <- end.
  all: exists path; eexists; repeat split; eauto.
Qed.

Lemma stop_post_witness :
  videoOverlayControl (noVideoEnv 300) stop recordingWorld =
    (fst (videoOverlayControl (noVideoEnv 300) stop recordingWorld),
     Ok {| previousState := recording; currentState := stopped;
           c_videoPath := videoPath (vrs recordingWorld);
           duration := None;
           message :=
             "Recording stopped (was already stopped or timed out). Video path: "
               ++ "/out/overlay-recording-200.webm" |}) /\
  overlayState (vrs (fst (videoOverlayControl (noVideoEnv 300) stop
                            recordingWorld))) = stopped /\
  videoPath (vrs (fst (videoOverlayControl (noVideoEnv 300) stop recordingWorld)))
    = videoPath (vrs recordingWorld).
Proof.
  assert (E : videoOverlayControl (noVideoEnv 300) stop recordingWorld =
    (fst (videoOverlayControl (noVideoEnv 300) stop recordingWorld),
     Ok {| previousState := recording; currentState := stopped;
           c_videoPath := videoPath (vrs recordingWorld);
           duration := None;
           message :=
             "Recording stopped (was already stopped or timed out). Video path: "
               ++ "/out/overlay-recording-200.webm" |}))
    by (vm_compute; reflexivity).
  pose proof (stop_post (noVideoEnv 300) recordingWorld _ _
                (reachable_run enabledThenRecord initialWorld reach_init) E) as H.
  exact (conj E (conj (proj1 (proj2 (proj2 H)))
           (proj1 (proj2 (proj2 (proj2 (proj2 (proj2 (proj2 (proj2 H)))))))))).
Defined.

Lemma control_without_capture env a w :
  (a = pause \/ a = stop) ->
  _videoRecordingEnabled (ctx w) = false ->
  exists e,
    snd (videoOverlayControl env a w) = Throw e /\
    ctx (fst (videoOverlayControl env a w)) = ctx w /\
    isRecording (vrs (fst (videoOverlayControl env a w))) = isRecording (vrs w) /\
    overlayState (vrs (fst (videoOverlayControl env a w))) = overlayState (vrs w) /\
    stopTime (vrs (fst (videoOverlayControl env a w))) = stopTime (vrs w).
Proof.
  intros Ha Hd.
  assert (Hsvr : snd (stopVideoRecording env (onContext (ctx w)))
                 = Throw VideoRecordingNotEnabled).
  { rewrite stopVideoRecording_not_enabled; [reflexivity | exact Hd]. }
  assert (Hctx : ctx (fst (stopVideoRecording env (onContext (ctx w)))) = ctx w).
  { apply (stop_throw_on_context _ _ _ Hsvr). }
  assert (H : wp (videoOverlayControl env a)
                (fun r w' => (exists e, r = Throw e) /\ ctx w' = ctx w /\
                   isRecording (vrs w') = isRecording (vrs w) /\
                   overlayState (vrs w') = overlayState (vrs w) /\
                   stopTime (vrs w') = stopTime (vrs w)) w).
  { destruct Ha; subst a; unfold_session; wp_go_exact; eauto 6; try congruence. }
  unfold wp in H. destruct H as ((e & He) & H1 & H2 & H3 & H4). eauto 8.
Qed.



(** A pause whose teardown succeeds but yields no usable video path (no
    page, no video, or an empty path) throws "Failed to stop recording
    during pause action" after the capture has been torn down: the
    context's recording flag is off and the watchdog is cleared, yet the
    record still says [recording] with its old [isRecording] and
    [stopTime].  From that world every further pause or stop throws. *)
Theorem pause_without_artifact env w vp :
  overlayEnabled (vrs w) = true ->
  overlayState (vrs w) = recording ->
  _currentTab (ctx w) <> None ->
  snd (stopVideoRecording env w) = Ok vp ->
  truthyOpt vp = false ->
  let w' := fst (videoOverlayControl env pause w) in
  snd (videoOverlayControl env pause w) = Throw FailedToStopDuringPause /\
  isRecording (vrs w') = isRecording (vrs w) /\
  overlayState (vrs w') = recording /\
  stopTime (vrs w') = stopTime (vrs w) /\
  recordingTimeout (vrs w') = None /\
  _videoRecordingEnabled (ctx w') = false /\
  forall env2 a, (a = pause \/ a = stop) ->
    exists e, snd (videoOverlayControl env2 a w') = Throw e.
Proof.
  intros He Hs Ht Hok Hvp w'.
  rewrite stopVideoRecording_local in Hok; cbn [snd] in Hok.
  destruct (stop_ok_on_context _ _ _ Hok) as (F1 & F2 & F3 & F4).
  assert (H : wp (videoOverlayControl env pause)
                (fun r w' => r = Throw FailedToStopDuringPause /\
                   isRecording (vrs w') = isRecording (vrs w) /\
                   overlayState (vrs w') = recording /\
                   stopTime (vrs w') = stopTime (vrs w) /\
                   recordingTimeout (vrs w') = None /\
                   _videoRecordingEnabled (ctx w') = false) w).
  { unfold_session. wp_go_exact; auto; try congruence.
    all: try (rewrite He in *; discriminate).
    all: try (unfold validateStateTransition in *; rewrite He, Hs in *; discriminate).
    all: try (inversion Hok; subst; rewrite Hvp in *; discriminate).
    all: inversion Hok; subst; auto 10.
    }
  unfold wp in H. fold w' in H. destruct H as (H0 & H1 & H2 & H3 & H4 & H5).
  repeat split; auto.
  intros env2 a Ha.
  destruct (control_without_capture env2 a w' Ha H5) as (e & Hee & _).
  exists e; exact Hee.
Qed.

Lemma pause_without_artifact_witness :
  snd (stopVideoRecording (noVideoEnv 300) recordingWorld) = Ok None /\
  snd (videoOverlayControl (noVideoEnv 300) pause recordingWorld)
    = Throw FailedToStopDuringPause /\
  overlayState (vrs (fst (videoOverlayControl (noVideoEnv 300) pause recordingWorld)))
    = recording /\
  _videoRecordingEnabled
    (ctx (fst (videoOverlayControl (noVideoEnv 300) pause recordingWorld))) = false.
Proof.
  assert (He : overlayEnabled (vrs recordingWorld) = true) by (vm_compute; reflexivity).
  assert (Hs : overlayState (vrs recordingWorld) = recording)
    by (vm_compute; reflexivity).
  assert (Ht : _currentTab (ctx recordingWorld) <> None) by (vm_compute; discriminate).
  assert (Hok : snd (stopVideoRecording (noVideoEnv 300) recordingWorld) = Ok None)
    by (vm_compute; reflexivity).
  pose proof (pause_without_artifact (noVideoEnv 300) recordingWorld None
                He Hs Ht Hok eq_refl) as H.
  cbv zeta in H.
  exact (conj Hok (conj (proj1 H) (conj (proj1 (proj2 (proj2 H)))
           (proj1 (proj2 (proj2 (proj2 (proj2 (proj2 H))))))))).
Defined.

(** *** What the overlay is told *)

Ltac wp_push :=
  lazymatch goal with
  | |- wp (updateOverlayState _ _ _) _ _ => unfold updateOverlayState
  end.

Ltac wp_go_push :=
  repeat (first [wp_core | wp_push | wp_abs]; cbv beta iota; world_simpl).

(** Every successful control call ends by pushing the state it reached to
    the overlay: the state of the record after the call is the target
    state of the action, it is the [currentState] of the response, and the
    platform trace ends with the overlay update for that state (followed
    only by the debug line of a failed [page.evaluate]). *)
Theorem control_pushes_final_state env a w w' r :
  videoOverlayControl env a w = (w', Ok r) ->
  currentState r = overlayState (vrs w') /\
  overlayState (vrs w') = targetStateOf a /\
  exists tr p,
    trace w' =
      (tr ++ OpUpdateOverlay p (overlayState (vrs w'))
          :: (if e_evaluate env then []
              else [OpDebug "Failed to update overlay state:"]))%list.
Proof.
  intros E.
  refine (wp_run _ (fun r0 w0 => match r0 with Ok r => _ | Throw _ => True end)
            _ _ _ _ E).
  clear E w' r.
  unfold_session. wp_go_push; auto.
  all: repeat match goal with
       | H : negb _ = false |- _ => apply negb_false_iff in H
       | H : negb _ = true |- _ => apply negb_true_iff in H
       end.
  all: repeat split; auto.
  all: match goal with H : e_evaluate _ = _ |- _ => rewrite H end.
  all: try (eexists; eexists; reflexivity).
  all: rewrite <- app_assoc; cbn [app]; eexists; eexists; reflexivity.
Qed.

Lemma control_pushes_final_state_witness :
  videoOverlayControl (calmEnv 200 "/out/video.webm") record enabledWorld =
    (recordingWorld,
     Ok {| previousState := idle; currentState := recording;
           c_videoPath := None; duration := None;
           message := "Recording started successfully (max duration: 7 minutes)" |}) /\
  overlayState (vrs recordingWorld) = recording /\
  exists tr p,
    trace recordingWorld =
      (tr ++ [OpUpdateOverlay p (overlayState (vrs recordingWorld))])%list.
Proof.
  assert (E : videoOverlayControl (calmEnv 200 "/out/video.webm") record enabledWorld =
    (recordingWorld,
     Ok {| previousState := idle; currentState := recording;
           c_videoPath := None; duration := None;
           message := "Recording started successfully (max duration: 7 minutes)" |}))
    by (vm_compute; reflexivity).
  pose proof (control_pushes_final_state (calmEnv 200 "/out/video.webm") record
                enabledWorld recordingWorld _ E) as H.
  exact (conj E (conj (proj1 (proj2 H)) (proj2 (proj2 H)))).
Defined.

Lemma stop_trace_no_overlay env c :
  overlayOps (trace (fst (stopVideoRecording env (onContext c)))) = [].
Proof.
  destruct c as [bc tabs cur en opts].
  unfold stopVideoRecording, closeBrowserContext, probeVideo, onContext,
    bind, getCtx, modifyCtx, emit, ret, throw; simpl.
  destruct en; simpl; [|reflexivity].
  destruct bc as [b|]; simpl; [|reflexivity].
  destruct tabs as [|p0 tabs]; simpl.
  - destruct (e_close env); reflexivity.
  - destruct (e_video env); simpl; try reflexivity; destruct (e_close env); reflexivity.
Qed.

Lemma overlayOps_app a b : overlayOps (a ++ b) = (overlayOps a ++ overlayOps b)%list.
Proof. apply filter_app. Qed.

(** A watchdog firing never tells the overlay anything: whatever it does
    to the session, the overlay updates in the platform trace are the same
    after it as before, so an overlay that showed "recording" keeps showing
    it after the forced stop.  ([stopRecordingInternal] asks the context for
    a [currentTab] member it does not have.) *)
Theorem watchdog_never_updates_overlay env id w :
  overlayOps (trace (fst (step env (WatchdogFires id) w))) = overlayOps (trace w).
Proof.
  cbn [step].
  apply (wp_mapM (fun _ => WatchdogDone) _
           (fun _ w' => overlayOps (trace w') = overlayOps (trace w))).
  eapply wp_conseq with (Q := fun _ w' => overlayOps (trace w') = overlayOps (trace w)).
  2: { intros [?|?] ?; auto. }
  apply wp_fireTimer.
  destruct (existsb (Nat.eqb id) (timers w)); [|reflexivity].
  unfold_session. wp_go_exact; auto.
  all: rewrite ?overlayOps_app, ?stop_trace_no_overlay; cbn [overlayOps filter isOverlayUpdate app];
       rewrite ?app_nil_r; reflexivity.
Qed.

(** *** Resume against record *)

(** From a stopped session, [resume] is [record] followed by clearing
    [stopTime]: both calls succeed or fail together, leave the same
    context, timers, id supply and platform trace, and the same record
    except that after a successful [resume] the [stopTime] is unset, which
    [record] leaves standing. *)
Theorem resume_is_record_clearing_stopTime env w :
  overlayEnabled (vrs w) = true ->
  overlayState (vrs w) = stopped ->
  isRecording (vrs w) = false ->
  let wr := fst (videoOverlayControl env record w) in
  let ws := fst (videoOverlayControl env resume w) in
  ctx ws = ctx wr /\ timers ws = timers wr /\ trace ws = trace wr /\
  fresh ws = fresh wr /\
  isOk (snd (videoOverlayControl env resume w))
    = isOk (snd (videoOverlayControl env record w)) /\
  (isOk (snd (videoOverlayControl env resume w)) = true ->
     vrs ws = set_stopTime None (vrs wr)) /\
  (isOk (snd (videoOverlayControl env resume w)) = false -> vrs ws = vrs wr).
Proof.
  intros He Hs Hr wr ws. subst wr ws.
  destruct w as [v c ts n tr]; destruct v; destruct c as [bc tabs cur en opts].
  cbn in He, Hs, Hr; subst.
  unfold videoOverlayControl, recordBranch, resumeBranch, autoStop,
    currentTabOrDie, validateStateTransition, startRecordingTimeout,
    updateOverlayState, setTimeout, clearTimeout.
  cbv beta iota zeta delta
    -[startOverlayRecording append findPage e_evaluate seconds
      MAX_RECORDING_DURATION_MS filter List.app].
  destruct cur as [i|]; [|repeat split; auto].
  destruct (findPage i tabs) as [p0|];
    match goal with
    | |- context [startOverlayRecording env ?W] =>
        destruct (startOverlayRecording env W) as [[v1 c1 ts1 n1 tr1] [tab|e]]
    end;
    try (repeat split; auto; discriminate).
  all: repeat match goal with v : VideoRecordingState |- _ => destruct v end.
  all: cbv beta iota.
  all: repeat match goal with
       | |- context [match ?x with Some _ => _ | None => _ end] =>
           is_var x; destruct x
       end; cbv beta iota.
  all: destruct (e_evaluate env); cbv beta iota delta [negb];
       repeat split; intros; try discriminate; reflexivity.
Qed.

Lemma resume_is_record_clearing_stopTime_witness :
  overlayState (vrs stoppedWorld) = stopped /\
  stopTime (vrs (fst (videoOverlayControl (calmEnv 500 "/out/video.webm") record
                        stoppedWorld))) = Some 300 /\
  vrs (fst (videoOverlayControl (calmEnv 500 "/out/video.webm") resume stoppedWorld))
    = set_stopTime None
        (vrs (fst (videoOverlayControl (calmEnv 500 "/out/video.webm") record
                     stoppedWorld))).
Proof.
  assert (He : overlayEnabled (vrs stoppedWorld) = true) by (vm_compute; reflexivity).
  assert (Hs : overlayState (vrs stoppedWorld) = stopped) by (vm_compute; reflexivity).
  assert (Hr : isRecording (vrs stoppedWorld) = false) by (vm_compute; reflexivity).
  assert (Ht : stopTime (vrs (fst (videoOverlayControl (calmEnv 500 "/out/video.webm")
                                     record stoppedWorld))) = Some 300)
    by (vm_compute; reflexivity).
  assert (Ho : isOk (snd (videoOverlayControl (calmEnv 500 "/out/video.webm") resume
                            stoppedWorld)) = true) by (vm_compute; reflexivity).
  pose proof (resume_is_record_clearing_stopTime (calmEnv 500 "/out/video.webm")
                stoppedWorld He Hs Hr) as H.
  cbv zeta in H.
  exact (conj Hs (conj Ht
           (proj1 (proj2 (proj2 (proj2 (proj2 (proj2 H))))) Ho))).
Defined.

(** *** The context object *)




















































Ltac as_wp m w :=
  match goal with
  | |- ?G =>
      let G' := eval pattern (snd (m w)), (fst (m w)) in G in
      match G' with ?Q _ _ => change (wp m Q w) end
  end.


Lemma sameFlags_refl w : sameFlags w w.
Proof. split; reflexivity. Qed.

Lemma sameFlags_trans a b c : sameFlags a b -> sameFlags b c -> sameFlags a c.
Proof. intros [H1 H2] [H3 H4]; split; congruence. Qed.

Lemma flags_modifyCtx f :
  (forall c, _videoRecordingEnabled (f c) = _videoRecordingEnabled c /\
             _videoRecordingOptions (f c) = _videoRecordingOptions c) ->
  stable sameFlags (modifyCtx f).
Proof. intros Hf w; apply Hf. Qed.

Lemma flags_emit op : stable sameFlags (emit op).
Proof. intro w; split; reflexivity. Qed.

Lemma flags_freshId : stable sameFlags freshId.
Proof. intro w; split; reflexivity. Qed.

Ltac flags_tac :=
  repeat first
    [ progress stable_struct sameFlags_refl sameFlags_trans
    | match goal with
      | |- stable _ (modifyCtx _) =>
          apply flags_modifyCtx; intros [? ? ? ? ?]; split; reflexivity
      | |- stable _ (emit _) => apply flags_emit
      | |- stable _ freshId => apply flags_freshId
      end ].

Lemma flags_onPageCreated p : stable sameFlags (_onPageCreated p).
Proof. unfold _onPageCreated; flags_tac. Qed.

Lemma flags_ensureBrowserContext env : stable sameFlags (_ensureBrowserContext env).
Proof.
  unfold _ensureBrowserContext, _setupBrowserContext; flags_tac;
    apply flags_onPageCreated.
Qed.

Lemma flags_newPage env : stable sameFlags (newPage env).
Proof. unfold newPage; flags_tac; apply flags_onPageCreated. Qed.

Lemma flags_goto env p url : stable sameFlags (goto env p url).
Proof. unfold goto; flags_tac. Qed.

Lemma flags_closeBrowserContext env : stable sameFlags (closeBrowserContext env).
Proof. unfold closeBrowserContext; flags_tac. Qed.

Lemma flags_restoreTabs env urls : stable sameFlags (restoreTabs env urls).
Proof.
  unfold restoreTabs; flags_tac; first [apply flags_newPage | apply flags_goto].
Qed.

(** [startVideoRecording] stores the options and sets the recording flag
    before anything that can fail: whether it returns or throws half-way
    (teardown, creation, [newPage] or [goto] rejecting), the flag is on and
    the options are stored afterwards, so every later [startVideoRecording]
    throws "Video recording is already enabled" and changes nothing. *)
Theorem startVideoRecording_sets_flag_first env rv w :
  _videoRecordingEnabled (ctx w) = false ->
  let w' := fst (startVideoRecording env rv w) in
  _videoRecordingEnabled (ctx w') = true /\
  _videoRecordingOptions (ctx w') = rv /\
  forall env2 rv2,
    startVideoRecording env2 rv2 w' = (w', Throw VideoRecordingAlreadyEnabled).
Proof.
  intros Hen w'.
  assert (H : _videoRecordingEnabled (ctx w') = true /\
              _videoRecordingOptions (ctx w') = rv).
  { subst w'. as_wp (startVideoRecording env rv) w. unfold startVideoRecording.
    apply wp_bind, wp_getCtx. cbv beta iota. rewrite Hen. cbv zeta.
    apply wp_bind, wp_modifyCtx. cbv beta iota.
    apply wp_bind, wp_modifyCtx. cbv beta iota.
    cbn [vrs ctx timers fresh trace].
    match goal with
    | |- wp ?m _ ?W =>
        assert (Hs : stable sameFlags m); [|destruct (Hs W) as [H1 H2]]
    end.
    { flags_tac;
        first [ apply flags_closeBrowserContext | apply flags_ensureBrowserContext
              | apply flags_restoreTabs ]. }
    unfold wp. rewrite H1, H2. cbn [ctx]. destruct (ctx w); split; reflexivity. }
  destruct H as [H1 H2]. repeat split; auto.
  intros env2 rv2. unfold startVideoRecording, bind, getCtx. rewrite H1. reflexivity.
Qed.


(** [closeBrowserContext]: when it returns there is no live environment;
    if there was one, tabs and current tab are cleared, and if there was
    none the world is unchanged; closing again is then a no-op on any
    platform.  It throws only when [close()] rejects, and then the context
    still holds the environment, the tabs and the current tab. *)
Theorem closeBrowserContext_idempotent env env2 w :
  let w1 := fst (closeBrowserContext env w) in
  match snd (closeBrowserContext env w) with
  | Ok _ =>
      _browserContextPromise (ctx w1) = None /\
      (_browserContextPromise (ctx w) <> None ->
         _tabs (ctx w1) = [] /\ _currentTab (ctx w1) = None) /\
      (_browserContextPromise (ctx w) = None -> w1 = w) /\
      closeBrowserContext env2 w1 = (w1, Ok tt)
  | Throw e =>
      e = PlatformError "close" /\ e_close env = false /\
      _browserContextPromise (ctx w) <> None /\ ctx w1 = ctx w
  end.
Proof.
  destruct w as [v c ts n tr]; destruct c as [bc tabs cur en opts].
  unfold closeBrowserContext, bind, getCtx, emit, modifyCtx, ret, throw; simpl.
  destruct bc as [b|]; simpl.
  - destruct (e_close env); simpl; repeat split; auto; try discriminate.
  - repeat split; auto; try discriminate. all: try (intros; congruence).
Qed.


Lemma indexOf_none tab tabs :
  ~ In tab (map page_id tabs) -> indexOf tab tabs = None.
Proof.
  induction tabs as [|a tabs IH]; simpl; [reflexivity|]. intros H.
  destruct (Nat.eqb_spec (page_id a) tab) as [E|E]; [tauto|].
  rewrite IH; [reflexivity|tauto].
Qed.

Lemma indexOf_split before p after :
  ~ In (page_id p) (map page_id before) ->
  indexOf (page_id p) (before ++ p :: after) = Some (List.length before).
Proof.
  induction before as [|a l IH]; simpl; intros H.
  - rewrite Nat.eqb_refl. reflexivity.
  - destruct (Nat.eqb_spec (page_id a) (page_id p)) as [E|E]; [tauto|].
    rewrite IH; [reflexivity|tauto].
Qed.

Lemma splice1_split before p after :
  splice1 (List.length before) (before ++ p :: after) = (before ++ after)%list.
Proof.
  unfold splice1. induction before as [|a l IH]; simpl; [reflexivity|].
  f_equal. exact IH.
Qed.

Lemma at_index_next before after :
  option_map page_id
    (at_index (before ++ after)
       (Z.min (Z.of_nat (List.length before))
              (Z.of_nat (List.length (before ++ after)) - 1)))
  = nextCurrent before after.
Proof.
  unfold nextCurrent, at_index. rewrite length_app.
  destruct after as [|q after]; simpl.
  - rewrite Nat.add_0_r, app_nil_r.
    destruct (rev before) as [|q r] eqn:Hr.
    + apply (f_equal (@rev Page)) in Hr. rewrite rev_involutive in Hr. subst before.
      reflexivity.
    + apply (f_equal (@rev Page)) in Hr. rewrite rev_involutive in Hr. subst before.
      simpl. rewrite length_app, length_rev. simpl.
      replace (Z.min (Z.of_nat (List.length r + 1)) (Z.of_nat (List.length r + 1) - 1))
        with (Z.of_nat (List.length r)) by lia.
      destruct (Z.ltb_spec (Z.of_nat (List.length r)) 0); [lia|].
      rewrite Nat2Z.id, nth_error_app2; rewrite length_rev; [|lia].
      rewrite Nat.sub_diag. reflexivity.
  - replace (Z.min (Z.of_nat (List.length before))
               (Z.of_nat (List.length before + S (List.length after)) - 1))
      with (Z.of_nat (List.length before)) by lia.
    destruct (Z.ltb_spec (Z.of_nat (List.length before)) 0); [lia|].
    rewrite Nat2Z.id, nth_error_app2; [|lia]. rewrite Nat.sub_diag. reflexivity.
Qed.

Lemma nextCurrent_In before after i :
  nextCurrent before after = Some i -> In i (map page_id (before ++ after)).
Proof.
  unfold nextCurrent. rewrite map_app, in_app_iff.
  destruct after as [|q after].
  - destruct (rev before) as [|q r] eqn:Hr; [discriminate|].
    intros H; injection H as <-. left. apply in_map.
    apply in_rev. rewrite Hr. left; reflexivity.
  - intros H; injection H as <-. right. left; reflexivity.
Qed.

Lemma nextCurrent_None before after :
  nextCurrent before after = None -> (before ++ after)%list = [].
Proof.
  unfold nextCurrent. destruct after as [|q after]; [|discriminate].
  destruct (rev before) as [|q r] eqn:Hr; [|discriminate].
  apply (f_equal (@rev Page)) in Hr. rewrite rev_involutive in Hr. subst before.
  reflexivity.
Qed.

Ltac ctx_simpl :=
  unfold set_tabs, set_currentTab, set_browserContextPromise;
  cbn [vrs ctx timers fresh trace _tabs _currentTab _browserContextPromise
       _videoRecordingEnabled _videoRecordingOptions].

(** [_onPageClosed] for an open tab (tab ids being distinct): it returns
    the modal states of the other tabs, removes exactly that tab, keeps the
    current tab if it was another one and otherwise moves to the right
    neighbour, else to the left neighbour, else to none; when the last tab
    goes the live environment is dropped, otherwise environment and trace
    are untouched.  The context invariants are kept. *)
Theorem onPageClosed_spec env ms w before p after :
  _tabs (ctx w) = (before ++ p :: after)%list ->
  NoDup (map page_id (_tabs (ctx w))) ->
  let w' := fst (_onPageClosed env (page_id p) ms w) in
  snd (_onPageClosed env (page_id p) ms w)
    = Ok (filter (fun st => negb (Nat.eqb (ms_tab st) (page_id p))) ms) /\
  _tabs (ctx w') = (before ++ after)%list /\
  ~ In (page_id p) (map page_id (_tabs (ctx w'))) /\
  (_currentTab (ctx w) = Some (page_id p) ->
     _currentTab (ctx w') = nextCurrent before after) /\
  (_currentTab (ctx w) <> Some (page_id p) ->
     _currentTab (ctx w') = _currentTab (ctx w)) /\
  ((before ++ after)%list = [] -> _browserContextPromise (ctx w') = None) /\
  ((before ++ after)%list <> [] ->
     _browserContextPromise (ctx w') = _browserContextPromise (ctx w) /\
     trace w' = trace w) /\
  (ctxInv w -> ctxInv w').
Proof.
  intros Ht Hnd. cbv zeta.
  assert (Hfirst : ~ In (page_id p) (map page_id before) /\
                   ~ In (page_id p) (map page_id (before ++ after))).
  { rewrite Ht, map_app in Hnd. simpl in Hnd. apply NoDup_remove_2 in Hnd.
    rewrite map_app. rewrite in_app_iff in *. tauto. }
  destruct Hfirst as [Hfirst Hgone].
  as_wp (_onPageClosed env (page_id p) ms) w.
  destruct w as [v c ts n tr]; destruct c as [bc tabs cur en opts].
  cbn [ctx _tabs] in Ht, Hnd. subst tabs.
  unfold _onPageClosed. cbv zeta. apply wp_bind, wp_getCtx. cbv beta iota.
  cbn [ctx _tabs]. rewrite (indexOf_split before p after Hfirst).
  apply wp_bind, wp_modifyCtx. cbv beta iota.
  ctx_simpl.
  rewrite splice1_split.
  apply wp_bind, wp_getCtx. cbv beta iota. ctx_simpl.
  apply wp_bind, wp_when.
  assert (Hinv : forall cur',
    (cur' = cur \/ cur' = nextCurrent before after) ->
    (cur' = None -> (before ++ after)%list = []) ->
    (forall i, cur' = Some i -> In i (map page_id (before ++ after))) ->
    forall bc', (bc' = bc \/ bc' = None) ->
    (bc' = None -> (before ++ after)%list = []) ->
    ctxInvOn {| _browserContextPromise := bc; _tabs := before ++ p :: after;
                _currentTab := cur; _videoRecordingEnabled := en;
                _videoRecordingOptions := opts |} n ->
    ctxInvOn {| _browserContextPromise := bc'; _tabs := before ++ after;
                _currentTab := cur'; _videoRecordingEnabled := en;
                _videoRecordingOptions := opts |} n).
  { intros cur' _ Hc1 Hc2 bc' Hb Hb2 (H1 & H2 & H3 & H4 & H5 & H6).
    unfold ctxInvOn; cbn in *. repeat split; auto.
    - rewrite map_app in *. simpl in H1. apply NoDup_remove_1 in H1. exact H1.
    - unfold idsBelow in *. rewrite Forall_app in *. destruct H2 as [Ha Hb'].
      inversion Hb'; subst. split; assumption.
    - apply H6; assumption.
    - intros b' Hb'. destruct Hb as [->| ->]; [|discriminate].
      apply H6; assumption. }
  assert (Hclose : forall (Q : Result unit -> World -> Prop) w0,
            (forall tr', _browserContextPromise (ctx w0) = None ->
               Q (Ok tt) {| vrs := vrs w0; ctx := ctx w0; timers := timers w0;
                            fresh := fresh w0; trace := tr' |}) ->
            (forall tr' b, _browserContextPromise (ctx w0) = Some b ->
               Q (Ok tt) {| vrs := vrs w0;
                            ctx := set_browserContextPromise None (ctx w0);
                            timers := timers w0; fresh := fresh w0; trace := tr' |}) ->
            wp (tryCatch (close env) (fun _ => ret tt)) Q w0).
  { intros Q w0 HN HS. apply wp_tryCatch. unfold close.
    apply wp_bind, wp_getCtx. cbv beta iota.
    destruct (_browserContextPromise (ctx w0)) as [b0|] eqn:Hb0.
    - apply wp_bind, wp_emit. cbv beta iota. apply wp_bind, wp_modifyCtx.
      cbv beta iota. apply wp_bind, wp_emit. cbv beta iota.
      cbn [vrs ctx timers fresh trace].
      destruct (e_close env); [apply wp_ret|apply wp_throw; apply wp_ret];
        apply (HS _ b0 eq_refl).
    - apply wp_ret. destruct w0; apply HN. reflexivity. }
  destruct (match cur with Some i => Nat.eqb i (page_id p) | None => false end) eqn:Hcur.
  - apply wp_modifyCtx. cbv beta iota. ctx_simpl.
    rewrite at_index_next.
    assert (Hc : cur = Some (page_id p)).
    { destruct cur as [i|]; [|discriminate]. apply Nat.eqb_eq in Hcur. congruence. }
    apply wp_bind, wp_getCtx. cbv beta iota. ctx_simpl.
    apply wp_bind, wp_when.
    destruct (Nat.eqb (List.length (before ++ after)) 0) eqn:Hlen.
    + apply Nat.eqb_eq, length_zero_iff_nil in Hlen.
      apply Hclose; ctx_simpl; intros tr' **; cbv beta iota; apply wp_ret; cbv beta iota; ctx_simpl;
        repeat match goal with |- _ /\ _ => split end;
        try reflexivity; try assumption; try (intros; congruence);
        unfold ctxInv; cbn [ctx fresh]; apply Hinv; auto;
        first [ intros _; exact Hlen | apply nextCurrent_In ].
    + cbv beta iota. apply wp_ret. cbv beta iota. ctx_simpl.
      assert (Hne : (before ++ after)%list <> []).
      { intros E. rewrite E in Hlen. discriminate. }
      repeat match goal with |- _ /\ _ => split end;
        try reflexivity; try assumption; try (intros; congruence).
      * intros _. split; reflexivity.
      * unfold ctxInv; cbn [ctx fresh]. intros HI. apply Hinv; auto.
        -- apply nextCurrent_None.
        -- apply nextCurrent_In.
        -- intros ->. destruct HI as (_ & _ & _ & _ & H5 & _). cbn in H5.
           specialize (H5 eq_refl). destruct before; discriminate.
  - assert (Hc : cur <> Some (page_id p)).
    { intros ->. rewrite Nat.eqb_refl in Hcur. discriminate. }
    assert (Hin : ctxInvOn {| _browserContextPromise := bc;
                              _tabs := before ++ p :: after;
                              _currentTab := cur; _videoRecordingEnabled := en;
                              _videoRecordingOptions := opts |} n ->
                  forall i, cur = Some i -> In i (map page_id (before ++ after))).
    { intros (_ & _ & H3 & _) i ->. cbn in H3.
      specialize (H3 i eq_refl). rewrite map_app in *. simpl in H3.
      rewrite in_app_iff in *. simpl in H3.
      destruct H3 as [H3|[H3|H3]]; auto. congruence. }
    apply wp_bind, wp_getCtx. cbv beta iota. ctx_simpl.
    apply wp_bind, wp_when.
    destruct (Nat.eqb (List.length (before ++ after)) 0) eqn:Hlen.
    + apply Nat.eqb_eq, length_zero_iff_nil in Hlen.
      assert (Hcn : ctxInvOn {| _browserContextPromise := bc;
                                _tabs := before ++ p :: after;
                                _currentTab := cur; _videoRecordingEnabled := en;
                                _videoRecordingOptions := opts |} n -> cur = None).
      { intros HI. destruct cur as [i|]; [|reflexivity].
        specialize (Hin HI i eq_refl). rewrite Hlen in Hin. destruct Hin. }
      apply Hclose; ctx_simpl; intros tr' **; cbv beta iota; apply wp_ret; cbv beta iota; ctx_simpl;
        repeat match goal with |- _ /\ _ => split end;
        try reflexivity; try assumption; try (intros; congruence);
        unfold ctxInv; cbn [ctx fresh]; intros HI; apply Hinv; auto;
        first [ intros _; exact Hlen
              | intros i Hi; rewrite (Hcn HI) in Hi; discriminate ].
    + cbv beta iota. apply wp_ret. cbv beta iota. ctx_simpl.
      assert (Hne : (before ++ after)%list <> []).
      { intros E. rewrite E in Hlen. discriminate. }
      repeat match goal with |- _ /\ _ => split end;
        try reflexivity; try assumption; try (intros; congruence).
      * intros _. split; reflexivity.
      * unfold ctxInv; cbn [ctx fresh]. intros HI. apply Hinv; auto.
        -- intros ->. destruct HI as (_ & _ & _ & H4 & _). cbn in H4.
           specialize (H4 eq_refl). destruct before; discriminate.
        -- intros ->. destruct HI as (_ & _ & _ & _ & H5 & _). cbn in H5.
           specialize (H5 eq_refl). destruct before; discriminate.
Qed.

(** [_onPageClosed] for a tab that is not open only filters the modal
    states: the world is unchanged. *)
Theorem onPageClosed_unknown_tab env tab ms w :
  ~ In tab (map page_id (_tabs (ctx w))) ->
  _onPageClosed env tab ms w
    = (w, Ok (filter (fun st => negb (Nat.eqb (ms_tab st) tab)) ms)).
Proof.
  intros H. unfold _onPageClosed. cbv zeta.
  rewrite bind_run. unfold getCtx at 1. cbv beta iota.
  rewrite (indexOf_none tab _ H). reflexivity.
Qed.

Lemma at_index_in_range {A} (l : list A) (i : Z) :
  (0 <= i < Z.of_nat (List.length l))%Z <-> at_index l i <> None.
Proof.
  unfold at_index. destruct (Z.ltb_spec i 0).
  - split; [lia|congruence].
  - rewrite nth_error_Some. lia.
Qed.

(** [selectTab] assigns [_tabs[index - 1]] before it uses it: the tabs are
    kept; for an index outside [1 .. length] it throws a [TypeError] and
    leaves the context without a current tab, so [currentTabOrDie] throws
    from then on although tabs are open; for an index inside the range the
    tab at that position is current, and the call succeeds exactly when
    [bringToFront] does. *)
Theorem selectTab_spec bringToFront index w :
  let w' := fst (selectTab bringToFront index w) in
  _tabs (ctx w') = _tabs (ctx w) /\
  _currentTab (ctx w') = option_map page_id (at_index (_tabs (ctx w)) (index - 1)) /\
  ((index < 1 \/ Z.of_nat (List.length (_tabs (ctx w))) < index)%Z ->
     snd (selectTab bringToFront index w) = Throw (PlatformError "TypeError") /\
     _currentTab (ctx w') = None /\
     currentTabOrDie w' = (w', Throw NoCurrentSnapshot)) /\
  ((1 <= index <= Z.of_nat (List.length (_tabs (ctx w))))%Z ->
     (exists p, nth_error (_tabs (ctx w)) (Z.to_nat (index - 1)) = Some p /\
                _currentTab (ctx w') = Some (page_id p)) /\
     snd (selectTab bringToFront index w) =
       if bringToFront then Ok tt else Throw (PlatformError "bringToFront")).
Proof.
  cbv zeta. as_wp (selectTab bringToFront index) w.
  unfold selectTab. apply wp_bind, wp_modifyCtx. cbv beta iota.
  apply wp_bind, wp_getCtx. cbv beta iota. ctx_simpl.
  pose proof (at_index_in_range (_tabs (ctx w)) (index - 1)) as Hr.
  destruct (at_index (_tabs (ctx w)) (index - 1)) as [p|] eqn:Hat; cbn [option_map].
  - assert (Hin : (0 <= index - 1 < Z.of_nat (List.length (_tabs (ctx w))))%Z).
    { apply Hr. discriminate. }
    assert (Hnth : nth_error (_tabs (ctx w)) (Z.to_nat (index - 1)) = Some p).
    { unfold at_index in Hat. destruct (Z.ltb_spec (index - 1) 0); [lia|exact Hat]. }
    destruct bringToFront; [apply wp_ret|apply wp_throw]; cbv beta iota; ctx_simpl;
      (split; [reflexivity|]); (split; [reflexivity|]);
      (split; [intros; lia|]); intros _; (split; [exists p; auto|reflexivity]).
  - assert (Hout : ~ (0 <= index - 1 < Z.of_nat (List.length (_tabs (ctx w))))%Z).
    { intros H. apply Hr in H. congruence. }
    apply wp_throw. cbv beta iota. ctx_simpl.
    split; [reflexivity|]. split; [reflexivity|]. split; [|intros; lia].
    intros _. repeat split.
Qed.





Lemma startVideoRecording_sets_flag_first_witness :
  snd (startVideoRecording (closeFailsEnv 300) (Some sampleRecordVideo) browsingWorld)
    = Throw (PlatformError "close") /\
  _videoRecordingEnabled
    (ctx (fst (startVideoRecording (closeFailsEnv 300) (Some sampleRecordVideo)
                 browsingWorld))) = true /\
  startVideoRecording (calmEnv 400 "/out/video.webm") (Some sampleRecordVideo)
    (fst (startVideoRecording (closeFailsEnv 300) (Some sampleRecordVideo)
            browsingWorld))
  = (fst (startVideoRecording (closeFailsEnv 300) (Some sampleRecordVideo)
            browsingWorld),
     Throw VideoRecordingAlreadyEnabled).
Proof.
  assert (Hf : snd (startVideoRecording (closeFailsEnv 300) (Some sampleRecordVideo)
                      browsingWorld) = Throw (PlatformError "close"))
    by (vm_compute; reflexivity).
  pose proof (startVideoRecording_sets_flag_first (closeFailsEnv 300)
                (Some sampleRecordVideo) browsingWorld eq_refl) as H.
  cbv zeta in H.
  exact (conj Hf (conj (proj1 H)
           (proj2 (proj2 H) (calmEnv 400 "/out/video.webm") (Some sampleRecordVideo)))).
Defined.

Lemma onPageClosed_spec_witness :
  _currentTab (ctx browsingWorld) = Some 1%nat /\
  _tabs (ctx (fst (_onPageClosed (calmEnv 300 "/out/video.webm") 1 sampleModalStates
                     browsingWorld)))
    = [ {| page_id := 2; page_url := "about:blank" |} ] /\
  _currentTab (ctx (fst (_onPageClosed (calmEnv 300 "/out/video.webm") 1
                           sampleModalStates browsingWorld))) = Some 2%nat /\
  snd (_onPageClosed (calmEnv 300 "/out/video.webm") 1 sampleModalStates browsingWorld)
    = Ok [ {| ms_tab := 7; ms_description := "dialog" |} ].
Proof.
  assert (Hnd : NoDup (map page_id (_tabs (ctx browsingWorld)))).
  { cbn. constructor; [intros [H|[]]; discriminate H|].
    constructor; [intros []|constructor]. }
  pose proof (onPageClosed_spec (calmEnv 300 "/out/video.webm") sampleModalStates
                browsingWorld []
                {| page_id := 1; page_url := "https://example.com/" |}
                [ {| page_id := 2; page_url := "about:blank" |} ]
                eq_refl Hnd) as H.
  cbv zeta in H.
  exact (conj eq_refl (conj (proj1 (proj2 H))
           (conj (proj1 (proj2 (proj2 (proj2 H))) eq_refl) (proj1 H)))).
Defined.

Lemma onPageClosed_unknown_tab_witness :
  _onPageClosed (calmEnv 300 "/out/video.webm") 7 sampleModalStates browsingWorld
    = (browsingWorld, Ok [ {| ms_tab := 1; ms_description := "file chooser" |} ]).
Proof.
  assert (Hn : ~ In 7%nat (map page_id (_tabs (ctx browsingWorld)))).
  { cbn. intros [H|[H|[]]]; discriminate H. }
  exact (onPageClosed_unknown_tab (calmEnv 300 "/out/video.webm") 7 sampleModalStates
           browsingWorld Hn).
Defined.


